(** * Byte-Size AI: conversation store, model catalogue and request router

    A shallow embedding of the backend ([server/index.js], [server/db.js])
    and of the decision logic of the browser client ([src/App.jsx]),
    together with the properties of the design document that can be
    stated over it.

    Conventions of the embedding.
    - A JavaScript value that can come out of [JSON.parse] (plus
      [undefined], which property reads produce) is a [jsval].
    - A JavaScript string is a [string]; every [ascii] stands for one
      code unit in the range U+0000..U+00FF.  [toLowerCase], [trim] and
      the regular expression of the router are exact on that range.
    - A JavaScript number is a [jsnum]: NaN, the two infinities, or a
      finite value carried as a rational.  Only comparisons and signs of
      differences are ever observed, and those are exact on doubles.
    - A time value is an integer number of milliseconds since the epoch;
      an invalid [Date] is [None].
    - An exception is a value of [exn]; code that can throw returns
      [Exc A].
    - Built-ins of the language and of the libraries on which the program
      relies, and which are not part of the repository, are variables of
      the sections that use them: [ToString], [StringToNumber],
      [Date_parse], [LocalTZA], [toLocaleString], [JSON_stringify],
      [JSON_parse], [jwt_verify], and the upstream API itself.  The
      module [Builtins] gives executable readings of them, on which the
      program is run in the examples. *)

From stdpp Require Import gmap strings.
From Stdlib Require Import ZArith QArith List String Ascii Bool Lia Permutation.
From Stdlib Require Import DecimalString DecimalPos Sorted.
From Stdlib Require Import Lqa.
Import ListNotations.

Set Warnings "-register-all".
Local Open Scope string_scope.
Local Open Scope Z_scope.

(* ===================================================================== *)
(** ** Strings                                                            *)
(* ===================================================================== *)

Module Str.

Definition code (c : ascii) : N := N_of_ascii c.

(** [String.prototype.toLowerCase] on one code unit of U+0000..U+00FF:
    A-Z, and the Latin-1 capitals U+00C0..U+00DE except the
    multiplication sign U+00D7. *)
Definition lowerChar (c : ascii) : ascii :=
  let n := code c in
  if ((65 <=? n) && (n <=? 90))%N then ascii_of_N (n + 32)
  else if ((192 <=? n) && (n <=? 222) && negb (n =? 215))%N
       then ascii_of_N (n + 32)
       else c.

Fixpoint toLowerCase (s : string) : string :=
  match s with
  | EmptyString => EmptyString
  | String c r => String (lowerChar c) (toLowerCase r)
  end.

(** White space of [String.prototype.trim] within U+0000..U+00FF:
    TAB, LF, VT, FF, CR, SP and NBSP. *)
Definition isSpace (c : ascii) : bool :=
  let n := code c in
  (((9 <=? n) && (n <=? 13)) || (n =? 32) || (n =? 160))%N.

Fixpoint trimStart (s : string) : string :=
  match s with
  | EmptyString => EmptyString
  | String c r => if isSpace c then trimStart r else s
  end.

Fixpoint rev_acc (s acc : string) : string :=
  match s with
  | EmptyString => acc
  | String c r => rev_acc r (String c acc)
  end.

Definition rev (s : string) : string := rev_acc s EmptyString.

Definition trimEnd (s : string) : string := rev (trimStart (rev s)).

Definition trim (s : string) : string := trimEnd (trimStart s).

(** [s.includes(needle)] *)
Fixpoint includes (needle s : string) : bool :=
  String.prefix needle s ||
  match s with
  | EmptyString => false
  | String _ r => includes needle r
  end.

(** [s.slice(0, n)] for [0 <= n] *)
Definition slice0 (n : nat) (s : string) : string := String.substring 0 n s.

Definition isDigit (c : ascii) : bool :=
  let n := code c in ((48 <=? n) && (n <=? 57))%N.

Definition digitVal (c : ascii) : Z := Z.of_N (code c) - 48.

(** Decimal rendering of an integer, as [Number.prototype.toString]
    gives it for integers of magnitude below 10^21. *)
Definition ofZ (z : Z) : string := NilZero.string_of_int (Z.to_int z).

Definition digitChar (d : Z) : ascii := ascii_of_N (48 + Z.to_N d).

(** The [w] low decimal digits of [z]: [String(z).padStart(w, "0")] for
    [0 <= z < 10^w]. *)
Fixpoint pad (w : nat) (z : Z) : string :=
  match w with
  | O => EmptyString
  | S w' => String (digitChar ((z / 10 ^ Z.of_nat w') mod 10)) (pad w' z)
  end.

(** Some code unit of the string is not white space. *)
Fixpoint inked (s : string) : bool :=
  match s with
  | EmptyString => false
  | String c r => negb (isSpace c) || inked r
  end.

Fixpoint occurs (a : ascii) (s : string) : bool :=
  match s with
  | EmptyString => false
  | String c r => Ascii.eqb a c || occurs a r
  end.

End Str.

(* ===================================================================== *)
(** ** Numbers                                                            *)
(* ===================================================================== *)

Inductive jsnum : Type :=
| NaN
| NInf
| Fin (q : Q)
| PInf.

Module Num.

Definition zero : jsnum := Fin 0.
Definition one : jsnum := Fin 1.
Definition ofZ (z : Z) : jsnum := Fin (inject_Z z).

(** [a - b] *)
Definition sub (a b : jsnum) : jsnum :=
  match a, b with
  | NaN, _ | _, NaN => NaN
  | PInf, PInf | NInf, NInf => NaN
  | PInf, _ | _, NInf => PInf
  | NInf, _ | _, PInf => NInf
  | Fin x, Fin y => Fin (x - y)
  end.

(** [a === 0] (either zero) *)
Definition isZero (a : jsnum) : bool :=
  match a with
  | Fin q => Qeq_bool q 0
  | _ => false
  end.

(** [a < 0] and [a > 0]; both are false on NaN. *)
Definition ltZero (a : jsnum) : bool :=
  match a with
  | NInf => true
  | Fin q => match q ?= 0 with Lt => true | _ => false end
  | _ => false
  end%Q.

Definition gtZero (a : jsnum) : bool :=
  match a with
  | PInf => true
  | Fin q => match q ?= 0 with Gt => true | _ => false end
  | _ => false
  end%Q.

(** The order of the numbers that are not NaN. *)
Definition le (a b : jsnum) : Prop :=
  match a, b with
  | NaN, _ | _, NaN => False
  | NInf, _ => True
  | _, PInf => True
  | Fin x, Fin y => (x <= y)%Q
  | _, _ => False
  end.

(** [a === b] on numbers *)
Definition eqb (a b : jsnum) : bool :=
  match a, b with
  | NInf, NInf | PInf, PInf => true
  | Fin x, Fin y => Qeq_bool x y
  | _, _ => false
  end.

End Num.

(* ===================================================================== *)
(** ** Values                                                             *)
(* ===================================================================== *)

(** The fields of an object are kept in the order of the text; an
    object that [JSON.parse] built has no repeated key. *)
Inductive jsval : Type :=
| VUndefined
| VNull
| VBool (b : bool)
| VNum (n : jsnum)
| VStr (s : string)
| VArr (items : list jsval)
| VObj (fields : list (string * jsval)).

Inductive exn : Type :=
| TypeError
| RangeError
| SyntaxError
| AxiosError (response : option (Z * jsval)).

Inductive Exc (A : Type) : Type :=
| Ret (a : A)
| Throw (e : exn).
Arguments Ret {A} a.
Arguments Throw {A} e.

(** Sequencing: an exception of the first computation skips the rest. *)
#[export] Instance Exc_ret : MRet Exc := fun A a => Ret a.
#[export] Instance Exc_bind : MBind Exc := fun A B k m =>
  match m with
  | Ret a => k a
  | Throw e => Throw e
  end.

(** Induction on values, through arrays and objects. *)
Section Induction.
Variable P : jsval -> Prop.
Hypothesis Hundef : P VUndefined.
Hypothesis Hnull : P VNull.
Hypothesis Hbool : forall b, P (VBool b).
Hypothesis Hnum : forall n, P (VNum n).
Hypothesis Hstr : forall s, P (VStr s).
Hypothesis Harr : forall items, Forall P items -> P (VArr items).
Hypothesis Hobj :
  forall fields, Forall (fun kv => P (snd kv)) fields -> P (VObj fields).

Fixpoint jsval_induction (v : jsval) : P v :=
  match v with
  | VUndefined => Hundef
  | VNull => Hnull
  | VBool b => Hbool b
  | VNum n => Hnum n
  | VStr s => Hstr s
  | VArr items =>
      Harr items
        ((fix all (l : list jsval) : Forall P l :=
            match l with
            | [] => @Forall_nil jsval P
            | x :: r => @Forall_cons jsval P x r (jsval_induction x) (all r)
            end) items)
  | VObj fields =>
      Hobj fields
        ((fix all (l : list (string * jsval))
            : Forall (fun kv => P (snd kv)) l :=
            match l with
            | [] => @Forall_nil (string * jsval) (fun kv => P (snd kv))
            | kv :: r =>
                @Forall_cons (string * jsval) (fun kv => P (snd kv)) kv r
                  (jsval_induction (snd kv)) (all r)
            end) fields)
  end.
End Induction.

Module Js.

(** ToBoolean *)
Definition truthy (v : jsval) : bool :=
  match v with
  | VUndefined | VNull => false
  | VBool b => b
  | VNum NaN => false
  | VNum n => negb (Num.isZero n)
  | VStr s => negb (String.eqb s "")
  | VArr _ | VObj _ => true
  end.

(** [a || b] *)
Definition or (a b : jsval) : jsval := if truthy a then a else b.

Fixpoint assoc (k : string) (fields : list (string * jsval)) : jsval :=
  match fields with
  | [] => VUndefined
  | (k', v) :: rest => if String.eqb k k' then v else assoc k rest
  end.

Definition nullish (v : jsval) : bool :=
  match v with
  | VUndefined | VNull => true
  | _ => false
  end.

(** The read [v.k] of an own property on a value that is not [null]
    or [undefined].  The names the program reads are none of those that
    the prototypes of objects, arrays and strings define, except
    [length], so inherited properties play no part. *)
Definition own (k : string) (v : jsval) : jsval :=
  match v with
  | VObj fields => assoc k fields
  | VArr items =>
      if String.eqb k "length" then VNum (Num.ofZ (Z.of_nat (List.length items)))
      else VUndefined
  | VStr s =>
      if String.eqb k "length" then VNum (Num.ofZ (Z.of_nat (String.length s)))
      else VUndefined
  | _ => VUndefined
  end.

(** [v.k]: throws on [null] and [undefined]. *)
Definition get (k : string) (v : jsval) : Exc jsval :=
  if nullish v then Throw TypeError else Ret (own k v).

(** [v?.k] *)
Definition getq (k : string) (v : jsval) : jsval :=
  if nullish v then VUndefined else own k v.

(** [v?.[0]] *)
Definition idx0q (v : jsval) : jsval :=
  match v with
  | VArr (x :: _) => x
  | VStr (String c _) => VStr (String c EmptyString)
  | VObj fields => assoc "0" fields
  | _ => VUndefined
  end.

(** A path into a value, read with optional chaining at every step:
    the result is [undefined] as soon as something is missing. *)
Inductive Key : Type :=
| Field (k : string)
| First.

Definition step (v : jsval) (k : Key) : jsval :=
  match k with
  | Field k => getq k v
  | First => idx0q v
  end.

Definition readPath (path : list Key) (v : jsval) : jsval :=
  fold_left step path v.

(** [a === b].  Two arrays or two objects are equal only when they are
    the same reference; values read out of two different places of
    parsed JSON never are, so the comparison is false on them. *)
Definition strictEq (a b : jsval) : bool :=
  match a, b with
  | VUndefined, VUndefined => true
  | VNull, VNull => true
  | VBool x, VBool y => Bool.eqb x y
  | VNum x, VNum y => Num.eqb x y
  | VStr x, VStr y => String.eqb x y
  | _, _ => false
  end.

(** [Array.isArray(v) && v.includes(s)] for a string [s] *)
Definition arrayIncludes (s : string) (v : jsval) : bool :=
  match v with
  | VArr items => existsb (strictEq (VStr s)) items
  | _ => false
  end.

End Js.

(* ===================================================================== *)
(** ** Time values                                                        *)
(* ===================================================================== *)

Module DateTime.

Definition msPerDay : Z := 86400000.

(** The largest magnitude of a time value (TimeClip). *)
Definition maxTime : Z := 8640000000000000.

Definition TimeClip (t : Z) : option Z :=
  if Z.abs t <=? maxTime then Some t else None.

Definition Day (t : Z) : Z := t / msPerDay.
Definition TimeWithinDay (t : Z) : Z := t mod msPerDay.

(** Day number (days since 1970-01-01) of a date of the proleptic
    Gregorian calendar; [m] counts from 1.  This is MakeDay for a month
    and a day in range. *)
Definition daysFromCivil (y m d : Z) : Z :=
  let y' := if m <=? 2 then y - 1 else y in
  let era := y' / 400 in
  let yoe := y' - era * 400 in
  let mp := if 2 <? m then m - 3 else m + 9 in
  let doy := (153 * mp + 2) / 5 + d - 1 in
  let doe := yoe * 365 + yoe / 4 - yoe / 100 + doy in
  era * 146097 + doe - 719468.

(** Year, month (from 1) and day of the month of a day number. *)
Definition civilFromDays (days : Z) : Z * Z * Z :=
  let z := days + 719468 in
  let era := z / 146097 in
  let doe := z - era * 146097 in
  let yoe := (doe - doe / 1460 + doe / 36524 - doe / 146096) / 365 in
  let doy := doe - (365 * yoe + yoe / 4 - yoe / 100) in
  let mp := (5 * doy + 2) / 153 in
  let d := doy - (153 * mp + 2) / 5 + 1 in
  let m := if mp <? 10 then mp + 3 else mp - 9 in
  let y := yoe + era * 400 in
  ((if m <=? 2 then y + 1 else y), m, d).

Definition YearFromTime (t : Z) : Z := fst (fst (civilFromDays (Day t))).
Definition MonthFromTime (t : Z) : Z := snd (fst (civilFromDays (Day t))) - 1.
Definition DateFromTime (t : Z) : Z := snd (civilFromDays (Day t)).
Definition HourFromTime (t : Z) : Z := TimeWithinDay t / 3600000.
Definition MinFromTime (t : Z) : Z := (TimeWithinDay t / 60000) mod 60.
Definition SecFromTime (t : Z) : Z := (TimeWithinDay t / 1000) mod 60.
Definition msFromTime (t : Z) : Z := TimeWithinDay t mod 1000.

(** The year of an ISO string: four digits for 0..9999, otherwise a
    sign and six digits. *)
Definition isoYear (y : Z) : string :=
  if (0 <=? y) && (y <=? 9999) then Str.pad 4 y
  else (if y <? 0 then "-" else "+") +:+ Str.pad 6 (Z.abs y).

(** The date portion of the ISO form, [YYYY-MM-DD]. *)
Definition isoDate (t : Z) : string :=
  Str.pad 4 (YearFromTime t) +:+ "-" +:+ Str.pad 2 (MonthFromTime t + 1)
    +:+ "-" +:+ Str.pad 2 (DateFromTime t).

(** [Date.prototype.toISOString] of a valid time value. *)
Definition isoString (t : Z) : string :=
  isoYear (YearFromTime t) +:+ "-" +:+ Str.pad 2 (MonthFromTime t + 1)
    +:+ "-" +:+ Str.pad 2 (DateFromTime t)
    +:+ "T" +:+ Str.pad 2 (HourFromTime t)
    +:+ ":" +:+ Str.pad 2 (MinFromTime t)
    +:+ ":" +:+ Str.pad 2 (SecFromTime t)
    +:+ "." +:+ Str.pad 3 (msFromTime t) +:+ "Z".

Section Local.
(** [LocalTZA t isUTC]: the offset of the local time zone, in
    milliseconds, as ECMAScript defines it. *)
Variable LocalTZA : Z -> bool -> Z.

Definition LocalTime (t : Z) : Z := t + LocalTZA t true.
Definition UTC (t : Z) : Z := t - LocalTZA t false.

(** [d.getFullYear()] of a valid date *)
Definition getFullYear (t : Z) : Z := YearFromTime (LocalTime t).

(** [new Date(year, month, day)] with integer arguments, [month]
    counting from 0 and in 0..11, [day] in range: local midnight of
    that day.  A year in 0..99 means 1900 + year. *)
Definition newDateLocal (year month day : Z) : option Z :=
  let yr := if (0 <=? year) && (year <=? 99) then 1900 + year else year in
  TimeClip (UTC (daysFromCivil yr (month + 1) day * msPerDay)).
End Local.

(** Local midnight of 25 December of year [y], as a time value. *)
Definition christmas (LocalTZA : Z -> bool -> Z) (y : Z) : Z :=
  UTC LocalTZA (daysFromCivil y 12 25 * msPerDay).

End DateTime.

(* ===================================================================== *)
(** ** HTTP: what a handler answers and what it asks upstream             *)
(* ===================================================================== *)

(** The [details] field of an error body: the data of the upstream
    response, or the message of the exception that was caught. *)
Inductive Details : Type :=
| DData (v : jsval)
| DMessage (e : exn).

(** One request of the backend to the upstream model API (axios). *)
Record UpstreamCall : Type := {
  up_method : string;
  up_url : string;
  up_title : string;
  up_body : jsval;
  up_timeout : option Z
}.

(** What axios does with the call: the promise is fulfilled with the
    data of a 2xx response, or rejected with an error that carries the
    response (status and data) when there was one. *)
Inductive AxiosOutcome : Type :=
| Fulfilled (data : jsval)
| Rejected (response : option (Z * jsval)).

Definition awaitAxios (o : AxiosOutcome) : Exc jsval :=
  match o with
  | Fulfilled data => Ret data
  | Rejected response => Throw (AxiosError response)
  end.

(* ===================================================================== *)
(** ** Array.prototype.sort                                               *)
(* ===================================================================== *)

(** The sort of an array with a comparator.  A result of the comparator
    that is NaN counts as +0 (SortCompare).  The language fixes the
    result only for a consistent comparator: the sort is stable, and
    [StableSort.sorted_stable_unique] below shows that sortedness and
    stability leave one result, whatever the algorithm; this insertion
    sort computes it. *)
Module ArraySort.
Section Sort.
Context {A : Type} (comparefn : A -> A -> jsnum).

(** [comparefn x y > 0]: [x] has to come after [y]. *)
Definition after (x y : A) : bool := Num.gtZero (comparefn x y).

Fixpoint insert (x : A) (l : list A) : list A :=
  match l with
  | [] => [x]
  | y :: r => if after x y then y :: insert x r else x :: l
  end.

Fixpoint sort (l : list A) : list A :=
  match l with
  | [] => []
  | x :: r => insert x (sort r)
  end.

(** [x] may stand before [y]. *)
Definition notAfter (x y : A) : Prop := after x y = false.

(** Neither has to come after the other. *)
Definition tie (x y : A) : bool := negb (after x y) && negb (after y x).
End Sort.
End ArraySort.

(* ===================================================================== *)
(** ** The program                                                        *)
(* ===================================================================== *)

Module Catalog.

(** The descriptor that [GET /api/models] builds for a raw record. *)
Record ModelDescriptor : Type := {
  id : jsval;
  name : jsval;
  description : jsval;
  pricing_prompt : jsnum;
  pricing_completion : jsnum;
  isFree : bool;
  outputModalities : jsval;
  inputModalities : jsval;
  isImageCapable : bool;
  isVideoCapable : bool
}.

(** The comparator of both listings:
    [if (a.isFree && !b.isFree) return -1;
     if (!a.isFree && b.isFree) return 1;
     return a.pricing.prompt - b.pricing.prompt;] *)
Definition compareModels (a b : ModelDescriptor) : jsnum :=
  if isFree a && negb (isFree b) then Fin (-1)
  else if negb (isFree a) && isFree b then Fin 1
  else Num.sub (pricing_prompt a) (pricing_prompt b).

(** [rank]: [list.sort(compareModels)] *)
Definition rank (l : list ModelDescriptor) : list ModelDescriptor :=
  ArraySort.sort compareModels l.

Section Normalizer.
(** ToString, through ToPrimitive on an array or an object: a
    TypeError when the value has no primitive (an object whose own
    [toString] is not a function, or an array that holds one); and
    ToNumber on a string (StringToNumber). *)
Variable ToString : jsval -> Exc string.
Variable StringToNumber : string -> jsnum.

(** [Number(v)].  An array or an object is first turned into a
    string (its [valueOf] is not a primitive), which can throw. *)
Definition Number (v : jsval) : Exc jsnum :=
  match v with
  | VUndefined => Ret NaN
  | VNull => Ret Num.zero
  | VBool b => Ret (if b then Num.one else Num.zero)
  | VNum n => Ret n
  | VStr s => Ret (StringToNumber s)
  | VArr _ | VObj _ => s ← ToString v; Ret (StringToNumber s)
  end.

(** The body of [models.map((m) => { ... })].  The two conversions
    that [isFree] repeats give the numbers that they gave before. *)
Definition normalize (m : jsval) : Exc ModelDescriptor :=
  m_pricing ← Js.get "pricing" m;
  let pricing := Js.or m_pricing (VObj []) in
  promptPrice ← Number (Js.or (Js.own "prompt" pricing) (VNum Num.zero));
  completionPrice ←
    Number (Js.or (Js.own "completion" pricing) (VNum Num.zero));
  let arch := Js.or (Js.own "architecture" m) (VObj []) in
  let outputModalities :=
    Js.or (Js.or (Js.own "output_modalities" arch)
                 (Js.own "output_modalities" m)) (VArr []) in
  let inputModalities :=
    Js.or (Js.or (Js.own "input_modalities" arch)
                 (Js.own "input_modalities" m)) (VArr []) in
  let hasImage := Js.arrayIncludes "image" outputModalities in
  let hasVideo :=
    Js.arrayIncludes "video" outputModalities
    || Js.arrayIncludes "video" inputModalities in
  Ret {| id := Js.own "id" m;
         name := Js.own "name" m;
         description := Js.own "description" m;
         pricing_prompt := promptPrice;
         pricing_completion := completionPrice;
         isFree := Num.isZero promptPrice && Num.isZero completionPrice;
         outputModalities := outputModalities;
         inputModalities := inputModalities;
         isImageCapable := hasImage;
         isVideoCapable := hasVideo |}.

(** [models.map(f)] for an [f] that can throw: the first exception
    ends the whole map. *)
Fixpoint mapE {A B : Type} (f : A -> Exc B) (l : list A) : Exc (list B) :=
  match l with
  | [] => Ret []
  | x :: r => y ← f x; ys ← mapE f r; Ret (y :: ys)
  end.

(** [(response.data.data || []).map(...)]: calling [map] on a value
    that is not an array is a TypeError. *)
Definition mapModels (data : jsval) : Exc (list ModelDescriptor) :=
  d ← Js.get "data" data;
  match Js.or d (VArr []) with
  | VArr models => mapE normalize models
  | _ => Throw TypeError
  end.
End Normalizer.

End Catalog.

(** Bodies of the responses of the backend. *)
Inductive Body : Type :=
| BError (error : string) (details : option Details)
| BModels (models : list Catalog.ModelDescriptor)
| BReply (reply : jsval)
| BImage (reply : jsval) (imageUrl : jsval)
| BJson (v : jsval)
| BSuccess
| BNoRoute.

Record Response : Type := { status : Z; body : Body }.

Definition resJson (b : Body) : Response := {| status := 200; body := b |}.
Definition resStatus (s : Z) (b : Body) : Response := {| status := s; body := b |}.

Definition nl : string := String "010"%char EmptyString.
Definition dquote : string := String "034"%char EmptyString.

Module Server.
Import Catalog.

Definition modelsUrl : string := "https://openrouter.ai/api/v1/models".
Definition completionsUrl : string := "https://openrouter.ai/api/v1/chat/completions".

(** The table [chat_state (id TEXT PRIMARY KEY, data TEXT NOT NULL)]. *)
Abbreviation Table := (gmap string string).

Section Handlers.
Variable ToString : jsval -> Exc string.
Variable StringToNumber : string -> jsnum.
(** [Date.parse]; [None] is NaN. *)
Variable Date_parse : string -> option Z.
Variable LocalTZA : Z -> bool -> Z.
(** [d.toLocaleString("en-ZA", {...})] with the options of the router. *)
Variable toLocaleString : Z -> string.
Variable JSON_stringify : jsval -> string.
(** [JSON.parse]; [None] is a SyntaxError. *)
Variable JSON_parse : string -> option jsval.
(** [process.env.DEFAULT_IMAGE_MODEL] *)
Variable DEFAULT_IMAGE_MODEL : jsval.
(** The upstream API, as axios sees it. *)
Variable upstream : UpstreamCall -> AxiosOutcome.

(* ------------------------- models ------------------------------- *)

Definition listCall : UpstreamCall :=
  {| up_method := "GET"; up_url := modelsUrl;
     up_title := "Byte-Size AI (local dev)";
     up_body := VUndefined; up_timeout := None |}.

(** [GET /api/models] *)
Definition getModels : list UpstreamCall * Response :=
  ([listCall],
   match (data ← awaitAxios (upstream listCall);
          mapped ← mapModels ToString StringToNumber data;
          Ret (rank mapped)) with
   | Ret models => resJson (BModels models)
   | Throw _ =>
       resStatus 500 (BError "Failed to load models from OpenRouter." None)
   end).

(** [GET /api/video-models] *)
Definition getVideoModels : list UpstreamCall * Response :=
  ([listCall],
   match (data ← awaitAxios (upstream listCall);
          mapped ← mapModels ToString StringToNumber data;
          let videoModels := List.filter isVideoCapable mapped in
          Ret (rank videoModels)) with
   | Ret models => resJson (BModels models)
   | Throw _ => resStatus 500 (BError "Failed to load video models." None)
   end).

(* ------------------------- chat state --------------------------- *)

Definition emptySnapshot : jsval :=
  VObj [("projects", VArr []); ("chats", VArr [])].

(** [GET /api/chat-state] *)
Definition getChatState (db : Table) : Response :=
  match db !! "default" with
  | None => resJson (BJson emptySnapshot)
  | Some data =>
      match JSON_parse data with
      | Some parsed => resJson (BJson parsed)
      | None => resStatus 500 (BError "Failed to load chat state." None)
      end
  end.

(** [POST /api/chat-state]: the table afterwards and the response. *)
Definition postChatState (reqBody : jsval) (db : Table) : Table * Response :=
  match (projects ← Js.get "projects" reqBody;
         chats ← Js.get "chats" reqBody;
         Ret (projects, chats)) with
  | Throw _ => (db, resStatus 500 (BError "Failed to save chat state." None))
  | Ret (projects, chats) =>
      if negb (Js.truthy projects) || negb (Js.truthy chats)
      then (db, resStatus 400
                  (BError "Missing 'projects' or 'chats' in body." None))
      else
        let data :=
          JSON_stringify (VObj [("projects", projects); ("chats", chats)]) in
        (<["default" := data]> db, resJson BSuccess)
  end.

(* ------------------------- dates -------------------------------- *)

(** [new Date(v)] for a value of a JSON body; [None] is an invalid
    date.  An array or an object is first turned into a string, which
    can throw. *)
Definition newDate (v : jsval) : Exc (option Z) :=
  match v with
  | VUndefined | VNum NaN | VNum NInf | VNum PInf => Ret None
  | VNull => Ret (Some 0)
  | VBool b => Ret (Some (if b then 1 else 0))
  | VNum (Fin q) => Ret (DateTime.TimeClip (Z.quot (Qnum q) (Zpos (Qden q))))
  | VStr s => Ret (Date_parse s)
  | VArr _ | VObj _ => s ← ToString v; Ret (Date_parse s)
  end.

(** [clientDate ? new Date(clientDate) : new Date()] *)
Definition effectiveTimestamp (clientDate : jsval) (wallClock : Z)
  : Exc (option Z) :=
  if Js.truthy clientDate then newDate clientDate else Ret (Some wallClock).

(** The regular expression [/20\d{2}/] tried at the start of [s], and
    [parseInt] of what it matches. *)
Definition yearHere (s : string) : option Z :=
  match s with
  | String a (String b (String d1 (String d2 _))) =>
      if Ascii.eqb a "2" && Ascii.eqb b "0" && Str.isDigit d1 && Str.isDigit d2
      then Some (2000 + 10 * Str.digitVal d1 + Str.digitVal d2)
      else None
  | _ => None
  end.

(** [lower.match(/20\d{2}/)] followed by [parseInt(yearMatch[0], 10)]:
    the leftmost position at which the expression matches. *)
Fixpoint matchYear (s : string) : option Z :=
  match s with
  | EmptyString => None
  | String _ r =>
      match yearHere s with
      | Some y => Some y
      | None => matchYear r
      end
  end.

(** [Math.max(0, Math.ceil(diffMs / (1000 * 60 * 60 * 24)))] with
    [diffMs = target - now].  For two dates less than 2^26 days
    apart the difference is exact and the quotient is rounded to a
    double that is an integer only when the quotient is, so the
    ceiling is the ceiling of the exact quotient. *)
Definition daysUntil (target now : Z) : Z :=
  Z.max 0 (- ((- (target - now)) / (1000 * 60 * 60 * 24))).

(** A number in a template literal: NaN when a date was invalid. *)
Definition showNum (n : option Z) : string :=
  match n with
  | Some z => Str.ofZ z
  | None => "NaN"
  end.

Definition christmasYear (lower : string) (now : Z) : Z :=
  match matchYear lower with
  | Some y => y
  | None =>
      let targetYear := DateTime.getFullYear LocalTZA now in
      match DateTime.newDateLocal LocalTZA targetYear 11 25 with
      | Some christmasThisYear =>
          if christmasThisYear <? now then targetYear + 1 else targetYear
      | None => targetYear
      end
  end.

Definition christmasReply (lower isoNow : string) (now : Z) : string :=
  let targetYear := christmasYear lower now in
  let target := DateTime.newDateLocal LocalTZA targetYear 11 25 in
  let days := option_map (fun t => daysUntil t now) target in
  "There are " +:+ showNum days +:+ " days until Christmas "
    +:+ Str.ofZ targetYear +:+ ". (Based on current date "
    +:+ Str.slice0 10 isoNow +:+ ")".

(* ------------------------- text and date turns ------------------ *)

(** [prompt.trim()]: only a string has the method. *)
Definition callTrim (v : jsval) : Exc string :=
  match v with
  | VStr s => Ret (Str.trim s)
  | _ => Throw TypeError
  end.

Definition systemPrompt (brand mode : jsval) (humanDate isoNow : string)
  : Exc string :=
  brandText ← ToString brand;
  modeText ← ToString mode;
  Ret (Str.trim
    (nl +:+
     "You are Byte-Size AI, the personal AI assistant for Leonard van Rooyen."
     +:+ nl +:+
     "Brand: " +:+ brandText +:+ nl +:+
     "Mode: " +:+ modeText +:+ nl +:+
     nl +:+
     "Current real-world date & time (user's context) is: " +:+ humanDate
     +:+ " (ISO: " +:+ isoNow +:+ ")." +:+ nl +:+
     "Always use THIS runtime date/time for:" +:+ nl +:+
     "- " +:+ dquote +:+ "today" +:+ dquote +:+ ", "
          +:+ dquote +:+ "now" +:+ dquote +:+ ", "
          +:+ dquote +:+ "current year" +:+ dquote +:+ ", "
          +:+ dquote +:+ "this month" +:+ dquote +:+ ", "
          +:+ dquote +:+ "this week" +:+ dquote +:+ nl +:+
     "- counting days until/from a date" +:+ nl +:+
     "- anything involving deadlines, days remaining, or time differences."
     +:+ nl +:+
     nl +:+
     "Do NOT rely on your training cutoff date for time-related questions. If there is any conflict,"
     +:+ nl +:+
     "the runtime date above is the source of truth." +:+ nl +:+
     nl +:+
     "Stay consistent with Leonard's brand voice: professional, sharp, direct, but still human."
     +:+ nl +:+
     "Speak clearly, be practical, and avoid fluff." +:+ nl +:+
     "    ")).

Definition completionCall (model : jsval) (system prompt : string)
  : UpstreamCall :=
  {| up_method := "POST"; up_url := completionsUrl;
     up_title := "Byte-Size AI Studio";
     up_body :=
       VObj [("model", model);
             ("messages",
              VArr [VObj [("role", VStr "system"); ("content", VStr system)];
                    VObj [("role", VStr "user"); ("content", VStr prompt)]])];
     up_timeout := Some 60000 |}.

(** The [catch] of [/api/ai] and of [/api/image]. *)
Definition requestFailed (error : string) (e : exn) : Response :=
  match e with
  | AxiosError (Some (_, data)) => resStatus 500 (BError error (Some (DData data)))
  | _ => resStatus 500 (BError error (Some (DMessage e)))
  end.

(** [response.data.choices?.[0]?.message?.content
     || "No response received from OpenRouter."] *)
Definition aiReply (data : jsval) : Exc jsval :=
  choices ← Js.get "choices" data;
  Ret (Js.or (Js.getq "content" (Js.getq "message" (Js.idx0q choices)))
             (VStr "No response received from OpenRouter.")).

(** [POST /api/ai]; [wallClock] is the time of the server.  The
    result is the list of the upstream calls made and the response. *)
Definition postAi (reqBody : jsval) (wallClock : Z)
  : list UpstreamCall * Response :=
  match Js.get "prompt" reqBody with
  | Throw e => ([], requestFailed "AI request failed." e)
  | Ret prompt =>
  let brand := Js.own "brand" reqBody in
  let mode := Js.own "mode" reqBody in
  let modelId := Js.own "modelId" reqBody in
  let clientDate := Js.own "clientDate" reqBody in
  if negb (Js.truthy prompt)
  then ([], resStatus 400 (BError "Missing prompt." None))
  else
  match callTrim prompt with
  | Throw e => ([], requestFailed "AI request failed." e)
  | Ret trimmed =>
  if String.eqb trimmed ""
  then ([], resStatus 400 (BError "Missing prompt." None))
  else
  let promptText := match prompt with VStr s => s | _ => "" end in
  let now := effectiveTimestamp clientDate wallClock in
  match now with
  | Throw e => ([], requestFailed "AI request failed." e)
  | Ret None =>
      (* [now.toISOString()] throws on an invalid date *)
      ([], requestFailed "AI request failed." RangeError)
  | Ret (Some t) =>
  let isoNow := DateTime.isoString t in
  let humanDate := toLocaleString t in
  let lower := Str.toLowerCase promptText in
  if Str.includes "how many days" lower && Str.includes "christmas" lower
  then ([], resJson (BReply (VStr (christmasReply lower isoNow t))))
  else
    let model := Js.or modelId (VStr "openai/gpt-4o-mini") in
    match systemPrompt brand mode humanDate isoNow with
    | Throw e => ([], requestFailed "AI request failed." e)
    | Ret system =>
    let call := completionCall model system promptText in
    ([call],
     match (data ← awaitAxios (upstream call); aiReply data) with
     | Ret reply => resJson (BReply reply)
     | Throw e => requestFailed "AI request failed." e
     end)
    end
  end
  end
  end.

(* ------------------------- image turns -------------------------- *)

Definition imageCall (model : jsval) (prompt : jsval) : UpstreamCall :=
  {| up_method := "POST"; up_url := completionsUrl;
     up_title := "Byte-Size AI Image Generator";
     up_body :=
       VObj [("model", model);
             ("messages",
              VArr [VObj [("role", VStr "user"); ("content", prompt)]]);
             ("modalities", VArr [VStr "image"; VStr "text"]);
             ("stream", VBool false)];
     up_timeout := Some 120000 |}.

(** [response.data.choices?.[0]?.message || {}] *)
Definition imageMessage (data : jsval) : Exc jsval :=
  choices ← Js.get "choices" data;
  Ret (Js.or (Js.getq "message" (Js.idx0q choices)) (VObj [])).

(** The URL under the first of the two shapes,
    [images[0].image_url.url]. *)
Definition urlSnake (message : jsval) : jsval :=
  Js.getq "url" (Js.getq "image_url" (Js.idx0q (Js.own "images" message))).

(** The URL under the second shape, [images[0].imageUrl.url]. *)
Definition urlCamel (message : jsval) : jsval :=
  Js.getq "url" (Js.getq "imageUrl" (Js.idx0q (Js.own "images" message))).

(** [img?.image_url?.url || img?.imageUrl?.url || null] *)
Definition imageUrlOf (message : jsval) : jsval :=
  Js.or (Js.or (urlSnake message) (urlCamel message)) VNull.

(** [POST /api/image] *)
Definition postImage (reqBody : jsval) : list UpstreamCall * Response :=
  match Js.get "prompt" reqBody with
  | Throw e => ([], requestFailed "Image request failed." e)
  | Ret prompt =>
  let model := Js.own "model" reqBody in
  if negb (Js.truthy prompt)
  then ([], resStatus 400 (BError "Missing prompt for image generation." None))
  else
  match callTrim prompt with
  | Throw e => ([], requestFailed "Image request failed." e)
  | Ret trimmed =>
  if String.eqb trimmed ""
  then ([], resStatus 400 (BError "Missing prompt for image generation." None))
  else
    let imageModel :=
      Js.or (Js.or model DEFAULT_IMAGE_MODEL)
            (VStr "google/gemini-2.5-flash-image-preview") in
    let call := imageCall imageModel prompt in
    ([call],
     match (data ← awaitAxios (upstream call); imageMessage data) with
     | Throw e => requestFailed "Image request failed." e
     | Ret message =>
         let imageUrl := imageUrlOf message in
         if negb (Js.truthy imageUrl)
         then resStatus 500
                (BError "OpenRouter returned no image for this prompt." None)
         else resJson
                (BImage (Js.or (Js.own "content" message)
                               (VStr "Here is your generated image."))
                        imageUrl)
     end)
  end
  end.
End Handlers.
End Server.

(* ===================================================================== *)
(** ** The client                                                         *)
(* ===================================================================== *)

Module Client.
Import Catalog.

Definition MODES : list string :=
  ["Chat / Brain"; "Campaign Builder"; "Image Prompts"; "Video Prompts"].

Definition BRANDS : list string := ["DSSA"; "LVR"; "AI"].

Definition INITIAL_MESSAGES : jsval :=
  VArr [VObj [("role", VStr "system");
              ("text", VStr "WELCOME TO Leonard van Rooyen's personal AI. CHOOSE A BRAND, PICK A MODE, AND TELL ME WHAT YOU WANT TO CREATE.")]].

(** The state of the component [App] that the decisions below read. *)
Record State : Type := {
  token : jsval;
  activeBrand : string;
  activeMode : string;
  models : list ModelDescriptor;
  selectedModel : jsval;
  isLoadingModels : bool;
  modelError : jsval;
  selectedVideoModel : string;
  projects : jsval;
  chats : jsval;
  activeProjectId : jsval;
  activeChatId : jsval;
  expandedProjectId : jsval;
  messages : jsval
}.

Definition isImageMode (st : State) : bool :=
  String.eqb (activeMode st) "Image Prompts".
Definition isVideoMode (st : State) : bool :=
  String.eqb (activeMode st) "Video Prompts".

(** The predicate of [models.filter((m) => { ... })]:
    [if (isImageMode) return m.isImageCapable;
     if (isVideoMode) return m.isVideoCapable;
     return true;] *)
Definition compatible (mode : string) (m : ModelDescriptor) : bool :=
  if String.eqb mode "Image Prompts" then isImageCapable m
  else if String.eqb mode "Video Prompts" then isVideoCapable m
  else true.

(** The filter by capability: the models that a mode can use. *)
Definition filterByCapability (mode : string) (l : list ModelDescriptor)
  : list ModelDescriptor :=
  List.filter (compatible mode) l.

Definition filteredModels (st : State) : list ModelDescriptor :=
  filterByCapability (activeMode st) (models st).

Definition withSelectedModel (st : State) (v : jsval) : State :=
  {| token := token st; activeBrand := activeBrand st;
     activeMode := activeMode st; models := models st;
     selectedModel := v;
     isLoadingModels := isLoadingModels st; modelError := modelError st;
     selectedVideoModel := selectedVideoModel st;
     projects := projects st; chats := chats st;
     activeProjectId := activeProjectId st; activeChatId := activeChatId st;
     expandedProjectId := expandedProjectId st; messages := messages st |}.

Definition withActiveMode (st : State) (mode : string) : State :=
  {| token := token st; activeBrand := activeBrand st;
     activeMode := mode; models := models st;
     selectedModel := selectedModel st;
     isLoadingModels := isLoadingModels st; modelError := modelError st;
     selectedVideoModel := selectedVideoModel st;
     projects := projects st; chats := chats st;
     activeProjectId := activeProjectId st; activeChatId := activeChatId st;
     expandedProjectId := expandedProjectId st; messages := messages st |}.

(** The effect on [activeMode, models, selectedModel]:
    [if (!models.length) return;
     const compat = models.filter(...);
     if (!compat.length) return;
     if (!compat.some((m) => m.id === selectedModel))
       setSelectedModel(compat[0].id);] *)
Definition selectionEffect (st : State) : State :=
  match models st with
  | [] => st
  | _ :: _ =>
      match filterByCapability (activeMode st) (models st) with
      | [] => st
      | (first :: _) as compat =>
          if negb (existsb (fun m => Js.strictEq (id m) (selectedModel st)) compat)
          then withSelectedModel st (id first)
          else st
      end
  end.

(** Choosing a mode in the menu ([setActiveMode(mode)]), followed by
    the effect that the change triggers. *)
Definition changeMode (mode : string) (st : State) : State :=
  selectionEffect (withActiveMode st mode).

(** [filteredModels.find((m) => m.id === selectedModel) || null] *)
Definition selectedModelObj (st : State) : option ModelDescriptor :=
  List.find (fun m => Js.strictEq (id m) (selectedModel st)) (filteredModels st).

(** Whether the header renders "No models available for this mode.":
    the branch of [isVideoMode ? ... : ...] that holds the notice, and
    [!isLoadingModels && !modelError && filteredModels.length === 0]. *)
Definition noModelsNotice (st : State) : bool :=
  negb (isVideoMode st)
  && negb (isLoadingModels st)
  && negb (Js.truthy (modelError st))
  && (List.length (filteredModels st) =? 0)%nat.

(* ------------------------- sending a turn ------------------------- *)

Inductive Endpoint : Type := ApiAi | ApiImage | ApiVideo.

(** What [handleSend] does with the input before any response. *)
Inductive SendAction : Type :=
| Nothing
| AlertNotAuthenticated
| NoticeNoModelSelected
| Post (endpoint : Endpoint) (authorization : string) (reqBody : jsval).

Definition bearer (tok : jsval) : string :=
  match tok with
  | VStr s => "Bearer " +:+ s
  | _ => "Bearer "
  end.

(** [handleSend]; [clientNow] is the clock of the browser. *)
Definition handleSend (input : string) (clientNow : Z) (st : State)
  : SendAction :=
  let trimmed := Str.trim input in
  if String.eqb trimmed "" then Nothing
  else if negb (Js.truthy (token st)) then AlertNotAuthenticated
  else if isVideoMode st then
    Post ApiVideo (bearer (token st))
      (VObj [("prompt", VStr trimmed);
             ("aspectRatio", VStr "16:9");
             ("durationSeconds", VNum (Num.ofZ 6));
             ("audioEnabled", VBool true);
             ("model", VStr (selectedVideoModel st))])
  else if negb (Js.truthy (selectedModel st)) then NoticeNoModelSelected
  else
    let endpoint :=
      if isImageMode st && (0 <? List.length (filteredModels st))%nat
      then ApiImage else ApiAi in
    Post endpoint (bearer (token st))
      (VObj [("prompt", VStr trimmed);
             ("brand", VStr (activeBrand st));
             ("mode", VStr (activeMode st));
             ("modelId", selectedModel st);
             ("model", selectedModel st);
             ("clientDate", VStr (DateTime.isoString clientNow))]).

(* ------------------------- projects and chats --------------------- *)

(** [[...v]]: the elements of an array, the code units of a string; a
    value that is not iterable is a TypeError. *)
Fixpoint chars (s : string) : list jsval :=
  match s with
  | EmptyString => []
  | String c r => VStr (String c EmptyString) :: chars r
  end.

Definition spread (v : jsval) : Exc (list jsval) :=
  match v with
  | VArr items => Ret items
  | VStr s => Ret (chars s)
  | _ => Throw TypeError
  end.

Definition withStore (st : State)
    (projects' chats' activeProjectId' activeChatId' expandedProjectId'
     messages' : jsval) : State :=
  {| token := token st; activeBrand := activeBrand st;
     activeMode := activeMode st; models := models st;
     selectedModel := selectedModel st;
     isLoadingModels := isLoadingModels st; modelError := modelError st;
     selectedVideoModel := selectedVideoModel st;
     projects := projects'; chats := chats';
     activeProjectId := activeProjectId'; activeChatId := activeChatId';
     expandedProjectId := expandedProjectId'; messages := messages' |}.

(** [handleCreateProject]; [answer] is what [window.prompt] returned
    ([null] when dismissed), [newId] and [now] what [createId()] and
    [Date.now()] returned. *)
Definition handleCreateProject (answer : jsval) (newId : string) (now : Z)
    (st : State) : Exc State :=
  match answer with
  | VStr name =>
      if String.eqb (Str.trim name) "" then Ret st
      else
        let project :=
          VObj [("id", VStr newId); ("name", VStr (Str.trim name));
                ("createdAt", VNum (Num.ofZ now))] in
        prev ← spread (projects st);
        Ret (withStore st (VArr (prev ++ [project])) (chats st)
               (VStr newId) (activeChatId st) (VStr newId) (messages st))
  | _ => Ret st
  end.

(** [handleNewChat(projectIdOverride)]: [projectIdOverride ?? null] *)
Definition handleNewChat (projectIdOverride : jsval) (newId : string)
    (now : Z) (st : State) : Exc State :=
  let projectId :=
    if Js.nullish projectIdOverride then VNull else projectIdOverride in
  let chat :=
    VObj [("id", VStr newId); ("projectId", projectId);
          ("title", VStr "New chat"); ("messages", INITIAL_MESSAGES);
          ("createdAt", VNum (Num.ofZ now))] in
  prev ← spread (chats st);
  Ret (withStore st (projects st) (VArr (chat :: prev))
         projectId (VStr newId) (Js.or projectId VNull) INITIAL_MESSAGES).

(** The local storage of the browser. *)
Abbreviation Storage := (gmap string string).

Section Persistence.
Variable JSON_stringify : jsval -> string.

(** The effect on [projects, chats], under the heading SAVE:
    [localStorage.setItem("byteSizeProjects", JSON.stringify(projects));
     localStorage.setItem("byteSizeChats", JSON.stringify(chats));] *)
Definition saveEffect (st : State) (localStorage : Storage) : Storage :=
  <["byteSizeChats" := JSON_stringify (chats st)]>
    (<["byteSizeProjects" := JSON_stringify (projects st)]> localStorage).
End Persistence.

(** What [loadChatState] takes from the response of
    [GET /api/chat-state]: the stored projects and chats, or the
    decision to start from a fresh default project and chat. *)
Inductive Loaded : Type :=
| FromServer (serverProjects serverChats : jsval)
| FreshDefault.

Definition loadChatState (res : Response) : Loaded :=
  if negb ((200 <=? status res) && (status res <=? 299)) then FreshDefault
  else
    match body res with
    | BJson data =>
        if Js.nullish data then FreshDefault
        else
          let serverProjects := Js.or (Js.own "projects" data) (VArr []) in
          let serverChats := Js.or (Js.own "chats" data) (VArr []) in
          if Js.truthy (Js.or (Js.own "length" serverProjects)
                              (Js.own "length" serverChats))
          then FromServer serverProjects serverChats
          else FreshDefault
    | _ => FreshDefault
    end.

End Client.

(* ===================================================================== *)
(** ** A turn, end to end                                                 *)
(* ===================================================================== *)

Module Turn.
Import Client.

Section Turn.
Variable ToString : jsval -> Exc string.
Variable Date_parse : string -> option Z.
Variable LocalTZA : Z -> bool -> Z.
Variable toLocaleString : Z -> string.
Variable DEFAULT_IMAGE_MODEL : jsval.
Variable upstream : UpstreamCall -> AxiosOutcome.
(** The session gate: whether [jwt.verify(token, JWT_SECRET)]
    accepts the token. *)
Variable jwt_verify : string -> bool.

(** [requireAuth]: [None] lets the request through to the handler. *)
Definition requireAuth (authorization : string) : option Response :=
  let token :=
    if String.prefix "Bearer " authorization
    then String.substring 7 (String.length authorization - 7) authorization
    else "" in
  if String.eqb token ""
  then Some (resStatus 401 (BError "Unauthorized: missing token" None))
  else if jwt_verify token then None
  else Some (resStatus 401 (BError "Unauthorized: invalid token" None)).

(** The routes of the backend that a turn can reach.  The backend
    registers no route for [/api/video]: the framework answers 404
    and no handler runs. *)
Definition serve (endpoint : Endpoint) (authorization : string)
    (reqBody : jsval) (wallClock : Z) : list UpstreamCall * Response :=
  match endpoint with
  | ApiVideo => ([], resStatus 404 BNoRoute)
  | ApiAi =>
      match requireAuth authorization with
      | Some rejected => ([], rejected)
      | None =>
          Server.postAi ToString Date_parse LocalTZA toLocaleString
                        upstream reqBody wallClock
      end
  | ApiImage =>
      match requireAuth authorization with
      | Some rejected => ([], rejected)
      | None => Server.postImage DEFAULT_IMAGE_MODEL upstream reqBody
      end
  end.

(** One submission of the input box: the upstream calls that the
    backend makes and its response, when a request is sent at all. *)
Definition turn (input : string) (clientNow wallClock : Z) (st : State)
  : option (list UpstreamCall * Response) :=
  match handleSend input clientNow st with
  | Post endpoint authorization reqBody =>
      Some (serve endpoint authorization reqBody wallClock)
  | _ => None
  end.
End Turn.
End Turn.

(* ===================================================================== *)
(** ** The conversation store seen from the client                        *)
(* ===================================================================== *)

Module Store.
Section Store.
Variable JSON_stringify : jsval -> string.
Variable JSON_parse : string -> option jsval.

(** The conversation store: [save] is [POST /api/chat-state], [load]
    is [GET /api/chat-state]. *)
Definition save (snapshot : jsval) (db : Server.Table)
  : Server.Table * Response :=
  Server.postChatState JSON_stringify snapshot db.

Definition load (db : Server.Table) : Response :=
  Server.getChatState JSON_parse db.

(** The browser and the backend together: the state of the
    component, the local storage of the browser, the table of the
    backend. *)
Record World : Type := {
  app : Client.State;
  localStorage : Client.Storage;
  db : Server.Table
}.

(** A change of [projects] or [chats] in the component, followed by
    the effect that React runs because they changed.  The component
    issues no request here: its only request to [/api/chat-state] is
    the GET of [loadChatState]. *)
Definition commit (st' : Client.State) (w : World) : World :=
  {| app := st';
     localStorage := Client.saveEffect JSON_stringify st' (localStorage w);
     db := db w |}.

(** Reloading the page: what [loadChatState] obtains. *)
Definition reload (w : World) : Client.Loaded :=
  Client.loadChatState (load (db w)).
End Store.
End Store.

(* ===================================================================== *)
(** ** Built-ins, for running the program on concrete inputs              *)
(* ===================================================================== *)

(** Executable readings of the built-ins that the program takes as
    variables.  They cover the inputs of the examples below: decimal
    literals, integer numbers in JSON text, the ISO form of a date that
    [toISOString] produces, a time zone with a fixed offset. *)
Module Builtins.

Fixpoint digits (s : string) (acc : Z) : option (Z * string) :=
  match s with
  | String c r =>
      if Str.isDigit c then digits r (10 * acc + Str.digitVal c)
      else Some (acc, s)
  | EmptyString => Some (acc, s)
  end.

Definition startsWithDigit (s : string) : bool :=
  match s with
  | String c _ => Str.isDigit c
  | EmptyString => false
  end.

(** StringToNumber on [-]digits[.digits], read exactly; the empty
    string is 0 and anything else is NaN. *)
Definition StringToNumber (s : string) : jsnum :=
  let body (neg : bool) (t : string) : jsnum :=
    if negb (startsWithDigit t) then NaN
    else
      match digits t 0 with
      | Some (n, EmptyString) =>
          Fin (inject_Z (if neg then - n else n))
      | Some (n, String "." frac) =>
          if negb (startsWithDigit frac) then NaN
          else
            match digits frac 0 with
            | Some (f, EmptyString) =>
                let scale := 10 ^ Z.of_nat (String.length frac) in
                let m := n * scale + f in
                Fin (Qred (Qmake (if neg then - m else m) (Z.to_pos scale)))
            | _ => NaN
            end
      | _ => NaN
      end in
  match s with
  | EmptyString => Num.zero
  | String "-" t => body true t
  | _ => body false s
  end.

Definition showNumber (n : jsnum) : string :=
  match n with
  | NaN => "NaN"
  | PInf => "Infinity"
  | NInf => "-Infinity"
  | Fin q => Str.ofZ (Z.quot (Qnum q) (Zpos (Qden q)))
  end.

(** An own property of the name [k]. *)
Definition hasOwn (k : string) (fields : list (string * jsval)) : bool :=
  existsb (fun kv => String.eqb k (fst kv)) fields.

(** ToString; a number is rendered when it is an integer.  An array
    is joined with commas, [null] and [undefined] elements giving the
    empty string.  An object is turned into a primitive by the methods
    [toString] and [valueOf]: the inherited [valueOf] returns the object
    itself and the inherited [toString] returns "[object Object]", but
    an own property [toString] of a parsed object is never a function
    and hides the inherited one, and then the conversion is a
    TypeError. *)
Fixpoint ToString (v : jsval) : Exc string :=
  match v with
  | VUndefined => Ret "undefined"
  | VNull => Ret "null"
  | VBool true => Ret "true"
  | VBool false => Ret "false"
  | VNum n => Ret (showNumber n)
  | VStr s => Ret s
  | VArr items =>
      (fix join (l : list jsval) : Exc string :=
         match l with
         | [] => Ret ""
         | x :: r =>
             head ← (if Js.nullish x then Ret "" else ToString x);
             match r with
             | [] => Ret head
             | _ :: _ => tail ← join r; Ret (head +:+ "," +:+ tail)
             end
         end) items
  | VObj fields =>
      if hasOwn "toString" fields then Throw TypeError
      else Ret "[object Object]"
  end.

(** A time zone at a fixed offset from UTC, in milliseconds. *)
Definition fixedZone (offset : Z) : Z -> bool -> Z := fun _ _ => offset.

Definition twoDigits (a b : ascii) : option Z :=
  if Str.isDigit a && Str.isDigit b
  then Some (10 * Str.digitVal a + Str.digitVal b) else None.

(** [Date.parse] on [YYYY-MM-DDTHH:mm:ss.sssZ]. *)
Definition Date_parse (s : string) : option Z :=
  match list_ascii_of_string s with
  | [y1; y2; y3; y4; "-"; m1; m2; "-"; d1; d2; "T"; h1; h2; ":"; n1; n2; ":";
     s1; s2; "."; f1; f2; f3; "Z"]%char =>
      yh ← twoDigits y1 y2; yl ← twoDigits y3 y4;
      mo ← twoDigits m1 m2; dd ← twoDigits d1 d2;
      hh ← twoDigits h1 h2; mi ← twoDigits n1 n2; ss ← twoDigits s1 s2;
      fh ← twoDigits "0" f1; fl ← twoDigits f2 f3;
      if (1 <=? mo) && (mo <=? 12) && (1 <=? dd) && (dd <=? 31)
         && (hh <=? 23) && (mi <=? 59) && (ss <=? 59)
      then
        DateTime.TimeClip
          (DateTime.daysFromCivil (100 * yh + yl) mo dd * DateTime.msPerDay
           + hh * 3600000 + mi * 60000 + ss * 1000 + 100 * fh + fl)
      else None
  | _ => None
  end.

Definition toLocaleString (t : Z) : string := DateTime.isoString t.

(* ------------------------- JSON text ------------------------------ *)

Definition hexDigit (n : N) : ascii :=
  if (n <? 10)%N then ascii_of_N (48 + n) else ascii_of_N (87 + n).

(** One code unit inside a string literal. *)
Definition escapeChar (c : ascii) : string :=
  let n := Str.code c in
  if (n =? 34)%N then String "\" dquote
  else if (n =? 92)%N then "\\"
  else if (n =? 10)%N then "\n"
  else if (n =? 13)%N then "\r"
  else if (n =? 9)%N then "\t"
  else if (n =? 8)%N then "\b"
  else if (n =? 12)%N then "\f"
  else if (n <? 32)%N
       then "\u00" +:+ String (hexDigit (n / 16))
                              (String (hexDigit (n mod 16)) EmptyString)
       else String c EmptyString.

Fixpoint escape (s : string) : string :=
  match s with
  | EmptyString => EmptyString
  | String c r => escapeChar c +:+ escape r
  end.

Definition quoted (s : string) : string := dquote +:+ escape s +:+ dquote.

Fixpoint join (sep : string) (l : list string) : string :=
  match l with
  | [] => ""
  | [x] => x
  | x :: r => x +:+ sep +:+ join sep r
  end.

(** [JSON.stringify] of a value of a JSON body. *)
Fixpoint JSON_stringify (v : jsval) : string :=
  match v with
  | VUndefined | VNull | VNum NaN | VNum PInf | VNum NInf => "null"
  | VBool true => "true"
  | VBool false => "false"
  | VNum (Fin q) => Str.ofZ (Z.quot (Qnum q) (Zpos (Qden q)))
  | VStr s => quoted s
  | VArr items =>
      "[" +:+ join ","
               ((fix each (l : list jsval) : list string :=
                   match l with
                   | [] => []
                   | x :: r => JSON_stringify x :: each r
                   end) items) +:+ "]"
  | VObj fields =>
      "{" +:+ join ","
               ((fix each (l : list (string * jsval)) : list string :=
                   match l with
                   | [] => []
                   | (k, VUndefined) :: r => each r
                   | (k, x) :: r =>
                       (quoted k +:+ ":" +:+ JSON_stringify x) :: each r
                   end) fields) +:+ "}"
  end.

Definition isJsonSpace (c : ascii) : bool :=
  let n := Str.code c in ((n =? 32) || (n =? 9) || (n =? 10) || (n =? 13))%N.

Fixpoint skipWs (s : string) : string :=
  match s with
  | String c r => if isJsonSpace c then skipWs r else s
  | EmptyString => EmptyString
  end.

Fixpoint drop (n : nat) (s : string) : string :=
  match n, s with
  | S n', String _ r => drop n' r
  | _, _ => s
  end.

Definition literal (lit : string) (v : jsval) (s : string)
  : option (jsval * string) :=
  if String.prefix lit s then Some (v, drop (String.length lit) s) else None.

Definition hexVal (c : ascii) : option N :=
  let n := Str.code c in
  if ((48 <=? n) && (n <=? 57))%N then Some (n - 48)%N
  else if ((97 <=? n) && (n <=? 102))%N then Some (n - 87)%N
  else if ((65 <=? n) && (n <=? 70))%N then Some (n - 55)%N
  else None.

Definition unescape (c : ascii) : option ascii :=
  let n := Str.code c in
  if (n =? 34)%N || (n =? 92)%N || (n =? 47)%N then Some c
  else if (n =? 110)%N then Some "010"%char
  else if (n =? 114)%N then Some "013"%char
  else if (n =? 116)%N then Some "009"%char
  else if (n =? 98)%N then Some "008"%char
  else if (n =? 102)%N then Some "012"%char
  else None.

(** The rest of a string literal after its opening quote; [acc] holds
    the code units read so far, last first. *)
Fixpoint parseString (s acc : string) : option (string * string) :=
  match s with
  | EmptyString => None
  | String c r =>
      if (Str.code c =? 34)%N then Some (Str.rev acc, r)
      else if (Str.code c =? 92)%N then
        match r with
        | String "u" (String "0" (String "0" (String x (String y r')))) =>
            hi ← hexVal x; lo ← hexVal y;
            parseString r' (String (ascii_of_N (16 * hi + lo)) acc)
        | String e r' =>
            c' ← unescape e; parseString r' (String c' acc)
        | EmptyString => None
        end
      else if (Str.code c <? 32)%N then None
      else parseString r (String c acc)
  end.

Fixpoint setField (k : string) (v : jsval) (fields : list (string * jsval))
  : list (string * jsval) :=
  match fields with
  | [] => [(k, v)]
  | (k', v') :: r =>
      if String.eqb k k' then (k, v) :: r else (k', v') :: setField k v r
  end.

Definition parseInteger (s : string) : option (jsval * string) :=
  match s with
  | String "-" t =>
      if startsWithDigit t
      then '(n, rest) ← digits t 0; Some (VNum (Num.ofZ (- n)), rest)
      else None
  | _ =>
      if startsWithDigit s
      then '(n, rest) ← digits s 0; Some (VNum (Num.ofZ n), rest)
      else None
  end.

(** The rest of [s] after the code unit [c], when [s] begins with it. *)
Definition startsWith (c : ascii) (s : string) : option string :=
  match s with
  | String c' r => if Ascii.eqb c c' then Some r else None
  | EmptyString => None
  end.

(** A value whose text begins at [t], after white space: [elems] and
    [members] read what follows an opening bracket or brace. *)
Definition parseToken
    (elems : string -> list jsval -> option (list jsval * string))
    (members : string -> list (string * jsval)
               -> option (list (string * jsval) * string))
    (t : string) : option (jsval * string) :=
  match t with
  | EmptyString => None
  | String c r =>
      let n := Str.code c in
      if (n =? 110)%N then literal "null" VNull t
      else if (n =? 116)%N then literal "true" (VBool true) t
      else if (n =? 102)%N then literal "false" (VBool false) t
      else if (n =? 34)%N then
        '(str, rest) ← parseString r EmptyString; Some (VStr str, rest)
      else if (n =? 91)%N then
        match startsWith "]" (skipWs r) with
        | Some r' => Some (VArr [], r')
        | None => '(items, rest) ← elems r []; Some (VArr items, rest)
        end
      else if (n =? 123)%N then
        match startsWith "}" (skipWs r) with
        | Some r' => Some (VObj [], r')
        | None => '(fields, rest) ← members r []; Some (VObj fields, rest)
        end
      else parseInteger t
  end.

(** After an element of an array: a comma and more elements, or the
    closing bracket. *)
Definition afterElem
    (elems : string -> list jsval -> option (list jsval * string))
    (acc : list jsval) (rest : string) : option (list jsval * string) :=
  match skipWs rest with
  | String "," r => elems r acc
  | String "]" r => Some (acc, r)
  | _ => None
  end.

(** A key and its colon. *)
Definition parseKey (s : string) : option (string * string) :=
  match skipWs s with
  | String q r =>
      if (Str.code q =? 34)%N then
        '(k, rest) ← parseString r EmptyString;
        match skipWs rest with
        | String ":" r2 => Some (k, r2)
        | _ => None
        end
      else None
  | EmptyString => None
  end.

(** After a member of an object. *)
Definition afterMember
    (members : string -> list (string * jsval)
               -> option (list (string * jsval) * string))
    (acc : list (string * jsval)) (rest : string)
  : option (list (string * jsval) * string) :=
  match skipWs rest with
  | String "," r => members r acc
  | String "}" r => Some (acc, r)
  | _ => None
  end.

Fixpoint parseValue (fuel : nat) (s : string) {struct fuel}
  : option (jsval * string) :=
  match fuel with
  | O => None
  | S fuel' => parseToken (parseElems fuel') (parseMembers fuel') (skipWs s)
  end
with parseElems (fuel : nat) (s : string) (acc : list jsval) {struct fuel}
  : option (list jsval * string) :=
  match fuel with
  | O => None
  | S fuel' =>
      '(v, rest) ← parseValue fuel' s;
      afterElem (parseElems fuel') (acc ++ [v]) rest
  end
with parseMembers (fuel : nat) (s : string) (acc : list (string * jsval))
       {struct fuel} : option (list (string * jsval) * string) :=
  match fuel with
  | O => None
  | S fuel' =>
      '(k, r2) ← parseKey s;
      '(v, rest) ← parseValue fuel' r2;
      afterMember (parseMembers fuel') (setField k v acc) rest
  end.

(** [JSON.parse] on text whose numbers are integers. *)
Definition JSON_parse (s : string) : option jsval :=
  '(v, rest) ← parseValue (2 * String.length s + 2) s;
  if String.eqb (skipWs rest) "" then Some v else None.

(** The values that this JSON text carries unchanged: no [undefined],
    integer numbers, objects without a repeated key. *)
Inductive plain : jsval -> Prop :=
| plain_null : plain VNull
| plain_bool (b : bool) : plain (VBool b)
| plain_num (z : Z) : plain (VNum (Num.ofZ z))
| plain_str (s : string) : plain (VStr s)
| plain_arr (items : list jsval) : Forall plain items -> plain (VArr items)
| plain_obj (fields : list (string * jsval)) :
    NoDup (List.map fst fields) ->
    Forall (fun kv => plain (snd kv)) fields -> plain (VObj fields).

(** The number of values and of members in a value. *)
Fixpoint size (v : jsval) : nat :=
  match v with
  | VArr items =>
      S ((fix sum (l : list jsval) : nat :=
            match l with
            | [] => O
            | x :: r => S (size x + sum r)
            end) items)
  | VObj fields =>
      S ((fix sum (l : list (string * jsval)) : nat :=
            match l with
            | [] => O
            | (_, x) :: r => S (size x + sum r)
            end) fields)
  | _ => 1%nat
  end.

Fixpoint sizeList (l : list jsval) : nat :=
  match l with
  | [] => O
  | x :: r => S (size x + sizeList r)
  end.

Fixpoint sizeFields (l : list (string * jsval)) : nat :=
  match l with
  | [] => O
  | kv :: r => S (size (snd kv) + sizeFields r)
  end.

(** The text of a member of an object. *)
Definition member (kv : string * jsval) : string :=
  quoted (fst kv) +:+ ":" +:+ JSON_stringify (snd kv).

(** [v] is read back from its text, whatever follows the text, unless
    a digit follows. *)
Definition reads (v : jsval) : Prop :=
  forall fuel rest, (size v < fuel)%nat -> startsWithDigit rest = false ->
    parseValue fuel (JSON_stringify v +:+ rest) = Some (v, rest).

End Builtins.

(* ===================================================================== *)
(** ** The words of the design document                                   *)
(* ===================================================================== *)

Module Design.
Import Catalog.

(** A capability tag is in a modality field when the field is an array
    that holds the tag. *)
Definition hasModality (tag : string) (modalities : jsval) : bool :=
  Js.arrayIncludes tag modalities.

(** A field of a raw record is absent when reading it gives nothing
    that counts: [undefined], or a value that [||] passes over. *)
Definition absent (v : jsval) : Prop := Js.truthy v = false.
Definition present (v : jsval) : Prop := Js.truthy v = true.

(** The pricing object of a raw record and its architecture object,
    empty when the record has none. *)
Definition pricingOf (m : jsval) : jsval := Js.or (Js.own "pricing" m) (VObj []).
Definition architectureOf (m : jsval) : jsval :=
  Js.or (Js.own "architecture" m) (VObj []).

(** A modality field of a descriptor follows the design when it is the
    field of the architecture object if that is present, else the
    top-level field if that is present, else the empty array. *)
Definition modalityFallback (field : string) (m : jsval) (result : jsval)
  : Prop :=
  (present (Js.own field (architectureOf m)) ->
     result = Js.own field (architectureOf m))
  /\ (absent (Js.own field (architectureOf m)) -> present (Js.own field m) ->
        result = Js.own field m)
  /\ (absent (Js.own field (architectureOf m)) -> absent (Js.own field m) ->
        result = VArr []).

(** The price that the normalizer converts: the field of the pricing
    object, or 0 when the field is absent. *)
Definition priceOf (field : string) (m : jsval) : jsval :=
  Js.or (Js.own field (pricingOf m)) (VNum Num.zero).

(** A value that [Number] converts without throwing: a primitive, or
    an array or an object that [ToString] turns into a string. *)
Definition convertible (ToString : jsval -> Exc string) (v : jsval) : Prop :=
  match v with
  | VArr _ | VObj _ => exists s, ToString v = Ret s
  | _ => True
  end.

(** A raw record that the normalizer can read: it is not [null] and
    its two prices convert. *)
Definition readable (ToString : jsval -> Exc string) (m : jsval) : Prop :=
  Js.nullish m = false
  /\ convertible ToString (priceOf "prompt" m)
  /\ convertible ToString (priceOf "completion" m).

(** A value that has no primitive: an object with an own property
    [toString], or an array that holds such a value. *)
Fixpoint unprintable (v : jsval) : bool :=
  match v with
  | VObj fields => Builtins.hasOwn "toString" fields
  | VArr items => existsb unprintable items
  | _ => false
  end.

(** [d] is the descriptor that the design asks for the raw record [m]. *)
Definition describes (m : jsval) (d : ModelDescriptor) : Prop :=
  (absent (Js.own "prompt" (pricingOf m)) -> pricing_prompt d = Num.zero)
  /\ (absent (Js.own "completion" (pricingOf m)) ->
        pricing_completion d = Num.zero)
  /\ modalityFallback "output_modalities" m (outputModalities d)
  /\ modalityFallback "input_modalities" m (inputModalities d)
  /\ id d = Js.own "id" m
  /\ isImageCapable d = hasModality "image" (outputModalities d)
  /\ isVideoCapable d =
       (hasModality "video" (outputModalities d)
        || hasModality "video" (inputModalities d)).

(** A descriptor whose prompt price is a number. *)
Definition priced (d : ModelDescriptor) : Prop := pricing_prompt d <> NaN.

(** [a] may be listed before [b]: not a paid one before a free one,
    and with equal freeness by ascending prompt price. *)
Definition precedes (a b : ModelDescriptor) : Prop :=
  (isFree b = true -> isFree a = true)
  /\ (isFree a = isFree b -> Num.le (pricing_prompt a) (pricing_prompt b)).


(** The two shapes under which an image response can carry its URL, and
    the place of the text of a completion. *)
Definition shapeSnake : list Js.Key :=
  [Js.Field "choices"; Js.First; Js.Field "message"; Js.Field "images";
   Js.First; Js.Field "image_url"; Js.Field "url"].
Definition shapeCamel : list Js.Key :=
  [Js.Field "choices"; Js.First; Js.Field "message"; Js.Field "images";
   Js.First; Js.Field "imageUrl"; Js.Field "url"].
Definition contentPath : list Js.Key :=
  [Js.Field "choices"; Js.First; Js.Field "message"; Js.Field "content"].

(** The response carries no image URL under either shape. *)
Definition noImageUrl (data : jsval) : Prop :=
  absent (Js.readPath shapeSnake data) /\ absent (Js.readPath shapeCamel data).

(** The question that the router answers itself. *)
Definition asksDaysToChristmas (prompt : string) : bool :=
  Str.includes "how many days" (Str.toLowerCase prompt)
  && Str.includes "christmas" (Str.toLowerCase prompt).

(** The day number of the first day of year [y], as ECMAScript
    defines it; the year of a time value is the largest [y] whose first
    day is not after the day of the time value. *)
Definition DayFromYear (y : Z) : Z :=
  365 * (y - 1970) + (y - 1969) / 4 - (y - 1901) / 100 + (y - 1601) / 400.

(** The ceiling of [a / b] for a positive [b]. *)
Definition ceilDiv (a b : Z) : Z := (a + b - 1) / b.

(** The year whose Christmas the question is about: the four digits
    beginning with 20 that the prompt holds, if any; otherwise the year
    of [t] in the zone of the server, or the next one when 25 December
    of that year is already behind [t]. *)
Definition targetYear (LocalTZA : Z -> bool -> Z) (prompt : string) (t : Z) : Z :=
  match Server.matchYear (Str.toLowerCase prompt) with
  | Some y => y
  | None =>
      let y := DateTime.getFullYear LocalTZA t in
      if DateTime.christmas LocalTZA y <? t then y + 1 else y
  end.

(** The number of days to it, never negative. *)
Definition daysToChristmas (LocalTZA : Z -> bool -> Z) (prompt : string)
    (t : Z) : Z :=
  Z.max 0 (ceilDiv (DateTime.christmas LocalTZA (targetYear LocalTZA prompt t) - t)
                   86400000).

(** The reply to the question. *)
Definition christmasText (LocalTZA : Z -> bool -> Z) (prompt : string) (t : Z)
  : string :=
  "There are " +:+ Str.ofZ (daysToChristmas LocalTZA prompt t)
    +:+ " days until Christmas " +:+ Str.ofZ (targetYear LocalTZA prompt t)
    +:+ ". (Based on current date " +:+ DateTime.isoDate t +:+ ")".

(** An occurrence of the digits 20 followed by two more digits. *)
Definition yearAt (pre : string) (d1 d2 : ascii) (post s : string) : Prop :=
  s = pre +:+ String "2" (String "0" (String d1 (String d2 post)))
  /\ Str.isDigit d1 = true /\ Str.isDigit d2 = true.

End Design.

(* ===================================================================== *)
(** ** Concrete inputs                                                    *)
(* ===================================================================== *)

Module Samples.
Import Catalog.

Definition strs (l : list string) : jsval := VArr (List.map VStr l).

(** Four raw records of the catalogue: a paid model that produces
    images, a free text model, a video model that keeps its modalities
    at the top level, and a record with nothing but an id. *)
Definition rawPaidImage : jsval :=
  VObj [("id", VStr "acme/paint"); ("name", VStr "Paint");
        ("pricing", VObj [("prompt", VStr "0.000002");
                          ("completion", VStr "0.000004")]);
        ("architecture",
         VObj [("input_modalities", strs ["text"]);
               ("output_modalities", strs ["text"; "image"])])].

Definition rawFreeText : jsval :=
  VObj [("id", VStr "acme/talk"); ("name", VStr "Talk");
        ("pricing", VObj [("prompt", VStr "0"); ("completion", VStr "0")]);
        ("architecture",
         VObj [("input_modalities", strs ["text"]);
               ("output_modalities", strs ["text"])])].

Definition rawVideo : jsval :=
  VObj [("id", VStr "acme/film"); ("name", VStr "Film");
        ("pricing", VObj [("prompt", VStr "0.000001")]);
        ("output_modalities", strs ["video"])].

Definition rawBare : jsval := VObj [("id", VStr "acme/bare")].

Definition rawRecords : list jsval :=
  [rawPaidImage; rawFreeText; rawVideo; rawBare].

Definition catalogue : jsval := VObj [("data", VArr rawRecords)].

Definition catalogueUpstream : UpstreamCall -> AxiosOutcome :=
  fun _ => Fulfilled catalogue.

(** The descriptors of the four records. *)
Definition mapped : list ModelDescriptor :=
  Eval vm_compute in
    match mapModels Builtins.ToString Builtins.StringToNumber catalogue with
    | Ret l => l
    | Throw _ => []
    end.

(** A catalogue whose first record is [null]. *)
Definition catalogueWithNull : jsval :=
  VObj [("data", VArr [VNull; rawFreeText])].

(** A record whose prompt price is an object with a property
    [toString], as the text [{"toString": 1}] is parsed, and a catalogue
    that holds it. *)
Definition rawOddPrice : jsval :=
  VObj [("id", VStr "acme/odd");
        ("pricing", VObj [("prompt", VObj [("toString", VNum Num.one)])])].

Definition catalogueWithOddPrice : jsval :=
  VObj [("data", VArr [rawFreeText; rawOddPrice])].

(** The state of the client after login, with the ranked catalogue
    loaded and the free text model selected. *)
Definition chatState : Client.State :=
  {| Client.token := VStr "session-token";
     Client.activeBrand := "DSSA";
     Client.activeMode := "Chat / Brain";
     Client.models := rank mapped;
     Client.selectedModel := VStr "acme/talk";
     Client.isLoadingModels := false;
     Client.modelError := VNull;
     Client.selectedVideoModel := "fal-ai/ovi";
     Client.projects := VArr [];
     Client.chats := VArr [];
     Client.activeProjectId := VNull;
     Client.activeChatId := VNull;
     Client.expandedProjectId := VNull;
     Client.messages := Client.INITIAL_MESSAGES |}.

(** The same client in the image mode, after the effect selected the
    only model that produces images. *)
Definition imageState : Client.State :=
  Client.changeMode "Image Prompts" chatState.

(** A client whose catalogue holds text models only. *)
Definition textOnlyState : Client.State :=
  {| Client.token := VStr "session-token";
     Client.activeBrand := "DSSA";
     Client.activeMode := "Chat / Brain";
     Client.models :=
       List.filter (fun d => negb (isImageCapable d || isVideoCapable d))
                   (rank mapped);
     Client.selectedModel := VStr "acme/talk";
     Client.isLoadingModels := false;
     Client.modelError := VNull;
     Client.selectedVideoModel := "fal-ai/ovi";
     Client.projects := VArr [];
     Client.chats := VArr [];
     Client.activeProjectId := VNull;
     Client.activeChatId := VNull;
     Client.expandedProjectId := VNull;
     Client.messages := Client.INITIAL_MESSAGES |}.

Definition question : string := "How many days until christmas 2026?".

(** 2025-01-01T00:00:00.000Z *)
Definition newYear2025 : Z := 1735689600000.


Definition taglineRequest : jsval :=
  VObj [("prompt", VStr "Write a tagline"); ("brand", VStr "DSSA");
        ("mode", VStr "Chat / Brain"); ("modelId", VStr "acme/talk");
        ("model", VStr "acme/talk");
        ("clientDate", VStr "2025-01-01T00:00:00.000Z")].

Definition kiteRequest : jsval :=
  VObj [("prompt", VStr "A red kite"); ("brand", VStr "DSSA");
        ("mode", VStr "Image Prompts"); ("modelId", VStr "acme/paint");
        ("model", VStr "acme/paint");
        ("clientDate", VStr "2025-01-01T00:00:00.000Z")].

(** A completion without choices, and one whose message has text but
    no image. *)
Definition noChoices : jsval := VObj [("choices", VArr [])].
Definition textOnlyMessage : jsval :=
  VObj [("choices",
         VArr [VObj [("message", VObj [("role", VStr "assistant");
                                       ("content", VStr "I cannot draw.")])]])].

(** A completion that carries an image. *)
Definition withImage : jsval :=
  VObj [("choices",
         VArr [VObj [("message",
                      VObj [("content", VStr "Done.");
                            ("images",
                             VArr [VObj [("image_url",
                                          VObj [("url", VStr "data:image/png;base64,AAAA")])]])])]])].

(** The server in the zone UTC, and the session gate that accepts the
    sample token. *)
Definition utc : Z -> bool -> Z := Builtins.fixedZone 0.
Definition gate (tok : string) : bool := String.eqb tok "session-token".

(** A snapshot with one project and one chat in it. *)
Definition project1 : jsval :=
  VObj [("id", VStr "p1"); ("name", VStr "Alpha");
        ("createdAt", VNum (Num.ofZ newYear2025))].
Definition chat1 : jsval :=
  VObj [("id", VStr "c1"); ("projectId", VStr "p1"); ("title", VStr "New chat");
        ("messages", Client.INITIAL_MESSAGES);
        ("createdAt", VNum (Num.ofZ newYear2025))].
Definition snapshot1 : jsval :=
  VObj [("projects", VArr [project1]); ("chats", VArr [chat1])].

End Samples.

(* ===================================================================== *)
(** ** The backend as a whole: login and the routes behind the session    *)
(* ===================================================================== *)

Module Backend.

(** The routes that [server/index.js] registers. *)
Inductive Route : Type :=
| PostLogin
| GetModels
| GetVideoModels
| GetChatState
| PostChatState
| PostAi
| PostImage.

(** What a request leaves behind: the upstream calls that were made,
    the table afterwards, and the response. *)
Record Outcome : Type := {
  calls : list UpstreamCall;
  table : Server.Table;
  response : Response
}.

(** A variable of the environment as the program reads it: a string, or
    [undefined] when it is not set. *)
Definition env (v : option string) : jsval :=
  match v with
  | Some s => VStr s
  | None => VUndefined
  end.

Section Backend.
Variable ToString : jsval -> Exc string.
Variable StringToNumber : string -> jsnum.
Variable Date_parse : string -> option Z.
Variable LocalTZA : Z -> bool -> Z.
Variable toLocaleString : Z -> string.
Variable JSON_stringify : jsval -> string.
Variable JSON_parse : string -> option jsval.
Variable DEFAULT_IMAGE_MODEL : jsval.
Variable upstream : UpstreamCall -> AxiosOutcome.
(** [process.env.ADMIN_PASSWORD] *)
Variable ADMIN_PASSWORD : option string.
(** [jwt.sign({ role: "admin", name: "Leonard" }, JWT_SECRET,
    { expiresIn: "7d" })] at a time of the clock; it throws when the
    secret is missing. *)
Variable jwt_sign : Z -> Exc string.
Variable jwt_verify : string -> bool.

(** [POST /api/login] *)
Definition postLogin (reqBody : jsval) (wallClock : Z) : Response :=
  match (password ← Js.get "password" reqBody;
         if negb (Js.truthy password)
         then Ret (resStatus 400 (BError "Password is required." None))
         else if negb (Js.strictEq password (env ADMIN_PASSWORD))
         then Ret (resStatus 401 (BError "Invalid password." None))
         else
           token ← jwt_sign wallClock;
           Ret (resJson (BJson (VObj [("token", VStr token)])))) with
  | Ret res => res
  | Throw _ => resStatus 500 (BError "Login failed." None)
  end.

(** The handler of a route, behind [requireAuth] for every route but
    the login. *)
Definition handler (route : Route) (reqBody : jsval) (wallClock : Z)
    (db : Server.Table) : Outcome :=
  match route with
  | PostLogin =>
      {| calls := []; table := db; response := postLogin reqBody wallClock |}
  | GetModels =>
      let r := Server.getModels ToString StringToNumber upstream in
      {| calls := fst r; table := db; response := snd r |}
  | GetVideoModels =>
      let r := Server.getVideoModels ToString StringToNumber upstream in
      {| calls := fst r; table := db; response := snd r |}
  | GetChatState =>
      {| calls := []; table := db;
         response := Server.getChatState JSON_parse db |}
  | PostChatState =>
      let r := Server.postChatState JSON_stringify reqBody db in
      {| calls := []; table := fst r; response := snd r |}
  | PostAi =>
      let r := Server.postAi ToString Date_parse LocalTZA toLocaleString
                 upstream reqBody wallClock in
      {| calls := fst r; table := db; response := snd r |}
  | PostImage =>
      let r := Server.postImage DEFAULT_IMAGE_MODEL upstream reqBody in
      {| calls := fst r; table := db; response := snd r |}
  end.

(** [app.post("/api/login", ...)] has no middleware; every other route
    is registered with [requireAuth] before its handler. *)
Definition handle (route : Route) (authorization : string) (reqBody : jsval)
    (wallClock : Z) (db : Server.Table) : Outcome :=
  match route with
  | PostLogin => handler route reqBody wallClock db
  | _ =>
      match Turn.requireAuth jwt_verify authorization with
      | Some rejected => {| calls := []; table := db; response := rejected |}
      | None => handler route reqBody wallClock db
      end
  end.
End Backend.
End Backend.

(* ===================================================================== *)
(** ** Terms of the properties of the listings                            *)
(* ===================================================================== *)

Module Terms.
Import Catalog.

(** A body of the upstream listing that the normalizer can map: it is
    not [null], and its [data] is missing (or anything else that [||]
    passes over) or an array of records that the normalizer can
    read. *)
Definition listable (ToString : jsval -> Exc string) (data : jsval) : Prop :=
  Js.nullish data = false
  /\ (Js.truthy (Js.own "data" data) = false
      \/ exists raws, Js.own "data" data = VArr raws
                      /\ Forall (Design.readable ToString) raws).

End Terms.

(* ===================================================================== *)
(** ** The client: chats, projects and the controls of a turn             *)
(* ===================================================================== *)

(** The handlers of [App] that keep the chats and the projects, and
    the controls around a turn.  A handler is run on the state of the
    render that created it, with no other update pending; an exception
    is what the handler, or the updater that it hands to React, throws,
    and the state is then not the one returned. *)
Module Chats.
Import Catalog Client.

(** A method of arrays called on a value of the state: a value that is
    not an array has no [find], [filter] or [map], and the call is a
    TypeError. *)
Definition asArray (v : jsval) : Exc (list jsval) :=
  match v with
  | VArr items => Ret items
  | _ => Throw TypeError
  end.

(** [arr.find(p)]: the first element on which [p] holds, [undefined]
    when there is none; the elements behind it are not looked at. *)
Fixpoint findE (p : jsval -> Exc bool) (l : list jsval) : Exc jsval :=
  match l with
  | [] => Ret VUndefined
  | x :: r => b ← p x; if b : bool then Ret x else findE p r
  end.

(** [arr.filter(p)] *)
Fixpoint filterE (p : jsval -> Exc bool) (l : list jsval)
  : Exc (list jsval) :=
  match l with
  | [] => Ret []
  | x :: r => b ← p x; ys ← filterE p r; Ret (if b : bool then x :: ys else ys)
  end.

(** [(c) => c.id === v] and [(c) => c.id !== v] *)
Definition idIs (v c : jsval) : Exc bool :=
  i ← Js.get "id" c; Ret (Js.strictEq i v).
Definition idIsNot (v c : jsval) : Exc bool :=
  i ← Js.get "id" c; Ret (negb (Js.strictEq i v)).

(** [(c) => c.projectId === v] and [(c) => c.projectId !== v] *)
Definition projectIs (v c : jsval) : Exc bool :=
  p ← Js.get "projectId" c; Ret (Js.strictEq p v).
Definition projectIsNot (v c : jsval) : Exc bool :=
  p ← Js.get "projectId" c; Ret (negb (Js.strictEq p v)).

(* ------------------------- the title of a chat -------------------- *)

(** [getChatTitleFromMessages(messages, fallback = "New chat")]: the
    default stands in for an argument that is [undefined]. *)
Definition getChatTitleFromMessages (messages : list jsval) (fallback : jsval)
  : Exc jsval :=
  let fallback :=
    match fallback with VUndefined => VStr "New chat" | _ => fallback end in
  firstUser ←
    findE (fun m => role ← Js.get "role" m;
                    Ret (Js.strictEq role (VStr "user"))) messages;
  if negb (Js.truthy firstUser) || negb (Js.truthy (Js.own "text" firstUser))
  then Ret fallback
  else
    trimmed ← Server.callTrim (Js.own "text" firstUser);
    if String.eqb trimmed "" then Ret fallback
    else
      Ret (VStr (if (40 <? String.length trimmed)%nat
                 then String.substring 0 37 trimmed +:+ "..."
                 else trimmed)).

(* ------------------------- object literals ------------------------ *)

(** The elements of an array under their indices. *)
Fixpoint indexed (i : Z) (l : list jsval) : list (string * jsval) :=
  match l with
  | [] => []
  | x :: r => (Str.ofZ i, x) :: indexed (i + 1) r
  end.

(** What [{...v}] copies: the fields of an object, the elements of an
    array and the code units of a string under their indices, nothing
    of any other value. *)
Definition ownProps (v : jsval) : list (string * jsval) :=
  match v with
  | VObj fields => fields
  | VArr items => indexed 0 items
  | VStr s => indexed 0 (chars s)
  | _ => []
  end.

(** A property written after the spread: it replaces the value of a
    field that is there, in its place, and is added at the end
    otherwise. *)
Fixpoint put (k : string) (v : jsval) (fields : list (string * jsval))
  : list (string * jsval) :=
  match fields with
  | [] => [(k, v)]
  | (k', v') :: r =>
      if String.eqb k k' then (k, v) :: r else (k', v') :: put k v r
  end.

(* ------------------------- messages of a chat --------------------- *)

(** The callback of [prevChats.map(...)] in [setMessagesAndPersist]:
    [chat.id === activeChatId
       ? { ...chat, messages: newMessages,
           title: getChatTitleFromMessages(newMessages, chat.title) }
       : chat] *)
Definition persistChat (activeChatId : jsval) (newMessages : list jsval)
    (chat : jsval) : Exc jsval :=
  chatId ← Js.get "id" chat;
  if Js.strictEq chatId activeChatId
  then
    title ← getChatTitleFromMessages newMessages (Js.own "title" chat);
    Ret (VObj (put "title" title
                 (put "messages" (VArr newMessages) (ownProps chat))))
  else Ret chat.

(** [setMessagesAndPersist(newMessages)], called by a handler of the
    render whose state is [closure], when the state that React holds is
    [st]: [activeChatId] is the one of the render. *)
Definition setMessagesAndPersist (closure : State) (newMessages : list jsval)
    (st : State) : Exc State :=
  prevChats ← asArray (chats st);
  chats' ← mapE (persistChat (activeChatId closure) newMessages) prevChats;
  Ret (withStore st (projects st) (VArr chats') (activeProjectId st)
         (activeChatId st) (expandedProjectId st) (VArr newMessages)).

(* ------------------------- choosing and deleting ------------------ *)

(** [handleSelectChat(chatId)] *)
Definition handleSelectChat (chatId : jsval) (st : State) : Exc State :=
  items ← asArray (chats st);
  chat ← findE (idIs chatId) items;
  if negb (Js.truthy chat) then Ret st
  else
    let projectId := Js.or (Js.own "projectId" chat) VNull in
    Ret (withStore st (projects st) (chats st) projectId chatId projectId
           (Js.or (Js.own "messages" chat) INITIAL_MESSAGES)).

(** [handleDeleteChat(chatId)]; [confirmed] is what [window.confirm]
    returned. *)
Definition handleDeleteChat (confirmed : bool) (chatId : jsval) (st : State)
  : Exc State :=
  if negb confirmed then Ret st
  else
    prev ← asArray (chats st);
    remaining ← filterE (idIsNot chatId) prev;
    if Js.strictEq chatId (activeChatId st)
    then
      sameProjectChats ← filterE (projectIs (activeProjectId st)) remaining;
      match sameProjectChats, remaining with
      | switchTo :: _, _ =>
          Ret (withStore st (projects st) (VArr remaining)
                 (activeProjectId st) (Js.own "id" switchTo)
                 (expandedProjectId st) (Js.own "messages" switchTo))
      | [], switchTo :: _ =>
          let projectId := Js.or (Js.own "projectId" switchTo) VNull in
          Ret (withStore st (projects st) (VArr remaining)
                 projectId (Js.own "id" switchTo) projectId
                 (Js.own "messages" switchTo))
      | [], [] =>
          Ret (withStore st (projects st) (VArr remaining)
                 (activeProjectId st) VNull (expandedProjectId st)
                 INITIAL_MESSAGES)
      end
    else
      Ret (withStore st (projects st) (VArr remaining) (activeProjectId st)
             (activeChatId st) (expandedProjectId st) (messages st)).

(** [handleDeleteProject(projectId)].  The updater of the chats first
    moves to a fallback when the active chat goes with the project,
    then clears the active project when it is the one deleted; a later
    call of a setter replaces what an earlier one set. *)
Definition handleDeleteProject (confirmed : bool) (projectId : jsval)
    (st : State) : Exc State :=
  if negb confirmed then Ret st
  else
    prevProjects ← asArray (projects st);
    projects' ← filterE (idIsNot projectId) prevProjects;
    prevChats ← asArray (chats st);
    remaining ← filterE (projectIsNot projectId) prevChats;
    activeChat ← findE (idIs (activeChatId st)) prevChats;
    let moved :=
      Js.truthy activeChat
      && Js.strictEq (Js.own "projectId" activeChat) projectId in
    let fallback :=
      match remaining with
      | first :: _ => Js.or first VNull
      | [] => VNull
      end in
    let activeChatId1 :=
      if moved
      then (if Js.truthy fallback then Js.own "id" fallback else VNull)
      else activeChatId st in
    let activeProjectId1 :=
      if moved
      then (if Js.truthy fallback
            then Js.or (Js.own "projectId" fallback) VNull else VNull)
      else activeProjectId st in
    let expandedProjectId1 :=
      if moved then Js.or (Js.getq "projectId" fallback) VNull
      else expandedProjectId st in
    let messages1 :=
      if moved then Js.or (Js.getq "messages" fallback) INITIAL_MESSAGES
      else messages st in
    let cleared := Js.strictEq (activeProjectId st) projectId in
    Ret (withStore st (VArr projects') (VArr remaining)
           (if cleared then VNull else activeProjectId1)
           activeChatId1
           (if cleared && (List.length remaining =? 0)%nat
            then VNull else expandedProjectId1)
           messages1).

(** [getChatsForProject(projectId)] and [globalChats], as the side bar
    lists them. *)
Definition getChatsForProject (projectId : jsval) (st : State)
  : Exc (list jsval) :=
  items ← asArray (chats st);
  filterE (projectIs projectId) items.

Definition globalChats (st : State) : Exc (list jsval) :=
  items ← asArray (chats st);
  filterE (fun chat => p ← Js.get "projectId" chat; Ret (negb (Js.truthy p)))
          items.

(* ------------------------- the catalogue arrives ------------------ *)

(** What [fetchModels] leaves when [GET /api/models] answered with the
    listing [list]:
    [setModels(list);
     if (list.length > 0) {
       const free = list.find((m) => m.isFree);
       setSelectedModel(free ? free.id : list[0].id);
     }], between [setModelError(null)] and [setIsLoadingModels(false)]. *)
Definition modelsLoaded (list : list ModelDescriptor) (st : State) : State :=
  {| token := token st; activeBrand := activeBrand st;
     activeMode := activeMode st; models := list;
     selectedModel :=
       match list with
       | [] => selectedModel st
       | first :: _ =>
           match List.find isFree list with
           | Some free => id free
           | None => id first
           end
       end;
     isLoadingModels := false; modelError := VNull;
     selectedVideoModel := selectedVideoModel st;
     projects := projects st; chats := chats st;
     activeProjectId := activeProjectId st; activeChatId := activeChatId st;
     expandedProjectId := expandedProjectId st; messages := messages st |}.

(* ------------------------- the send button ------------------------ *)

(** [disableSend]; [isSending] and [input] are states of their own. *)
Definition disableSend (isSending : bool) (input : string) (st : State)
  : bool :=
  isSending
  || String.eqb (Str.trim input) ""
  || (negb (isVideoMode st)
      && (isLoadingModels st
          || negb (Js.truthy (selectedModel st))
          || (List.length (filteredModels st) =? 0)%nat)).

(* ------------------------- what a send records -------------------- *)

(** The message of the user in a turn. *)
Definition userMessage (text : string) (st : State) : jsval :=
  VObj [("role", VStr "user"); ("text", VStr text);
        ("meta", VObj [("brand", VStr (activeBrand st));
                       ("mode", VStr (activeMode st))])].

Definition assistantNotice : jsval :=
  VObj [("role", VStr "assistant");
        ("text", VStr "No model selected. Please wait for models to load or check the model loading error.")].

(** The state that [handleSend] leaves before it waits for the
    backend: [if (!activeChatId) handleNewChat();], then the message of
    the user, or the notice when no model is selected, is appended to
    the messages of the render and handed to [setMessagesAndPersist].
    [newId] and [now] are what [createId()] and [Date.now()] return. *)
Definition sendRecorded (input : string) (newId : string) (now : Z)
    (st : State) : Exc State :=
  let trimmed := Str.trim input in
  if String.eqb trimmed "" then Ret st
  else if negb (Js.truthy (token st)) then Ret st
  else
    opened ←
      (if negb (Js.truthy (activeChatId st))
       then handleNewChat VUndefined newId now st else Ret st);
    shown ← spread (messages st);
    let message :=
      if negb (isVideoMode st) && negb (Js.truthy (selectedModel st))
      then assistantNotice else userMessage trimmed st in
    setMessagesAndPersist st (shown ++ [message]) opened.

(* ------------------------- what the user can do ------------------ *)

(** One change of the chats and projects: a handler that ran to its
    end. *)
Inductive Step (st st' : State) : Prop :=
| StepCreateProject (answer : jsval) (newId : string) (now : Z) :
    handleCreateProject answer newId now st = Ret st' -> Step st st'
| StepNewChat (projectIdOverride : jsval) (newId : string) (now : Z) :
    handleNewChat projectIdOverride newId now st = Ret st' -> Step st st'
| StepSelectChat (chatId : jsval) :
    handleSelectChat chatId st = Ret st' -> Step st st'
| StepDeleteChat (confirmed : bool) (chatId : jsval) :
    handleDeleteChat confirmed chatId st = Ret st' -> Step st st'
| StepDeleteProject (confirmed : bool) (projectId : jsval) :
    handleDeleteProject confirmed projectId st = Ret st' -> Step st st'
| StepPersist (newMessages : list jsval) :
    setMessagesAndPersist st newMessages st = Ret st' -> Step st st'
| StepSend (input newId : string) (now : Z) :
    sendRecorded input newId now st = Ret st' -> Step st st'.

(** Every chat has a string for its id, as [createId] makes them. *)
Definition stringIds (st : State) : Prop :=
  exists l, chats st = VArr l
            /\ Forall (fun c => exists s, Js.own "id" c = VStr s) l.

(** The active chat is none, or a chat of the list. *)
Definition activeListed (st : State) : Prop :=
  activeChatId st = VNull
  \/ exists l, chats st = VArr l
               /\ existsb (fun c => Js.strictEq (Js.own "id" c) (activeChatId st))
                          l = true.

End Chats.

(* ===================================================================== *)
(** ** More concrete inputs                                               *)
(* ===================================================================== *)

Module Cases.

(** The system prompt of the sample text turn. *)
Definition taglineSystem : string :=
  Eval vm_compute in
    match Server.systemPrompt Builtins.ToString (VStr "DSSA")
            (VStr "Chat / Brain") (Builtins.toLocaleString Samples.newYear2025)
            (DateTime.isoString Samples.newYear2025) with
    | Ret system => system
    | Throw _ => ""
    end.

(** The question about Christmas, sent with a date that is no date. *)
Definition yesterdayRequest : jsval :=
  VObj [("prompt", VStr Samples.question); ("brand", VStr "DSSA");
        ("mode", VStr "Chat / Brain"); ("modelId", VStr "acme/talk");
        ("clientDate", VStr "yesterday")].

(** A second chat, outside the projects. *)
Definition chat2 : jsval :=
  VObj [("id", VStr "c2"); ("projectId", VNull); ("title", VStr "New chat");
        ("messages", Client.INITIAL_MESSAGES);
        ("createdAt", VNum (Num.ofZ Samples.newYear2025))].

(** The client at work: one project, the chat of the project active
    and a chat outside the projects. *)
Definition workState : Client.State :=
  Client.withStore Samples.chatState
    (VArr [Samples.project1]) (VArr [Samples.chat1; chat2])
    (VStr "p1") (VStr "c1") (VStr "p1") Client.INITIAL_MESSAGES.

(** A turn: the message of the user and the answer. *)
Definition turnMessages : list jsval :=
  [VObj [("role", VStr "system"); ("text", VStr "WELCOME")];
   VObj [("role", VStr "user"); ("text", VStr "  Write a tagline  ");
         ("meta", VObj [("brand", VStr "DSSA"); ("mode", VStr "Chat / Brain")])];
   VObj [("role", VStr "assistant"); ("text", VStr "Small bytes, big ideas.");
         ("imageUrl", VNull)]].

(** The state after the turn was stored, and the state after the
    project was deleted. *)
Definition storedState : Client.State :=
  Eval vm_compute in
    match Chats.setMessagesAndPersist workState turnMessages workState with
    | Ret st => st
    | Throw _ => workState
    end.

Definition clearedState : Client.State :=
  Eval vm_compute in
    match Chats.handleDeleteProject true (VStr "p1") workState with
    | Ret st => st
    | Throw _ => workState
    end.

End Cases.

(* ===================================================================== *)
(** * Properties                                                          *)
(* ===================================================================== *)

(** ** Dates, checked on known values *)

Example isoString_epoch : DateTime.isoString 0 = "1970-01-01T00:00:00.000Z".
Proof. reflexivity. Qed.

Example isoString_2025 :
  DateTime.isoString 1766710923456 = "2025-12-26T01:02:03.456Z".
Proof. vm_compute. reflexivity. Qed.

Example isoString_before_epoch :
  DateTime.isoString (-1) = "1969-12-31T23:59:59.999Z".
Proof. vm_compute. reflexivity. Qed.

Example daysFromCivil_2026_12_25 : DateTime.daysFromCivil 2026 12 25 = 20812.
Proof. reflexivity. Qed.

(** ** The calendar *)

Module DateFacts.
Import Design.

(** The parts of a day number: day of the 400-year era, year of the
    era, day of the year counted from 1 March. *)
Lemma civil_parts (n : Z) :
  let z := n + 719468 in
  let era := z / 146097 in
  let doe := z - era * 146097 in
  let yoe := (doe - doe / 1460 + doe / 36524 - doe / 146096) / 365 in
  let doy := doe - (365 * yoe + yoe / 4 - yoe / 100) in
  0 <= doe < 146097 /\ 0 <= yoe < 400 /\ 0 <= doy < 366
  /\ (doy = 365 -> yoe mod 4 = 3 /\ (yoe mod 100 <> 99 \/ yoe = 399)).
Proof.
  cbv zeta.
  set (z := n + 719468). set (era := z / 146097).
  set (doe := z - era * 146097).
  assert (Hd : 0 <= doe < 146097) by (subst doe era; Z.div_mod_to_equations; lia).
  clearbody doe. clear era z n.
  set (yoe := (doe - doe / 1460 + doe / 36524 - doe / 146096) / 365).
  assert (Hy : 0 <= yoe < 400) by (subst yoe; Z.div_mod_to_equations; lia).
  split; [exact Hd|]. split; [exact Hy|].
  subst yoe. Z.div_mod_to_equations. lia.
Qed.

Local Ltac name_parts n H :=
  unfold DateTime.civilFromDays;
  pose proof (civil_parts n) as H; cbv zeta in H;
  set (z := n + 719468) in *; set (era := z / 146097) in *;
  set (doe := z - era * 146097) in *;
  set (yoe := (doe - doe / 1460 + doe / 36524 - doe / 146096) / 365) in *;
  set (doy := doe - (365 * yoe + yoe / 4 - yoe / 100)) in *;
  set (mp := (5 * doy + 2) / 153);
  assert (Hmp : 0 <= mp <= 11) by (subst mp; Z.div_mod_to_equations; lia).

(** The date of a day number is a date of the calendar, and it is the
    date of that day. *)
Lemma days_civil_roundtrip (n : Z) :
  let '(y, m, d) := DateTime.civilFromDays n in
  DateTime.daysFromCivil y m d = n /\ 1 <= m <= 12 /\ 1 <= d <= 31.
Proof.
  name_parts n H. destruct H as (Hdoe & Hyoe & Hdoy & Hleap).
  assert (Hd : 1 <= doy - (153 * mp + 2) / 5 + 1 <= 31)
    by (subst mp; Z.div_mod_to_equations; lia).
  assert (Hdoy' : (153 * mp + 2) / 5 + (doy - (153 * mp + 2) / 5 + 1) - 1 = doy)
    by lia.
  assert (Hera : (yoe + era * 400) / 400 = era)
    by (rewrite Z.div_add by lia; rewrite Z.div_small by lia; lia).
  destruct (mp <? 10) eqn:E.
  - apply Z.ltb_lt in E.
    replace (mp + 3 <=? 2) with false by (symmetry; apply Z.leb_gt; lia).
    split; [|lia].
    unfold DateTime.daysFromCivil.
    replace (mp + 3 <=? 2) with false by (symmetry; apply Z.leb_gt; lia).
    replace (2 <? mp + 3) with true by (symmetry; apply Z.ltb_lt; lia).
    replace (mp + 3 - 3) with mp by lia.
    rewrite Hera.
    replace (yoe + era * 400 - era * 400) with yoe by lia.
    rewrite Hdoy'. subst doy doe z. lia.
  - apply Z.ltb_ge in E.
    replace (mp - 9 <=? 2) with true by (symmetry; apply Z.leb_le; lia).
    split; [|lia].
    unfold DateTime.daysFromCivil.
    replace (mp - 9 <=? 2) with true by (symmetry; apply Z.leb_le; lia).
    replace (2 <? mp - 9) with false by (symmetry; apply Z.ltb_ge; lia).
    replace (yoe + era * 400 + 1 - 1) with (yoe + era * 400) by lia.
    replace (mp - 9 + 9) with mp by lia.
    rewrite Hera.
    replace (yoe + era * 400 - era * 400) with yoe by lia.
    rewrite Hdoy'. subst doy doe z. lia.
Qed.

(** [YearFromTime] is the year of ECMAScript: the first day of the year
    is not after the day of [t], and the first day of the next year
    is. *)
Lemma YearFromTime_spec (t : Z) :
  DayFromYear (DateTime.YearFromTime t) <= DateTime.Day t
  < DayFromYear (DateTime.YearFromTime t + 1).
Proof.
  unfold DateTime.YearFromTime. generalize (DateTime.Day t) as n. intros n.
  name_parts n H. destruct H as (Hdoe & Hyoe & Hdoy & Hleap).
  assert (Hn : n = era * 146097 + 365 * yoe + yoe / 4 - yoe / 100 + doy - 719468)
    by (subst doy doe z; lia).
  assert (Hmpd : mp < 10 <-> doy < 306) by (subst mp; Z.div_mod_to_equations; lia).
  cbn [fst]. unfold DayFromYear.
  destruct (mp <? 10) eqn:E.
  - apply Z.ltb_lt in E.
    replace (mp + 3 <=? 2) with false by (symmetry; apply Z.leb_gt; lia).
    rewrite Hn. clear Hn. clearbody doy yoe era. clear - Hyoe Hdoy Hleap E Hmpd.
    Z.div_mod_to_equations. lia.
  - apply Z.ltb_ge in E.
    replace (mp - 9 <=? 2) with true by (symmetry; apply Z.leb_le; lia).
    rewrite Hn. clear Hn. clearbody doy yoe era. clear - Hyoe Hdoy Hleap E Hmpd.
    Z.div_mod_to_equations. lia.
Qed.

Lemma DayFromYear_mono (y y' : Z) : y <= y' -> DayFromYear y <= DayFromYear y'.
Proof. intros H. unfold DayFromYear. Z.div_mod_to_equations. lia. Qed.

(** It is the largest such year. *)
Lemma YearFromTime_largest (t y : Z) :
  DayFromYear y <= DateTime.Day t -> y <= DateTime.YearFromTime t.
Proof.
  intros H. pose proof (YearFromTime_spec t) as [_ Hlt].
  destruct (Z_le_gt_dec y (DateTime.YearFromTime t)) as [Hle|Hgt]; [exact Hle|].
  pose proof (DayFromYear_mono (DateTime.YearFromTime t + 1) y ltac:(lia)). lia.
Qed.

(** Midnight of 25 December of year [y] is in year [y], in the twelfth
    month, on day 25. *)
Lemma christmas_day (y : Z) :
  DateTime.civilFromDays (DateTime.daysFromCivil y 12 25) = (y, 12, 25).
Proof.
  unfold DateTime.civilFromDays, DateTime.daysFromCivil.
  change (2 <? 12) with true. change (12 <=? 2) with false. cbv iota.
  change ((153 * (12 - 3) + 2) / 5 + 25 - 1) with 299.
  set (era := y / 400).
  set (yoe := y - era * 400).
  assert (Hy : 0 <= yoe < 400) by (subst yoe era; Z.div_mod_to_equations; lia).
  set (doe := yoe * 365 + yoe / 4 - yoe / 100 + 299).
  assert (Hd : 0 <= doe < 146097) by (subst doe; Z.div_mod_to_equations; lia).
  replace (era * 146097 + doe - 719468 + 719468) with (doe + era * 146097) by lia.
  rewrite Z.div_add by lia. rewrite (Z.div_small doe) by lia.
  replace (doe + era * 146097 - (0 + era) * 146097) with doe by lia.
  assert (Hyoe : (doe - doe / 1460 + doe / 36524 - doe / 146096) / 365 = yoe).
  { subst doe. Z.div_mod_to_equations. lia. }
  rewrite Hyoe.
  replace (doe - (365 * yoe + yoe / 4 - yoe / 100)) with 299 by (subst doe; lia).
  change ((5 * 299 + 2) / 153) with 9.
  change (9 <? 10) with true. cbv iota.
  change (9 + 3) with 12. change (12 <=? 2) with false. cbv iota.
  change (299 - (153 * 9 + 2) / 5 + 1) with 25.
  subst yoe. f_equal. f_equal. lia.
Qed.

Lemma christmas_in_its_year (y : Z) :
  let t := DateTime.daysFromCivil y 12 25 * DateTime.msPerDay in
  DateTime.YearFromTime t = y /\ DateTime.MonthFromTime t = 11
  /\ DateTime.DateFromTime t = 25 /\ DateTime.TimeWithinDay t = 0.
Proof.
  cbv zeta.
  unfold DateTime.YearFromTime, DateTime.MonthFromTime, DateTime.DateFromTime,
    DateTime.TimeWithinDay, DateTime.Day.
  rewrite Z.div_mul by (unfold DateTime.msPerDay; lia).
  rewrite Z.mod_mul by (unfold DateTime.msPerDay; lia).
  rewrite christmas_day. repeat split.
Qed.

End DateFacts.

(** ** Stable sorting with a consistent comparator *)

Module StableSort.
Import ArraySort.

Section Facts.
Context {A : Type} (comparefn : A -> A -> jsnum).
(** The elements on which the comparator is consistent. *)
Variable P : A -> Prop.

Abbreviation later := (after comparefn).
Abbreviation ins := (insert comparefn).
Abbreviation srt := (sort comparefn).

Abbreviation notAfter := (ArraySort.notAfter comparefn).
Abbreviation tie := (ArraySort.tie comparefn).

Hypothesis later_asym :
  forall x y, P x -> P y -> later x y = true -> later y x = false.
Hypothesis notAfter_trans :
  forall x y z, P x -> P y -> P z ->
    notAfter x y -> notAfter y z -> notAfter x z.

Lemma insert_perm (x : A) (l : list A) : Permutation (ins x l) (x :: l).
Proof.
  induction l as [|y r IH]; simpl.
  - reflexivity.
  - destruct (later x y).
    + rewrite IH. apply perm_swap.
    + reflexivity.
Qed.

Lemma sort_perm (l : list A) : Permutation (srt l) l.
Proof.
  induction l as [|x r IH]; simpl.
  - reflexivity.
  - rewrite insert_perm. now apply perm_skip.
Qed.

Lemma sort_Forall (l : list A) : Forall P l -> Forall P (srt l).
Proof.
  intros H. eapply Permutation_Forall; [symmetry; apply sort_perm | exact H].
Qed.

Lemma insert_sorted (x : A) (l : list A) :
  P x -> Forall P l ->
  StronglySorted notAfter l -> StronglySorted notAfter (ins x l).
Proof.
  intros Px HP HS. induction HS as [|y r HSr IH Hy]; simpl.
  - constructor; [constructor | constructor].
  - inversion HP as [|? ? Py HPr]; subst.
    destruct (later x y) eqn:E.
    + constructor.
      * now apply IH.
      * eapply Permutation_Forall; [symmetry; apply insert_perm |].
        constructor; [now apply later_asym | exact Hy].
    + constructor.
      * now constructor.
      * constructor; [exact E |].
        rewrite Forall_forall in Hy, HPr |- *.
        intros z Hz. apply (notAfter_trans x y z); auto.
Qed.

Lemma sort_sorted (l : list A) :
  Forall P l -> StronglySorted notAfter (srt l).
Proof.
  induction l as [|x r IH]; simpl; intros HP.
  - constructor.
  - inversion HP; subst.
    apply insert_sorted; auto using sort_Forall.
Qed.

Lemma tie_refl (x : A) : P x -> tie x x = true.
Proof.
  intros Px. unfold tie. destruct (later x x) eqn:E; [|reflexivity].
  now rewrite (later_asym x x Px Px E) in E.
Qed.

Lemma filter_tie_insert (a x : A) (l : list A) :
  P a -> P x -> Forall P l ->
  List.filter (tie a) (ins x l)
  = if tie a x then x :: List.filter (tie a) l else List.filter (tie a) l.
Proof.
  intros Pa Px HP. induction HP as [|y r Py HPr IH]; simpl.
  - reflexivity.
  - destruct (later x y) eqn:E; simpl.
    + rewrite IH. destruct (tie a x) eqn:Tx; [|reflexivity].
      destruct (tie a y) eqn:Ty; [|reflexivity].
      exfalso. unfold tie in Tx, Ty.
      apply andb_prop in Tx as [_ Tx], Ty as [Ty _].
      apply negb_true_iff in Tx, Ty.
      pose proof (notAfter_trans x a y Px Pa Py Tx Ty) as H.
      unfold notAfter in H. congruence.
    + reflexivity.
Qed.

(** The sort is stable: among the elements that tie with any given
    one, the order of the input is kept. *)
Lemma sort_stable (a : A) (l : list A) :
  P a -> Forall P l ->
  List.filter (tie a) (srt l) = List.filter (tie a) l.
Proof.
  intros Pa HP. induction HP as [|x r Px HPr IH]; simpl.
  - reflexivity.
  - rewrite filter_tie_insert by auto using sort_Forall.
    now rewrite IH.
Qed.

(** Sortedness and stability determine the result. *)
Lemma sorted_stable_unique (l1 l2 : list A) :
  Forall P l1 -> Forall P l2 ->
  StronglySorted notAfter l1 -> StronglySorted notAfter l2 ->
  (forall a, P a -> List.filter (tie a) l1 = List.filter (tie a) l2) ->
  l1 = l2.
Proof.
  intros HP1. revert l2.
  induction HP1 as [|a t1 Pa HP1 IH]; intros l2 HP2 HS1 HS2 Hst.
  - destruct HP2 as [|b t2 Pb _]; [reflexivity|].
    specialize (Hst b Pb). simpl in Hst.
    now rewrite (tie_refl b Pb) in Hst.
  - destruct HP2 as [|b t2 Pb HP2].
    + specialize (Hst a Pa). simpl in Hst.
      now rewrite (tie_refl a Pa) in Hst.
    + inversion HS1 as [|? ? HS1' Ha]; subst.
      inversion HS2 as [|? ? HS2' Hb]; subst.
      assert (Hba : notAfter b a).
      { pose proof (Hst a Pa) as H. simpl in H.
        rewrite (tie_refl a Pa) in H.
        assert (Hin : In a (List.filter (tie a) (b :: t2))).
        { simpl. rewrite <- H. now left. }
        apply filter_In in Hin as [[->|Hin] T].
        - apply andb_prop in T as [T _]. now apply negb_true_iff in T.
        - rewrite Forall_forall in Hb. now apply Hb. }
      assert (Hab : notAfter a b).
      { pose proof (Hst b Pb) as H. simpl in H.
        rewrite (tie_refl b Pb) in H.
        assert (Hin : In b (List.filter (tie b) (a :: t1))).
        { simpl. rewrite H. now left. }
        apply filter_In in Hin as [[->|Hin] T].
        - apply andb_prop in T as [T _]. now apply negb_true_iff in T.
        - rewrite Forall_forall in Ha. now apply Ha. }
      assert (Tab : tie a b = true).
      { unfold tie. unfold notAfter in Hab, Hba. now rewrite Hab, Hba. }
      assert (a = b).
      { pose proof (Hst a Pa) as H. simpl in H.
        rewrite (tie_refl a Pa), Tab in H. congruence. }
      subst b. f_equal. apply IH; auto.
      intros c Pc. specialize (Hst c Pc). simpl in Hst.
      destruct (tie c a); congruence.
Qed.

End Facts.
End StableSort.

(** ** The order of the numbers that are not NaN *)

Module NumFacts.

Lemma gtZero_sub_Fin (x y : Q) :
  Num.gtZero (Fin (x - y)) = false <-> (x <= y)%Q.
Proof.
  simpl. destruct (x - y ?= 0)%Q eqn:E.
  - apply Qeq_alt in E. split; [intros _; lra | reflexivity].
  - apply Qlt_alt in E. split; [intros _; lra | reflexivity].
  - apply Qgt_alt in E. split; [discriminate | intros H; lra].
Qed.

(** The sign of the difference decides the order. *)
Lemma gtZero_sub (a b : jsnum) :
  a <> NaN -> b <> NaN ->
  (Num.gtZero (Num.sub a b) = false <-> Num.le a b).
Proof.
  intros Ha Hb.
  destruct a as [| |x|], b as [| |y|]; try congruence;
    try apply gtZero_sub_Fin; simpl; intuition congruence.
Qed.

Lemma le_trans (a b c : jsnum) : Num.le a b -> Num.le b c -> Num.le a c.
Proof.
  destruct a as [| |x|], b as [| |y|], c as [| |z|]; simpl; try tauto.
  apply Qle_trans.
Qed.

Lemma le_total (a b : jsnum) :
  a <> NaN -> b <> NaN -> Num.le a b \/ Num.le b a.
Proof.
  intros Ha Hb.
  destruct a as [| |x|], b as [| |y|]; simpl; try congruence; try tauto.
  destruct (Qlt_le_dec x y) as [H|H]; [left; now apply Qlt_le_weak | now right].
Qed.



End NumFacts.

(** ** Ranking *)

Module Ranking.
Import Catalog Design.

Lemma notAfter_precedes (a b : ModelDescriptor) :
  priced a -> priced b ->
  (ArraySort.notAfter compareModels a b <-> precedes a b).
Proof.
  intros Pa Pb.
  unfold ArraySort.notAfter, ArraySort.after, compareModels, precedes.
  destruct (isFree a), (isFree b); simpl.
  - rewrite NumFacts.gtZero_sub by assumption. tauto.
  - split; [intuition congruence | reflexivity].
  - split; [discriminate | intuition congruence].
  - rewrite NumFacts.gtZero_sub by assumption. tauto.
Qed.

Lemma precedes_total (a b : ModelDescriptor) :
  priced a -> priced b -> precedes a b \/ precedes b a.
Proof.
  intros Pa Pb. unfold precedes.
  destruct (NumFacts.le_total _ _ Pa Pb) as [H|H];
    destruct (isFree a), (isFree b); intuition congruence.
Qed.

Lemma precedes_trans (a b c : ModelDescriptor) :
  precedes a b -> precedes b c -> precedes a c.
Proof.
  unfold precedes. intros [H1 H2] [H3 H4]. split; [tauto|].
  intros E. apply NumFacts.le_trans with (pricing_prompt b).
  - apply H2. destruct (isFree a), (isFree b), (isFree c); intuition congruence.
  - apply H4. destruct (isFree a), (isFree b), (isFree c); intuition congruence.
Qed.

Lemma later_asym (x y : ModelDescriptor) :
  priced x -> priced y ->
  ArraySort.after compareModels x y = true ->
  ArraySort.after compareModels y x = false.
Proof.
  intros Px Py H. apply (notAfter_precedes y x Py Px).
  destruct (precedes_total x y Px Py) as [Hxy|Hyx]; [|exact Hyx].
  apply (notAfter_precedes x y Px Py) in Hxy.
  unfold ArraySort.notAfter in Hxy. congruence.
Qed.

Lemma notAfter_trans (x y z : ModelDescriptor) :
  priced x -> priced y -> priced z ->
  ArraySort.notAfter compareModels x y ->
  ArraySort.notAfter compareModels y z ->
  ArraySort.notAfter compareModels x z.
Proof.
  intros Px Py Pz Hxy Hyz.
  apply notAfter_precedes in Hxy, Hyz; try assumption.
  apply notAfter_precedes; try assumption.
  now apply precedes_trans with y.
Qed.




Lemma rank_priced (l : list ModelDescriptor) :
  Forall priced l -> Forall priced (rank l).
Proof. apply StableSort.sort_Forall. Qed.



End Ranking.

(** ** The catalogue *)

Module CatalogFacts.
Import Catalog Design.

Section Normalizer.
Variable ToString : jsval -> Exc string.
Variable StringToNumber : string -> jsnum.

Abbreviation normalize := (Catalog.normalize ToString StringToNumber).
Abbreviation mapModels := (Catalog.mapModels ToString StringToNumber).

Lemma or_present (a b : jsval) : present a -> Js.or a b = a.
Proof. unfold present, Js.or. now intros ->. Qed.

Lemma or_absent (a b : jsval) : absent a -> Js.or a b = b.
Proof. unfold absent, Js.or. now intros ->. Qed.

Abbreviation Number := (Catalog.Number ToString StringToNumber).

Lemma Number_zero : Number (VNum Num.zero) = Ret Num.zero.
Proof. reflexivity. Qed.

(** [Number] returns on the values that convert, and on no other. *)
Lemma Number_returns (v : jsval) :
  (exists n, Number v = Ret n) <-> convertible ToString v.
Proof.
  destruct v as [| | | | |items|fields]; cbn; try (split; eauto; fail).
  - split; [intros [n E] | intros [s E]].
    + destruct (ToString (VArr items)); [eauto | discriminate].
    + rewrite E. cbn. eauto.
  - split; [intros [n E] | intros [s E]].
    + destruct (ToString (VObj fields)); [eauto | discriminate].
    + rewrite E. cbn. eauto.
Qed.

(** The normalizer on a record that is not [null]: the two
    conversions, then the descriptor. *)
Lemma normalize_prices (m : jsval) :
  Js.nullish m = false ->
  (forall p c,
     Number (priceOf "prompt" m) = Ret p ->
     Number (priceOf "completion" m) = Ret c ->
     exists d, normalize m = Ret d
               /\ pricing_prompt d = p /\ pricing_completion d = c)
  /\ (forall d, normalize m = Ret d ->
        Number (priceOf "prompt" m) = Ret (pricing_prompt d)
        /\ Number (priceOf "completion" m) = Ret (pricing_completion d)).
Proof.
  intros Hm. unfold Catalog.normalize, Js.get, priceOf, pricingOf.
  rewrite Hm. cbn [mbind Exc_bind].
  split.
  - intros p c -> ->. cbn [mbind Exc_bind]. eexists. repeat split.
  - intros d.
    destruct (Number (Js.or (Js.own "prompt" _) _)) as [p|e];
      cbn [mbind Exc_bind]; [|discriminate].
    destruct (Number (Js.or (Js.own "completion" _) _)) as [c|e];
      cbn [mbind Exc_bind]; [|discriminate].
    intros [= <-]. split; reflexivity.
Qed.

(** On a record that it can read the normalizer returns, and what it
    returns is the descriptor that the design describes. *)
Lemma normalize_describes (m : jsval) :
  readable ToString m -> exists d, normalize m = Ret d /\ describes m d.
Proof.
  intros (Hm & Hp & Hc).
  apply Number_returns in Hp as [p Ep], Hc as [c Ec].
  pose proof Ep as Ep'. pose proof Ec as Ec'.
  revert Ep' Ec'.
  unfold Catalog.normalize, Js.get, priceOf, pricingOf. rewrite Hm.
  cbn [mbind Exc_bind]. intros -> ->. cbn [mbind Exc_bind].
  eexists. split; [reflexivity|].
  unfold describes, modalityFallback, architectureOf; simpl.
  repeat split.
  - intros H. unfold priceOf in Ep. rewrite (or_absent _ _ H) in Ep.
    now injection Ep.
  - intros H. unfold priceOf in Ec. rewrite (or_absent _ _ H) in Ec.
    now injection Ec.
  - intros H. now rewrite (or_present _ (Js.own "output_modalities" m) H), (or_present _ _ H).
  - intros H1 H2. now rewrite (or_absent _ _ H1), (or_present _ _ H2).
  - intros H1 H2. now rewrite (or_absent _ _ H1), (or_absent _ _ H2).
  - intros H. now rewrite (or_present _ (Js.own "input_modalities" m) H), (or_present _ _ H).
  - intros H1 H2. now rewrite (or_absent _ _ H1), (or_present _ _ H2).
  - intros H1 H2. now rewrite (or_absent _ _ H1), (or_absent _ _ H2).
Qed.

Lemma normalize_null (m : jsval) :
  Js.nullish m = true -> normalize m = Throw TypeError.
Proof. intros Hm. unfold Catalog.normalize, Js.get. now rewrite Hm. Qed.

(** A record that the normalizer cannot read makes it throw. *)
Lemma normalize_returns (m : jsval) :
  (exists d, normalize m = Ret d) <-> readable ToString m.
Proof.
  split.
  - intros [d E]. destruct (Js.nullish m) eqn:Hm.
    + rewrite (normalize_null m Hm) in E. discriminate.
    + destruct (normalize_prices m Hm) as [_ H].
      destruct (H d E) as [Ep Ec].
      split; [exact Hm|]. split; apply Number_returns; eauto.
  - intros H. destruct (normalize_describes m H) as [d [E _]]. eauto.
Qed.


Lemma mapE_Forall2 (raws : list jsval) :
  Forall (readable ToString) raws ->
  exists ds, mapE normalize raws = Ret ds /\ Forall2 describes raws ds.
Proof.
  induction 1 as [|m r Hm _ [ds [E F]]].
  - exists []. split; [reflexivity | constructor].
  - destruct (normalize_describes m Hm) as [d [Ed Hd]].
    exists (d :: ds). split.
    + simpl. rewrite Ed. simpl. rewrite E. reflexivity.
    + now constructor.
Qed.




(** In the other modes the filter keeps everything. *)
Lemma filterByCapability_other (mode : string) (l : list ModelDescriptor) :
  mode <> "Image Prompts" -> mode <> "Video Prompts" ->
  Client.filterByCapability mode l = l.
Proof.
  intros Hi Hv. unfold Client.filterByCapability, Client.compatible.
  apply String.eqb_neq in Hi, Hv. rewrite Hi, Hv.
  induction l as [|d r IH]; simpl; [reflexivity | now rewrite IH].
Qed.


(** The normalizer returns on a list of records exactly when it can
    read every one of them. *)
Lemma mapE_returns (raws : list jsval) :
  (exists ds, mapE normalize raws = Ret ds) <-> Forall (readable ToString) raws.
Proof.
  split.
  - induction raws as [|m r IH]; intros [ds E]; [constructor|].
    cbn in E.
    destruct (normalize m) as [d|e] eqn:Ed; [|discriminate]. cbn in E.
    constructor; [apply normalize_returns; eauto|]. apply IH.
    destruct (mapE normalize r) as [ds'|e]; [eauto | discriminate].
  - intros H. destruct (mapE_Forall2 raws H) as [ds [E _]]. eauto.
Qed.

(** One record that the normalizer cannot read, [null] or with a
    price that has no primitive, and the listing is refused as a
    whole. *)
Lemma unreadable_record_aborts
    (raws : list jsval) (upstream : UpstreamCall -> AxiosOutcome)
    (data : jsval) :
  ~ Forall (readable ToString) raws ->
  upstream Server.listCall = Fulfilled data ->
  Js.get "data" data = Ret (VArr raws) ->
  snd (Server.getModels ToString StringToNumber upstream)
  = resStatus 500 (BError "Failed to load models from OpenRouter." None).
Proof.
  intros Hno Hup Hdata.
  unfold Server.getModels. simpl. rewrite Hup. simpl.
  unfold Catalog.mapModels. rewrite Hdata. simpl.
  destruct (mapE normalize raws) as [ds|e] eqn:E; [|reflexivity].
  destruct Hno. apply mapE_returns. eauto.
Qed.

(** C8, as the code has it.  On raw records that the normalizer can
    read (none is [null], and each of the two prices of a record is
    absent, a primitive, or an array or object that [ToString] turns
    into a string), the normalizer returns for every record, in order,
    the descriptor that the design describes: a missing price is 0, a
    modality field is the one of the architecture object, else the
    top-level one, else the empty array.  No record is dropped, and the
    listing of [GET /api/models] is [rank] of these descriptors.  When
    one of the records cannot be read, the normalizer returns nothing
    and the listing is refused as a whole with status 500. *)
Theorem normalizer_total_on_records (raws : list jsval) :
  (Forall (readable ToString) raws ->
   exists ds,
     mapE normalize raws = Ret ds
     /\ Forall2 describes raws ds
     /\ List.length ds = List.length raws
     /\ (forall upstream data,
           upstream Server.listCall = Fulfilled data ->
           Js.get "data" data = Ret (VArr raws) ->
           snd (Server.getModels ToString StringToNumber upstream)
           = resJson (BModels (rank ds))))
  /\ (~ Forall (readable ToString) raws ->
      (forall ds, mapE normalize raws <> Ret ds)
      /\ (forall upstream data,
            upstream Server.listCall = Fulfilled data ->
            Js.get "data" data = Ret (VArr raws) ->
            snd (Server.getModels ToString StringToNumber upstream)
            = resStatus 500
                (BError "Failed to load models from OpenRouter." None))).
Proof.
  split.
  - intros H. destruct (mapE_Forall2 raws H) as [ds [E F]].
    exists ds. repeat split; auto.
    + symmetry. eapply Forall2_length; eauto.
    + intros upstream data Hup Hdata.
      unfold Server.getModels. simpl. rewrite Hup. simpl.
      unfold Catalog.mapModels. rewrite Hdata. simpl. rewrite E. reflexivity.
  - intros Hno. split.
    + intros ds E. apply Hno, mapE_returns. eauto.
    + intros upstream data. now apply unreadable_record_aborts.
Qed.

End Normalizer.

(** [ToString] on an array: the strings of the elements, with commas
    between them. *)
Lemma ToString_cons (x : jsval) (r : list jsval) :
  Builtins.ToString (VArr (x :: r))
  = (head ← (if Js.nullish x then Ret "" else Builtins.ToString x);
     match r with
     | [] => Ret head
     | _ :: _ => tail ← Builtins.ToString (VArr r); Ret (head +:+ "," +:+ tail)
     end).
Proof. destruct r; reflexivity. Qed.

(** [ToString] throws exactly on the values that have no primitive. *)
Lemma ToString_unprintable (v : jsval) :
  if unprintable v then Builtins.ToString v = Throw TypeError
  else exists s, Builtins.ToString v = Ret s.
Proof.
  induction v as [| | [|] | n | s | items IH | fields _] using jsval_induction;
    try (cbn; eauto; fail).
  - induction IH as [|x r Hx _ IHr]; [cbn; eauto|].
    rewrite ToString_cons. cbn [unprintable existsb].
    change (existsb unprintable r) with (unprintable (VArr r)).
    assert (Hhead :
      if unprintable x
      then (if Js.nullish x then Ret "" else Builtins.ToString x)
           = Throw TypeError
      else exists h, (if Js.nullish x then Ret "" else Builtins.ToString x)
                     = Ret h).
    { destruct (Js.nullish x) eqn:Nx; [|exact Hx].
      destruct x; try discriminate; cbn; eauto. }
    destruct (unprintable x); [now rewrite Hhead|].
    destruct Hhead as [h ->]. cbn [orb mbind Exc_bind].
    destruct r as [|y r']; [cbn; eauto|].
    destruct (unprintable (VArr (y :: r'))); [now rewrite IHr|].
    destruct IHr as [t ->]. cbn. eauto.
  - cbn. destruct (Builtins.hasOwn "toString" fields); eauto.
Qed.

(** In the language a value converts to a number unless it has no
    primitive. *)
Lemma convertible_printable (v : jsval) :
  convertible Builtins.ToString v <-> unprintable v = false.
Proof.
  pose proof (ToString_unprintable v) as H.
  destruct v as [| | | | |items|fields]; cbn [convertible unprintable];
    try (split; auto; fail).
  - destruct (unprintable (VArr items)) eqn:U.
    + cbn [unprintable] in U. rewrite U. rewrite H.
      split; [intros [s E]; discriminate | discriminate].
    + cbn [unprintable] in U. rewrite U. split; auto.
  - destruct (unprintable (VObj fields)) eqn:U.
    + cbn [unprintable] in U. rewrite U. rewrite H.
      split; [intros [s E]; discriminate | discriminate].
    + cbn [unprintable] in U. rewrite U. split; auto.
Qed.


(** The four sample records are normalized one by one. *)
Lemma normalizer_total_on_records_witness :
  Forall (readable Builtins.ToString) Samples.rawRecords
  /\ exists ds,
       mapE (Catalog.normalize Builtins.ToString Builtins.StringToNumber)
            Samples.rawRecords = Ret ds
       /\ Forall2 describes Samples.rawRecords ds
       /\ List.length ds = List.length Samples.rawRecords
       /\ (forall upstream data,
             upstream Server.listCall = Fulfilled data ->
             Js.get "data" data = Ret (VArr Samples.rawRecords) ->
             snd (Server.getModels Builtins.ToString Builtins.StringToNumber
                    upstream)
             = resJson (BModels (rank ds))).
Proof.
  assert (H : Forall (readable Builtins.ToString) Samples.rawRecords)
    by (repeat constructor).
  split; [exact H|].
  exact (proj1 (normalizer_total_on_records Builtins.ToString
                  Builtins.StringToNumber Samples.rawRecords) H).
Defined.

(** C8 as stated fails: the normalizer throws on the record [null], and
    a catalogue that holds such a record is not listed without it; the
    whole fetch answers 500. *)
Lemma normalizer_null_record_aborts :
  Catalog.normalize Builtins.ToString Builtins.StringToNumber VNull
    = Throw TypeError
  /\ snd (Server.getModels Builtins.ToString Builtins.StringToNumber
            (fun _ => Fulfilled Samples.catalogueWithNull))
     = resStatus 500 (BError "Failed to load models from OpenRouter." None).
Proof. split; reflexivity. Qed.

(** The normalizer throws as well on a record whose price has no
    primitive, although the record is not [null]; the listing of a
    catalogue that holds it is refused as a whole. *)
Lemma normalizer_odd_price_aborts :
  Js.nullish Samples.rawOddPrice = false
  /\ unprintable (priceOf "prompt" Samples.rawOddPrice) = true
  /\ Catalog.normalize Builtins.ToString Builtins.StringToNumber
       Samples.rawOddPrice
     = Throw TypeError
  /\ snd (Server.getModels Builtins.ToString Builtins.StringToNumber
            (fun _ => Fulfilled Samples.catalogueWithOddPrice))
     = resStatus 500 (BError "Failed to load models from OpenRouter." None).
Proof. repeat split; reflexivity. Qed.

Example sample_listing :
  List.map id (rank Samples.mapped)
  = [VStr "acme/talk"; VStr "acme/bare"; VStr "acme/film"; VStr "acme/paint"].
Proof. vm_compute. reflexivity. Qed.

Example sample_video_listing :
  snd (Server.getVideoModels Builtins.ToString Builtins.StringToNumber
         Samples.catalogueUpstream)
  = resJson (BModels (List.filter (fun d => Js.strictEq (id d) (VStr "acme/film"))
                                  Samples.mapped)).
Proof. vm_compute. reflexivity. Qed.

End CatalogFacts.

(** ** Responses of the upstream API that lack what the turn needs *)

Module UpstreamFacts.
Import Design.

Lemma truthy_not_nullish (v : jsval) : Js.truthy v = true -> Js.nullish v = false.
Proof. now destruct v. Qed.

Lemma getq_own (k : string) (v : jsval) :
  Js.nullish v = false -> Js.getq k v = Js.own k v.
Proof. unfold Js.getq. now intros ->. Qed.

Section Handlers.
Variable ToString : jsval -> Exc string.
Variable Date_parse : string -> option Z.
Variable LocalTZA : Z -> bool -> Z.
Variable toLocaleString : Z -> string.
Variable DEFAULT_IMAGE_MODEL : jsval.
Variable upstream : UpstreamCall -> AxiosOutcome.

Abbreviation postAi :=
  (Server.postAi ToString Date_parse LocalTZA toLocaleString upstream).
Abbreviation postImage := (Server.postImage DEFAULT_IMAGE_MODEL upstream).

(** When [/api/image] has called upstream, the response is decided by
    what came back. *)
Lemma postImage_called (reqBody : jsval) (call : UpstreamCall) :
  fst (postImage reqBody) = [call] ->
  snd (postImage reqBody)
  = match (data ← awaitAxios (upstream call); Server.imageMessage data) with
    | Throw e => Server.requestFailed "Image request failed." e
    | Ret message =>
        if negb (Js.truthy (Server.imageUrlOf message))
        then resStatus 500
               (BError "OpenRouter returned no image for this prompt." None)
        else resJson
               (BImage (Js.or (Js.own "content" message)
                              (VStr "Here is your generated image."))
                       (Server.imageUrlOf message))
    end.
Proof.
  unfold Server.postImage.
  destruct (Js.get "prompt" reqBody) as [prompt|e]; [|discriminate].
  destruct (negb (Js.truthy prompt)); [discriminate|].
  destruct (Server.callTrim prompt) as [trimmed|e]; [|discriminate].
  destruct (String.eqb trimmed ""); [discriminate|].
  simpl. now intros [= <-].
Qed.

Lemma imageUrl_absent (data message : jsval) :
  Server.imageMessage data = Ret message ->
  noImageUrl data ->
  Js.truthy (Server.imageUrlOf message) = false.
Proof.
  unfold Server.imageMessage, Js.get.
  destruct (Js.nullish data) eqn:Hd; [discriminate|]. simpl.
  intros [= <-] [Hs Hc].
  unfold noImageUrl, shapeSnake, shapeCamel, Js.readPath in *. simpl in Hs, Hc.
  rewrite (getq_own _ _ Hd) in Hs, Hc.
  set (m0 := Js.getq "message" (Js.idx0q (Js.own "choices" data))) in *.
  assert (Hu : absent (Server.urlSnake (Js.or m0 (VObj [])))
               /\ absent (Server.urlCamel (Js.or m0 (VObj [])))).
  { unfold Server.urlSnake, Server.urlCamel, Js.or.
    destruct (Js.truthy m0) eqn:T.
    - rewrite <- (getq_own "images" m0 (truthy_not_nullish _ T)). now split.
    - split; reflexivity. }
  destruct Hu as [Hu1 Hu2].
  unfold Server.imageUrlOf.
  rewrite (CatalogFacts.or_absent _ _ Hu1), (CatalogFacts.or_absent _ _ Hu2).
  reflexivity.
Qed.

(** C5.  When [/api/image] has called upstream and the response carries
    no image URL under either shape, the turn fails with status 500 and
    an error body, never with a reply; unless the response body is
    [null], the error is "OpenRouter returned no image for this
    prompt.". *)
Theorem image_without_url_fails
    (reqBody : jsval) (call : UpstreamCall) (data : jsval) :
  fst (postImage reqBody) = [call] ->
  upstream call = Fulfilled data ->
  noImageUrl data ->
  status (snd (postImage reqBody)) = 500
  /\ (exists error details, body (snd (postImage reqBody)) = BError error details)
  /\ (Js.nullish data = false ->
        body (snd (postImage reqBody))
        = BError "OpenRouter returned no image for this prompt." None).
Proof.
  intros Hcall Hup Hno.
  rewrite (postImage_called reqBody call Hcall), Hup. simpl.
  destruct (Server.imageMessage data) as [message|e] eqn:Hm.
  - rewrite (imageUrl_absent data message Hm Hno). simpl. eauto.
  - unfold Server.imageMessage, Js.get in Hm.
    destruct (Js.nullish data); [|discriminate].
    injection Hm as <-. simpl. repeat split; eauto. discriminate.
Qed.

(** When [/api/ai] has called upstream, the response is decided by what
    came back. *)
Lemma postAi_called (reqBody : jsval) (wallClock : Z) (call : UpstreamCall) :
  fst (postAi reqBody wallClock) = [call] ->
  snd (postAi reqBody wallClock)
  = match (data ← awaitAxios (upstream call); Server.aiReply data) with
    | Ret reply => resJson (BReply reply)
    | Throw e => Server.requestFailed "AI request failed." e
    end.
Proof.
  unfold Server.postAi.
  destruct (Js.get "prompt" reqBody) as [prompt|e]; [|discriminate].
  destruct (negb (Js.truthy prompt)); [discriminate|].
  destruct (Server.callTrim prompt) as [trimmed|e]; [|discriminate].
  destruct (String.eqb trimmed ""); [discriminate|].
  destruct (Server.effectiveTimestamp _ _ _ _) as [[t|]|e]; try discriminate.
  destruct (_ && _); [discriminate|].
  destruct (Server.systemPrompt _ _ _ _ _) as [system|e]; [|discriminate].
  simpl. now intros [= <-].
Qed.

(** C10, as the code has it.  When [/api/ai] has called upstream and the
    body of the response is not [null] and holds no text at
    [choices[0].message.content], the turn succeeds: status 200 and a
    reply, as for any answer of the model, whose text is "No response
    received from OpenRouter.". *)
Theorem missing_content_fallback
    (reqBody : jsval) (wallClock : Z) (call : UpstreamCall) (data : jsval) :
  fst (postAi reqBody wallClock) = [call] ->
  upstream call = Fulfilled data ->
  Js.nullish data = false ->
  absent (Js.readPath contentPath data) ->
  snd (postAi reqBody wallClock)
  = resJson (BReply (VStr "No response received from OpenRouter.")).
Proof.
  intros Hcall Hup Hd Hno.
  rewrite (postAi_called reqBody wallClock call Hcall), Hup. simpl.
  unfold Server.aiReply, Js.get. rewrite Hd. simpl.
  unfold contentPath, Js.readPath in Hno. simpl in Hno.
  rewrite (getq_own _ _ Hd) in Hno.
  now rewrite (CatalogFacts.or_absent _ _ Hno).
Qed.

End Handlers.
End UpstreamFacts.

(** ** The question about Christmas *)

Module ChristmasFacts.
Import Design.

Lemma includes_occurs (a : ascii) (n s : string) :
  Str.includes (String a n) s = true -> Str.occurs a s = true.
Proof.
  induction s as [|c r IH]; simpl.
  - discriminate.
  - destruct (ascii_dec a c) as [->|_].
    + rewrite Ascii.eqb_refl. reflexivity.
    + simpl. intros H. rewrite (IH H). apply orb_true_r.
Qed.

Lemma space_not_h (c : ascii) :
  Str.isSpace c = true -> Ascii.eqb "h" (Str.lowerChar c) = false.
Proof.
  destruct c as [[] [] [] [] [] [] [] []]; vm_compute; congruence.
Qed.

Lemma occurs_h_inked (s : string) :
  Str.occurs "h" (Str.toLowerCase s) = true -> Str.inked s = true.
Proof.
  induction s as [|c r IH]; cbn [Str.occurs Str.toLowerCase Str.inked]; [discriminate|].
  destruct (Str.isSpace c) eqn:E; cbn [negb orb]; [|reflexivity].
  rewrite (space_not_h c E). exact IH.
Qed.

Lemma inked_trimStart (s : string) : Str.inked (Str.trimStart s) = Str.inked s.
Proof.
  induction s as [|c r IH]; simpl; [reflexivity|].
  destruct (Str.isSpace c) eqn:E; simpl; [exact IH | now rewrite E].
Qed.

Lemma inked_rev_acc (s acc : string) :
  Str.inked (Str.rev_acc s acc) = Str.inked s || Str.inked acc.
Proof.
  revert acc. induction s as [|c r IH]; intros acc; simpl; [reflexivity|].
  rewrite IH. simpl. destruct (Str.isSpace c), (Str.inked r), (Str.inked acc); reflexivity.
Qed.

Lemma inked_trim (s : string) : Str.inked (Str.trim s) = Str.inked s.
Proof.
  unfold Str.trim, Str.trimEnd, Str.rev.
  rewrite inked_rev_acc, inked_trimStart, inked_rev_acc, inked_trimStart.
  simpl. now rewrite !orb_false_r.
Qed.

(** The question is never blank. *)
Lemma asks_nonblank (prompt : string) :
  asksDaysToChristmas prompt = true ->
  String.eqb (Str.trim prompt) "" = false.
Proof.
  unfold asksDaysToChristmas. intros H. apply andb_prop in H as [H _].
  apply includes_occurs, occurs_h_inked in H.
  rewrite <- inked_trim in H.
  destruct (Str.trim prompt); [discriminate | reflexivity].
Qed.

Lemma asks_truthy (prompt : string) :
  asksDaysToChristmas prompt = true -> Js.truthy (VStr prompt) = true.
Proof.
  intros H. simpl. destruct prompt; [discriminate H | reflexivity].
Qed.

(** The first ten code units of the ISO form are the date, for a year of
    four digits. *)
Lemma slice_isoString (t : Z) :
  0 <= DateTime.YearFromTime t <= 9999 ->
  Str.slice0 10 (DateTime.isoString t) = DateTime.isoDate t.
Proof.
  intros [H1 H2]. unfold DateTime.isoString, DateTime.isoYear.
  apply Z.leb_le in H1, H2. rewrite H1, H2. reflexivity.
Qed.

Lemma ceilDiv_days (a : Z) : - ((- a) / (1000 * 60 * 60 * 24)) = ceilDiv a 86400000.
Proof.
  unfold ceilDiv. change (1000 * 60 * 60 * 24) with 86400000.
  Z.div_mod_to_equations. lia.
Qed.

Lemma daysFromCivil_december (y : Z) :
  100 <= y <= 10000 ->
  Z.abs (DateTime.daysFromCivil y 12 25 * DateTime.msPerDay)
  <= DateTime.maxTime - DateTime.msPerDay.
Proof.
  intros H. unfold DateTime.daysFromCivil, DateTime.msPerDay, DateTime.maxTime.
  simpl. Z.div_mod_to_equations. lia.
Qed.

Section Zone.
Variable LocalTZA : Z -> bool -> Z.
Hypothesis zone_bound : forall u b, Z.abs (LocalTZA u b) <= DateTime.msPerDay.

(** [new Date(y, 11, 25)] is local midnight of 25 December of [y]. *)
Lemma newDateLocal_christmas (y : Z) :
  100 <= y <= 10000 ->
  DateTime.newDateLocal LocalTZA y 11 25 = Some (DateTime.christmas LocalTZA y).
Proof.
  intros H. unfold DateTime.newDateLocal, DateTime.christmas.
  replace ((0 <=? y) && (y <=? 99)) with false
    by (symmetry; apply andb_false_iff; right; apply Z.leb_gt; lia).
  change (11 + 1) with 12.
  unfold DateTime.TimeClip, DateTime.UTC.
  pose proof (daysFromCivil_december y H) as Hd.
  pose proof (zone_bound (DateTime.daysFromCivil y 12 25 * DateTime.msPerDay) false) as Hz.
  replace (_ <=? _) with true; [reflexivity|].
  symmetry. apply Z.leb_le. lia.
Qed.
End Zone.

Lemma yearHere_Some (s : string) (y : Z) :
  Server.yearHere s = Some y <->
  exists d1 d2 post,
    yearAt "" d1 d2 post s /\ y = 2000 + 10 * Str.digitVal d1 + Str.digitVal d2.
Proof.
  unfold yearAt. split.
  - destruct s as [|a [|b [|d1 [|d2 post]]]]; try discriminate. simpl.
    destruct (Ascii.eqb_spec a "2"); [subst|discriminate].
    destruct (Ascii.eqb_spec b "0"); [subst|discriminate].
    destruct (Str.isDigit d1) eqn:E1; [|discriminate].
    destruct (Str.isDigit d2) eqn:E2; [|discriminate].
    simpl. intros [= <-]. exists d1, d2, post. auto.
  - intros (d1 & d2 & post & (-> & E1 & E2) & ->). simpl.
    now rewrite E1, E2.
Qed.

Lemma digitVal_range (d : ascii) :
  Str.isDigit d = true -> 0 <= Str.digitVal d <= 9.
Proof.
  unfold Str.isDigit, Str.digitVal. intros Hd.
  apply andb_prop in Hd as [H1 H2]. apply N.leb_le in H1, H2. lia.
Qed.

(** What [matchYear] finds is the number written by the leftmost
    occurrence of 20 and two digits. *)
Lemma matchYear_Some (s : string) (y : Z) :
  Server.matchYear s = Some y ->
  exists pre d1 d2 post,
    yearAt pre d1 d2 post s
    /\ y = 2000 + 10 * Str.digitVal d1 + Str.digitVal d2
    /\ forall pre' d1' d2' post',
         yearAt pre' d1' d2' post' s ->
         (String.length pre <= String.length pre')%nat.
Proof.
  revert y. induction s as [|c r IH]; intros y; [discriminate|].
  cbn [Server.matchYear].
  destruct (Server.yearHere (String c r)) as [y0|] eqn:E.
  - intros [= <-]. apply yearHere_Some in E as (d1 & d2 & post & Hat & ->).
    exists "", d1, d2, post. split; [exact Hat|]. split; [reflexivity|].
    intros. simpl. lia.
  - intros H. destruct (IH y H) as (pre & d1 & d2 & post & (Hs & E1 & E2) & -> & Hmin).
    exists (String c pre), d1, d2, post. split; [|split; [reflexivity|]].
    + split; [|split; assumption]. rewrite Hs. reflexivity.
    + intros pre' d1' d2' post' (Hs' & E1' & E2').
      destruct pre' as [|c' p'].
      * exfalso. assert (Hyes : Server.yearHere (String c r) <> None).
        { rewrite Hs'. simpl. now rewrite E1', E2'. }
        contradiction.
      * simpl in Hs'. injection Hs' as -> Hr. simpl.
        apply le_n_S. apply (Hmin p' d1' d2' post'). now repeat split.
Qed.

(** When it finds nothing there is no such occurrence. *)
Lemma matchYear_None (s : string) :
  Server.matchYear s = None ->
  forall pre d1 d2 post, ~ yearAt pre d1 d2 post s.
Proof.
  induction s as [|c r IH]; intros H pre d1 d2 post (Hs & E1 & E2).
  - destruct pre; discriminate.
  - cbn [Server.matchYear] in H.
    destruct (Server.yearHere (String c r)) as [y0|] eqn:E; [discriminate|].
    destruct pre as [|c' p'].
    + rewrite Hs in E. simpl in E. now rewrite E1, E2 in E.
    + simpl in Hs. injection Hs as -> Hr.
      apply (IH H p' d1 d2 post). now repeat split.
Qed.

Lemma matchYear_range (s : string) (y : Z) :
  Server.matchYear s = Some y -> 2000 <= y <= 2099.
Proof.
  intros H. apply matchYear_Some in H as (pre & d1 & d2 & post & (_ & E1 & E2) & -> & _).
  pose proof (digitVal_range d1 E1). pose proof (digitVal_range d2 E2). lia.
Qed.

Lemma asks_nonempty (prompt : string) :
  asksDaysToChristmas prompt = true -> String.eqb prompt "" = false.
Proof. intros H. destruct prompt; [discriminate H | reflexivity]. Qed.

Section Router.
Variable ToString : jsval -> Exc string.
Variable Date_parse : string -> option Z.
Variable LocalTZA : Z -> bool -> Z.
Variable toLocaleString : Z -> string.
Variable upstream : UpstreamCall -> AxiosOutcome.

Abbreviation postAi :=
  (Server.postAi ToString Date_parse LocalTZA toLocaleString upstream).

Hypothesis zone_bound : forall u b, Z.abs (LocalTZA u b) <= DateTime.msPerDay.

Lemma christmasYear_targetYear (prompt : string) (t : Z) :
  100 <= DateTime.getFullYear LocalTZA t <= 9999 ->
  Server.christmasYear LocalTZA (Str.toLowerCase prompt) t
  = targetYear LocalTZA prompt t
  /\ 100 <= targetYear LocalTZA prompt t <= 10000.
Proof.
  intros Hy. unfold Server.christmasYear, targetYear.
  destruct (Server.matchYear (Str.toLowerCase prompt)) as [y|] eqn:E.
  - split; [reflexivity|]. apply matchYear_range in E. lia.
  - rewrite (newDateLocal_christmas LocalTZA zone_bound) by lia.
    cbv zeta. split; [reflexivity|].
    destruct (_ <? t); lia.
Qed.

Lemma christmasReply_text (prompt : string) (t : Z) :
  0 <= DateTime.YearFromTime t <= 9999 ->
  100 <= DateTime.getFullYear LocalTZA t <= 9999 ->
  Server.christmasReply LocalTZA (Str.toLowerCase prompt) (DateTime.isoString t) t
  = christmasText LocalTZA prompt t.
Proof.
  intros Hiso Hy.
  destruct (christmasYear_targetYear prompt t Hy) as [E R].
  unfold Server.christmasReply, christmasText, daysToChristmas.
  cbv zeta. rewrite E.
  rewrite (newDateLocal_christmas LocalTZA zone_bound) by exact R.
  rewrite (slice_isoString t Hiso).
  unfold option_map, Server.showNum, Server.daysUntil.
  now rewrite ceilDiv_days.
Qed.

(** The answer of [/api/ai] to the question, for ordinary dates. *)
Lemma postAi_christmas (reqBody : jsval) (prompt : string) (wallClock t : Z) :
  Js.get "prompt" reqBody = Ret (VStr prompt) ->
  Server.effectiveTimestamp ToString Date_parse
    (Js.own "clientDate" reqBody) wallClock = Ret (Some t) ->
  asksDaysToChristmas prompt = true ->
  0 <= DateTime.YearFromTime t <= 9999 ->
  100 <= DateTime.getFullYear LocalTZA t <= 9999 ->
  postAi reqBody wallClock
  = ([], resJson (BReply (VStr (christmasText LocalTZA prompt t)))).
Proof.
  intros Hp Ht Hq Hiso Hy. unfold Server.postAi.
  rewrite Hp, (asks_truthy prompt Hq). cbn [negb Server.callTrim].
  rewrite (asks_nonblank prompt Hq). cbv zeta. rewrite Ht.
  unfold asksDaysToChristmas in Hq. rewrite Hq.
  now rewrite (christmasReply_text prompt t Hiso Hy).
Qed.


(** A date of the client that does not parse gives no timestamp: the
    handler does not fall back on the clock of the server, the request
    fails before the prompt is looked at and before any upstream
    call. *)
Lemma unparseable_date_fails (reqBody : jsval) (prompt : string) (wallClock : Z) :
  Js.get "prompt" reqBody = Ret (VStr prompt) ->
  String.eqb (Str.trim prompt) "" = false ->
  Server.effectiveTimestamp ToString Date_parse
    (Js.own "clientDate" reqBody) wallClock = Ret None ->
  postAi reqBody wallClock
  = ([], resStatus 500 (BError "AI request failed." (Some (DMessage RangeError)))).
Proof.
  intros Hp Hb Ht. unfold Server.postAi. rewrite Hp.
  assert (Hne : Js.truthy (VStr prompt) = true)
    by (destruct prompt; [discriminate Hb | reflexivity]).
  rewrite Hne. cbn [negb Server.callTrim]. rewrite Hb. cbv zeta.
  now rewrite Ht.
Qed.

(** Whatever the dates, a question about Christmas that reaches
    [/api/ai] costs no upstream call. *)
Lemma christmas_no_upstream (reqBody : jsval) (prompt : string) (wallClock : Z) :
  Js.get "prompt" reqBody = Ret (VStr prompt) ->
  asksDaysToChristmas prompt = true ->
  fst (postAi reqBody wallClock) = [].
Proof.
  intros Hp Hq. unfold Server.postAi.
  rewrite Hp, (asks_truthy prompt Hq). cbn [negb Server.callTrim].
  rewrite (asks_nonblank prompt Hq). cbv zeta.
  destruct (Server.effectiveTimestamp _ _ _ _) as [[t|]|e]; try reflexivity.
  unfold asksDaysToChristmas in Hq. now rewrite Hq.
Qed.

End Router.
End ChristmasFacts.

(** ** Routing of a turn *)

Module TurnFacts.
Import Design Client.

Lemma substring_all (s : string) : String.substring 0 (String.length s) s = s.
Proof. induction s as [|c r IH]; simpl; [reflexivity | now rewrite IH]. Qed.

Lemma isoString_nonempty (t : Z) : String.eqb (DateTime.isoString t) "" = false.
Proof.
  unfold DateTime.isoString.
  destruct (DateTime.isoYear (DateTime.YearFromTime t)); reflexivity.
Qed.

Section Turn.
Variable ToString : jsval -> Exc string.
Variable Date_parse : string -> option Z.
Variable LocalTZA : Z -> bool -> Z.
Variable toLocaleString : Z -> string.
Variable DEFAULT_IMAGE_MODEL : jsval.
Variable upstream : UpstreamCall -> AxiosOutcome.
Variable jwt_verify : string -> bool.

Abbreviation turn :=
  (Turn.turn ToString Date_parse LocalTZA toLocaleString DEFAULT_IMAGE_MODEL
             upstream jwt_verify).

Hypothesis zone_bound : forall u b, Z.abs (LocalTZA u b) <= DateTime.msPerDay.

Lemma requireAuth_bearer (tok : string) :
  String.eqb tok "" = false -> jwt_verify tok = true ->
  Turn.requireAuth jwt_verify ("Bearer " +:+ tok) = None.
Proof.
  intros Hne Hok. unfold Turn.requireAuth.
  replace (String.prefix "Bearer " ("Bearer " +:+ tok)) with true
    by (destruct tok; reflexivity).
  replace (String.substring 7 _ _) with tok.
  - now rewrite Hne, Hok.
  - simpl. rewrite Nat.sub_0_r. now rewrite substring_all.
Qed.

(** C3, as the code has it.  The client decides the route from the mode
    before the backend sees the prompt.  A question about Christmas sent
    from a logged-in client with a model selected, in a mode other than
    the video mode and other than the image mode with an image model
    available, goes to [/api/ai]: the backend makes no upstream call and
    answers with the date reply computed from the date of the client. *)
Theorem christmas_turn_is_local
    (input tok : string) (clientNow wallClock t : Z) (st : State) :
  asksDaysToChristmas (Str.trim input) = true ->
  token st = VStr tok -> String.eqb tok "" = false -> jwt_verify tok = true ->
  isVideoMode st = false ->
  Js.truthy (selectedModel st) = true ->
  isImageMode st && (0 <? List.length (filteredModels st))%nat = false ->
  Date_parse (DateTime.isoString clientNow) = Some t ->
  0 <= DateTime.YearFromTime t <= 9999 ->
  100 <= DateTime.getFullYear LocalTZA t <= 9999 ->
  turn input clientNow wallClock st
  = Some ([], resJson (BReply (VStr (christmasText LocalTZA (Str.trim input) t)))).
Proof.
  intros Hq Htok Hne Hok Hvid Hsel Himg Hparse Hiso Hy.
  unfold Turn.turn, handleSend. cbv zeta.
  rewrite (ChristmasFacts.asks_nonempty _ Hq), Htok.
  assert (Ht : Js.truthy (VStr tok) = true) by (simpl; now rewrite Hne).
  rewrite Ht, Hvid, Hsel, Himg. cbn [negb].
  unfold Turn.serve, bearer.
  rewrite (requireAuth_bearer tok Hne Hok).
  rewrite (ChristmasFacts.postAi_christmas ToString Date_parse LocalTZA
             toLocaleString upstream zone_bound _ (Str.trim input) wallClock t);
    auto.
  unfold Server.effectiveTimestamp. simpl Js.own. cbn [Js.truthy].
  rewrite isoString_nonempty. cbn [negb Server.newDate]. now rewrite Hparse.
Qed.

End Turn.

(** C3 as stated fails: in the image mode, with an image model
    available, the same question goes to [/api/image], which asks the
    upstream model for an image and answers with it. *)
Lemma christmas_in_image_mode_calls_upstream :
  asksDaysToChristmas (Str.trim Samples.question) = true
  /\ Turn.turn Builtins.ToString Builtins.Date_parse Samples.utc
       Builtins.toLocaleString VUndefined (fun _ => Fulfilled Samples.withImage)
       Samples.gate Samples.question Samples.newYear2025 Samples.newYear2025
       Samples.imageState
     = Some ([Server.imageCall (VStr "acme/paint") (VStr Samples.question)],
             resJson (BImage (VStr "Done.") (VStr "data:image/png;base64,AAAA"))).
Proof. split; vm_compute; reflexivity. Qed.

(** The question asked from the chat mode, answered locally. *)
Lemma christmas_turn_is_local_witness :
  Turn.turn Builtins.ToString Builtins.Date_parse Samples.utc
    Builtins.toLocaleString VUndefined (fun _ => Fulfilled Samples.withImage)
    Samples.gate Samples.question Samples.newYear2025 Samples.newYear2025
    Samples.chatState
  = Some ([], resJson (BReply (VStr (christmasText Samples.utc
                                       (Str.trim Samples.question)
                                       Samples.newYear2025)))).
Proof.
  apply (christmas_turn_is_local Builtins.ToString Builtins.Date_parse
           Samples.utc Builtins.toLocaleString VUndefined
           (fun _ => Fulfilled Samples.withImage) Samples.gate)
    with (tok := "session-token").
  - intros u b. vm_compute. discriminate.
  - vm_compute. reflexivity.
  - reflexivity.
  - reflexivity.
  - reflexivity.
  - reflexivity.
  - reflexivity.
  - vm_compute. reflexivity.
  - vm_compute. reflexivity.
  - vm_compute. split; discriminate.
  - vm_compute. split; discriminate.
Defined.

Example christmas_2026_from_new_year :
  christmasText Samples.utc Samples.question Samples.newYear2025
  = "There are 723 days until Christmas 2026. (Based on current date 2025-01-01)".
Proof. vm_compute. reflexivity. Qed.

End TurnFacts.

(** ** The selection of a model when the mode changes *)

Module SelectionFacts.
Import Catalog Client.

(** C4, as the code has it.  After a change of mode, when the list of
    the models that the mode can use is not empty, the selection is kept
    if it is in the list and becomes the first entry of the list
    otherwise.  When the list is empty the selection is left as it was:
    the id stays selected although it resolves to no model of the list,
    and "No models available for this mode." is rendered when the mode
    is not the video mode, the catalogue is not loading and no loading
    error is shown. *)
Theorem selection_after_mode_change (mode : string) (st : State) :
  let st' := changeMode mode st in
  let compat := filterByCapability mode (models st) in
  activeMode st' = mode
  /\ models st' = models st
  /\ (compat <> [] ->
        existsb (fun m => Js.strictEq (id m) (selectedModel st)) compat = true ->
        selectedModel st' = selectedModel st)
  /\ (forall first rest, compat = first :: rest ->
        existsb (fun m => Js.strictEq (id m) (selectedModel st)) compat = false ->
        selectedModel st' = id first)
  /\ (compat = [] ->
        selectedModel st' = selectedModel st
        /\ selectedModelObj st' = None
        /\ noModelsNotice st'
           = negb (String.eqb mode "Video Prompts")
             && negb (isLoadingModels st)
             && negb (Js.truthy (modelError st))).
Proof.
  cbv zeta. unfold changeMode, selectionEffect.
  change (models (withActiveMode st mode)) with (models st).
  change (activeMode (withActiveMode st mode)) with mode.
  change (selectedModel (withActiveMode st mode)) with (selectedModel st).
  assert (Hnotice : forall s, activeMode s = mode -> models s = models st ->
            isLoadingModels s = isLoadingModels st ->
            modelError s = modelError st ->
            filterByCapability mode (models st) = [] ->
            noModelsNotice s
            = negb (String.eqb mode "Video Prompts")
              && negb (isLoadingModels st) && negb (Js.truthy (modelError st))).
  { intros s Ha Hm Hl He Hc. unfold noModelsNotice, isVideoMode, filteredModels.
    rewrite Ha, Hm, Hl, He, Hc. cbn. now rewrite andb_true_r. }
  assert (Hobj : forall s, activeMode s = mode -> models s = models st ->
            filterByCapability mode (models st) = [] ->
            selectedModelObj s = None).
  { intros s Ha Hm Hc. unfold selectedModelObj, filteredModels.
    now rewrite Ha, Hm, Hc. }
  destruct (models st) as [|m0 ms] eqn:Hm.
  - repeat split; try (cbn; congruence).
    + now apply Hobj.
    + now apply Hnotice.
  - destruct (filterByCapability mode (m0 :: ms)) as [|first rest] eqn:Hc.
    + repeat split; try (cbn; congruence).
      * now apply Hobj.
      * now apply Hnotice.
    + set (found := existsb _ (first :: rest)).
      destruct found eqn:He; cbn [negb]; repeat split; cbn; congruence.
Qed.

(** C4 as stated fails: with a catalogue of text models only, entering
    the image mode leaves "acme/talk" selected although no model is
    available for the mode; and in the video mode the notice is not
    rendered although the list is empty. *)
Lemma empty_mode_keeps_selection :
  filterByCapability "Image Prompts" (models Samples.textOnlyState) = []
  /\ selectedModel (changeMode "Image Prompts" Samples.textOnlyState)
     = VStr "acme/talk"
  /\ filterByCapability "Video Prompts" (models Samples.textOnlyState) = []
  /\ noModelsNotice (changeMode "Video Prompts" Samples.textOnlyState) = false.
Proof. repeat split; vm_compute; reflexivity. Qed.

Example image_mode_selects_first :
  selectedModel (changeMode "Image Prompts" Samples.chatState) = VStr "acme/paint"
  /\ noModelsNotice (changeMode "Image Prompts" Samples.chatState) = false.
Proof. split; vm_compute; reflexivity. Qed.

Example empty_image_mode_shows_notice :
  noModelsNotice (changeMode "Image Prompts" Samples.textOnlyState) = true
  /\ selectedModelObj (changeMode "Image Prompts" Samples.textOnlyState) = None.
Proof. split; vm_compute; reflexivity. Qed.

End SelectionFacts.

(** ** JSON text *)

Module JsonFacts.
Import Builtins.

Lemma append_cons (c : ascii) (s t : string) : String c s +:+ t = String c (s +:+ t).
Proof. reflexivity. Qed.

Lemma append_nil (t : string) : "" +:+ t = t.
Proof. reflexivity. Qed.

Abbreviation nondigit rest := (startsWithDigit rest = false).

Lemma digits_stop (acc : Z) (rest : string) :
  nondigit rest -> digits rest acc = Some (acc, rest).
Proof.
  destruct rest as [|c r]; simpl; [reflexivity|].
  now intros ->.
Qed.

Lemma digits_uint_acc (d : Decimal.uint) (acc : positive) (rest : string) :
  nondigit rest ->
  digits (NilEmpty.string_of_uint d +:+ rest) (Zpos acc)
  = Some (Zpos (Pos.of_uint_acc d acc), rest).
Proof.
  intros H. revert acc.
  induction d; intros acc; cbn [NilEmpty.string_of_uint Pos.of_uint_acc];
    rewrite ?append_cons, ?append_nil;
    try (now apply digits_stop);
    cbn [digits]; change (Str.isDigit _) with true; cbv iota;
    match goal with
    | |- digits _ ?a = _ =>
        match type of IHd with
        | forall acc, _ = Some (Zpos (Pos.of_uint_acc _ acc), _) =>
            match goal with
            | |- _ = Some (Zpos (Pos.of_uint_acc _ ?p), _) =>
                replace a with (Zpos p) by (unfold Str.digitVal; simpl; lia)
            end
        end
    end; apply IHd.
Qed.

Lemma digits_uint (d : Decimal.uint) (rest : string) :
  nondigit rest ->
  digits (NilEmpty.string_of_uint d +:+ rest) 0
  = Some (Z.of_N (Pos.of_uint d), rest).
Proof.
  intros H.
  induction d; cbn [NilEmpty.string_of_uint Pos.of_uint];
    rewrite ?append_cons, ?append_nil;
    try (now apply digits_stop);
    cbn [digits]; change (Str.isDigit _) with true; cbv iota.
  - exact IHd.
  - apply (digits_uint_acc d 1 rest H).
  - apply (digits_uint_acc d 2 rest H).
  - apply (digits_uint_acc d 3 rest H).
  - apply (digits_uint_acc d 4 rest H).
  - apply (digits_uint_acc d 5 rest H).
  - apply (digits_uint_acc d 6 rest H).
  - apply (digits_uint_acc d 7 rest H).
  - apply (digits_uint_acc d 8 rest H).
  - apply (digits_uint_acc d 9 rest H).
Qed.

Lemma digits_NilZero (d : Decimal.uint) (rest : string) :
  nondigit rest ->
  digits (NilZero.string_of_uint d +:+ rest) 0
  = Some (Z.of_N (Pos.of_uint d), rest).
Proof.
  intros H. destruct d; try apply (digits_uint _ rest H).
  cbn [NilZero.string_of_uint Pos.of_uint]. rewrite append_cons, append_nil.
  cbn [digits]. change (Str.isDigit _) with true. cbv iota.
  now apply digits_stop.
Qed.

(** The decimal form of a natural number begins with a digit. *)
Lemma NilZero_head (d : Decimal.uint) (rest : string) :
  exists c s, NilZero.string_of_uint d +:+ rest = String c s
              /\ Str.isDigit c = true.
Proof.
  destruct d; cbn [NilZero.string_of_uint NilEmpty.string_of_uint];
    rewrite append_cons; eauto.
Qed.

Lemma digit_dispatch (c : ascii) :
  Str.isDigit c = true \/ c = "-"%char ->
  (Str.code c =? 110)%N = false /\ (Str.code c =? 116)%N = false
  /\ (Str.code c =? 102)%N = false /\ (Str.code c =? 34)%N = false
  /\ (Str.code c =? 91)%N = false /\ (Str.code c =? 123)%N = false
  /\ isJsonSpace c = false.
Proof.
  intros [H| ->]; [|repeat split].
  destruct c as [[] [] [] [] [] [] [] []]; try discriminate H; repeat split.
Qed.

Lemma parseInteger_digit (c : ascii) (s : string) :
  Str.isDigit c = true ->
  parseInteger (String c s)
  = (if startsWithDigit (String c s)
     then '(n, rest) ← digits (String c s) 0; Some (VNum (Num.ofZ n), rest)
     else None).
Proof.
  intros H.
  destruct c as [[] [] [] [] [] [] [] []]; try discriminate H; reflexivity.
Qed.

Lemma parseInteger_nat (d : Decimal.uint) (rest : string) :
  nondigit rest ->
  parseInteger (NilZero.string_of_uint d +:+ rest)
  = Some (VNum (Num.ofZ (Z.of_N (Pos.of_uint d))), rest).
Proof.
  intros H. destruct (NilZero_head d rest) as (c & s & E & Hc).
  pose proof (digits_NilZero d rest H) as Hd. rewrite E in *.
  rewrite (parseInteger_digit c s Hc). cbn [startsWithDigit]. rewrite Hc, Hd.
  reflexivity.
Qed.

Lemma parseInteger_ofZ (z : Z) (rest : string) :
  nondigit rest ->
  parseInteger (Str.ofZ z +:+ rest) = Some (VNum (Num.ofZ z), rest).
Proof.
  intros H. unfold Str.ofZ. destruct z as [|p|p]; cbn [Z.to_int NilZero.string_of_int].
  - apply (parseInteger_nat (Decimal.D0 Decimal.Nil) rest H).
  - rewrite (parseInteger_nat (Pos.to_uint p) rest H).
    now rewrite DecimalPos.Unsigned.of_to.
  - rewrite append_cons. cbn [parseInteger].
    destruct (NilZero_head (Pos.to_uint p) rest) as (c & s & E & Hc).
    pose proof (digits_NilZero (Pos.to_uint p) rest H) as Hd. rewrite E in *.
    cbn [startsWithDigit]. rewrite Hc, Hd. cbn.
    now rewrite DecimalPos.Unsigned.of_to.
Qed.

(** The first code unit of the decimal form of an integer. *)
Lemma ofZ_head (z : Z) (rest : string) :
  exists c s, Str.ofZ z +:+ rest = String c s
              /\ (Str.isDigit c = true \/ c = "-"%char).
Proof.
  unfold Str.ofZ. destruct z as [|p|p]; cbn [Z.to_int NilZero.string_of_int].
  - destruct (NilZero_head (Decimal.D0 Decimal.Nil) rest) as (c & s & E & Hc); eauto.
  - destruct (NilZero_head (Pos.to_uint p) rest) as (c & s & E & Hc); eauto.
  - rewrite append_cons. eauto.
Qed.

Lemma append_assoc (a b c : string) : (a +:+ b) +:+ c = a +:+ (b +:+ c).
Proof.
  induction a as [|x a IH]; [reflexivity|]. rewrite !append_cons. now f_equal.
Qed.

Lemma append_nil_r (a : string) : a +:+ "" = a.
Proof.
  induction a as [|x a IH]; [reflexivity|]. rewrite append_cons. now f_equal.
Qed.

Lemma length_append (a b : string) :
  String.length (a +:+ b) = (String.length a + String.length b)%nat.
Proof.
  induction a as [|x a IH]; [reflexivity|]. rewrite append_cons. simpl. now f_equal.
Qed.

Lemma parseString_char (c : ascii) (r acc : string) :
  parseString (escapeChar c +:+ r) acc = parseString r (String c acc).
Proof.
  destruct c as [[] [] [] [] [] [] [] []]; reflexivity.
Qed.

Lemma parseString_escape (s rest acc : string) :
  parseString (escape s +:+ dquote +:+ rest) acc
  = Some (Str.rev (Str.rev_acc s acc), rest).
Proof.
  revert acc. induction s as [|c r IH]; intros acc.
  - reflexivity.
  - cbn [escape Str.rev_acc].
    rewrite append_assoc, parseString_char. apply IH.
Qed.

Lemma rev_acc_rev_acc (s a b : string) :
  Str.rev_acc (Str.rev_acc s a) b = Str.rev_acc a (s +:+ b).
Proof.
  revert a. induction s as [|c r IH]; intros a; cbn [Str.rev_acc].
  - reflexivity.
  - rewrite IH. reflexivity.
Qed.

Lemma rev_rev_acc (s : string) : Str.rev (Str.rev_acc s "") = s.
Proof.
  unfold Str.rev. rewrite rev_acc_rev_acc. cbn [Str.rev_acc].
  apply append_nil_r.
Qed.

Lemma parseString_quoted (s rest : string) :
  parseString (escape s +:+ dquote +:+ rest) "" = Some (s, rest).
Proof. rewrite parseString_escape. now rewrite rev_rev_acc. Qed.

Lemma size_arr (items : list jsval) : size (VArr items) = S (sizeList items).
Proof.
  induction items as [|x r IH]; [reflexivity|].
  simpl in *. lia.
Qed.

Lemma size_obj (fields : list (string * jsval)) :
  size (VObj fields) = S (sizeFields fields).
Proof.
  induction fields as [|[k x] r IH]; [reflexivity|].
  simpl in *. lia.
Qed.

Lemma stringify_arr (items : list jsval) :
  JSON_stringify (VArr items)
  = "[" +:+ join "," (List.map JSON_stringify items) +:+ "]".
Proof.
  assert (E : forall l,
            (fix each (l : list jsval) : list string :=
               match l with
               | [] => []
               | x :: r => JSON_stringify x :: each r
               end) l = List.map JSON_stringify l).
  { induction l as [|x r IH]; [reflexivity|]. cbn [List.map]. now rewrite <- IH. }
  cbn [JSON_stringify]. now rewrite E.
Qed.

Lemma plain_defined (v : jsval) : plain v -> v <> VUndefined.
Proof. intros H. inversion H; discriminate. Qed.

Lemma stringify_obj (fields : list (string * jsval)) :
  Forall (fun kv => plain (snd kv)) fields ->
  JSON_stringify (VObj fields) = "{" +:+ join "," (List.map member fields) +:+ "}".
Proof.
  intros H.
  assert (E : (fix each (l : list (string * jsval)) : list string :=
                 match l with
                 | [] => []
                 | (k, VUndefined) :: r => each r
                 | (k, x) :: r => (quoted k +:+ ":" +:+ JSON_stringify x) :: each r
                 end) fields = List.map member fields).
  { induction H as [|[k x] r Hx _ IH]; [reflexivity|].
    cbn [List.map]. rewrite <- IH. unfold member. cbn [fst snd] in *.
    destruct x; try reflexivity. now apply plain_defined in Hx. }
  cbn [JSON_stringify]. now rewrite E.
Qed.

Lemma parseValue_S (f : nat) (s : string) :
  parseValue (S f) s = parseToken (parseElems f) (parseMembers f) (skipWs s).
Proof. reflexivity. Qed.

Lemma parseElems_S (f : nat) (s : string) (acc : list jsval) :
  parseElems (S f) s acc
  = ('(v, rest) ← parseValue f s; afterElem (parseElems f) (acc ++ [v]) rest).
Proof. reflexivity. Qed.

Lemma parseMembers_S (f : nat) (s : string) (acc : list (string * jsval)) :
  parseMembers (S f) s acc
  = ('(k, r2) ← parseKey s;
     '(v, rest) ← parseValue f r2;
     afterMember (parseMembers f) (setField k v acc) rest).
Proof. reflexivity. Qed.

Lemma skipWs_head (c : ascii) (r : string) :
  isJsonSpace c = false -> skipWs (String c r) = String c r.
Proof. intros H. cbn [skipWs]. now rewrite H. Qed.

Lemma reads_null : reads VNull.
Proof.
  intros [|f] rest Hf _; [cbn in Hf; lia|]. destruct rest; reflexivity.
Qed.

Lemma reads_bool (b : bool) : reads (VBool b).
Proof.
  intros [|f] rest Hf _; [cbn in Hf; lia|]. destruct b, rest; reflexivity.
Qed.

Lemma reads_num (z : Z) : reads (VNum (Num.ofZ z)).
Proof.
  intros [|f] rest Hf Hr; [cbn in Hf; lia|].
  change (JSON_stringify (VNum (Num.ofZ z))) with (Str.ofZ (Z.quot z 1)).
  rewrite Z.quot_1_r.
  destruct (ofZ_head z rest) as (c & s & E & Hc).
  destruct (digit_dispatch c Hc) as (T1 & T2 & T3 & T4 & T5 & T6 & Tw).
  rewrite parseValue_S, E, (skipWs_head c s Tw).
  unfold parseToken. cbv zeta. rewrite T1, T2, T3, T4, T5, T6.
  rewrite <- E. now apply parseInteger_ofZ.
Qed.

Lemma quoted_append (s rest : string) :
  quoted s +:+ rest = String "034" (escape s +:+ dquote +:+ rest).
Proof.
  unfold quoted. rewrite !append_assoc. reflexivity.
Qed.

Lemma reads_str (s : string) : reads (VStr s).
Proof.
  intros [|f] rest Hf _; [cbn in Hf; lia|].
  change (JSON_stringify (VStr s)) with (quoted s).
  rewrite quoted_append, parseValue_S, skipWs_head by reflexivity.
  unfold parseToken. cbv zeta.
  change (Str.code "034" =? 110)%N with false.
  change (Str.code "034" =? 116)%N with false.
  change (Str.code "034" =? 102)%N with false.
  change (Str.code "034" =? 34)%N with true. cbv iota.
  now rewrite parseString_quoted.
Qed.

(** The text of a plain value begins with a code unit that is neither
    white space, nor a closing bracket or brace, and after which no
    number can go on. *)
Definition opens (c : ascii) : Prop :=
  isJsonSpace c = false /\ c <> "]"%char /\ c <> "}"%char.

Lemma stringify_head (v : jsval) (rest : string) :
  plain v ->
  exists c s, JSON_stringify v +:+ rest = String c s /\ opens c.
Proof.
  intros H. unfold opens. inversion H; subst.
  - exists "n"%char. eexists. split; [reflexivity|]. repeat split; discriminate.
  - destruct b; eexists _, _; (split; [reflexivity|]); repeat split; discriminate.
  - change (JSON_stringify (VNum (Num.ofZ z))) with (Str.ofZ (Z.quot z 1)).
    destruct (ofZ_head (Z.quot z 1) rest) as (c & s & E & Hc).
    exists c, s. split; [exact E|].
    destruct (digit_dispatch c Hc) as (_ & _ & _ & _ & _ & _ & Tw).
    split; [exact Tw|].
    destruct Hc as [Hc| ->]; [|split; discriminate].
    split; intros ->; discriminate Hc.
  - change (JSON_stringify (VStr s)) with (quoted s). rewrite quoted_append.
    eexists _, _; (split; [reflexivity|]); repeat split; discriminate.
  - rewrite stringify_arr. rewrite append_cons.
    eexists _, _; (split; [reflexivity|]); repeat split; discriminate.
  - rewrite stringify_obj by assumption. rewrite append_cons.
    eexists _, _; (split; [reflexivity|]); repeat split; discriminate.
Qed.

Lemma startsWith_other (c c' : ascii) (s : string) :
  c' <> c -> startsWith c (String c' s) = None.
Proof.
  intros H. cbn [startsWith].
  destruct (Ascii.eqb_spec c c'); [congruence | reflexivity].
Qed.

Lemma parseElems_items (items : list jsval) :
  Forall reads items ->
  forall x fuel acc rest,
    reads x -> (sizeList (x :: items) < fuel)%nat ->
    parseElems fuel
      (join "," (List.map JSON_stringify (x :: items)) +:+ "]" +:+ rest) acc
    = Some ((acc ++ x :: items)%list, rest).
Proof.
  induction 1 as [|y r Hy Hr IH]; intros x fuel acc rest Hx Hf;
    (destruct fuel as [|f]; [cbn in Hf; lia|]); cbn [sizeList] in Hf;
    rewrite parseElems_S.
  - cbn [List.map join].
    rewrite (Hx f ("]" +:+ rest)) by (cbn; try reflexivity; lia).
    reflexivity.
  - change (join "," (List.map JSON_stringify (x :: y :: r)))
      with (JSON_stringify x +:+ "," +:+ join "," (List.map JSON_stringify (y :: r))).
    rewrite !append_assoc.
    rewrite (Hx f) by (cbn; try reflexivity; lia).
    cbn [mbind option_bind]. unfold afterElem.
    rewrite append_cons, append_nil, skipWs_head by reflexivity.
    rewrite (IH y f (acc ++ [x])%list rest Hy) by (cbn [sizeList]; lia).
    now rewrite <- app_assoc.
Qed.

Lemma reads_arr (items : list jsval) :
  Forall plain items -> Forall reads items -> reads (VArr items).
Proof.
  intros Hp Hr [|f] rest Hf _; [cbn in Hf; lia|].
  rewrite size_arr in Hf. rewrite stringify_arr, !append_assoc.
  rewrite append_cons, append_nil, parseValue_S, skipWs_head by reflexivity.
  unfold parseToken. cbv zeta.
  change (Str.code "[" =? 110)%N with false.
  change (Str.code "[" =? 116)%N with false.
  change (Str.code "[" =? 102)%N with false.
  change (Str.code "[" =? 34)%N with false.
  change (Str.code "[" =? 91)%N with true. cbv iota.
  destruct Hr as [|x r Hx Hr].
  - reflexivity.
  - inversion Hp as [|? ? Hpx _]; subst.
    destruct (stringify_head x
                ("," +:+ join "," (List.map JSON_stringify r) +:+ "]" +:+ rest) Hpx)
      as (c & s & E & Hw & Hb & _).
    assert (Es : exists c s,
               join "," (List.map JSON_stringify (x :: r)) +:+ "]" +:+ rest
               = String c s /\ isJsonSpace c = false /\ c <> "]"%char).
    { destruct r as [|y r'].
      - destruct (stringify_head x ("]" +:+ rest) Hpx) as (c0 & s0 & E0 & Hw0 & Hb0 & _).
        exists c0, s0. cbn [List.map join]. auto.
      - exists c, s. split; [|auto].
        change (join "," (List.map JSON_stringify (x :: y :: r')))
          with (JSON_stringify x +:+ "," +:+ join "," (List.map JSON_stringify (y :: r'))).
        now rewrite !append_assoc. }
    destruct Es as (c1 & s1 & E1 & Hw1 & Hb1).
    rewrite E1 at 1. rewrite (skipWs_head c1 s1 Hw1), (startsWith_other _ _ _ Hb1).
    rewrite (parseElems_items r Hr x f [] rest Hx) by lia.
    reflexivity.
Qed.

Lemma parseKey_member (k u : string) :
  parseKey (quoted k +:+ ":" +:+ u) = Some (k, u).
Proof.
  unfold parseKey. rewrite quoted_append, skipWs_head by reflexivity.
  change (Str.code "034" =? 34)%N with true. cbv iota.
  rewrite parseString_quoted. cbn [mbind option_bind].
  rewrite append_cons, append_nil, skipWs_head by reflexivity.
  reflexivity.
Qed.

Lemma setField_fresh (k : string) (v : jsval) (acc : list (string * jsval)) :
  ~ In k (List.map fst acc) -> setField k v acc = (acc ++ [(k, v)])%list.
Proof.
  induction acc as [|[k' v'] r IH]; intros H; [reflexivity|].
  cbn [setField]. cbn [List.map fst In] in H.
  destruct (String.eqb_spec k k') as [->|_]; [tauto|].
  rewrite IH by tauto. reflexivity.
Qed.

Lemma NoDup_fresh (acc fields : list (string * jsval)) (kv : string * jsval) :
  NoDup (List.map fst (acc ++ kv :: fields)%list) ->
  ~ In (fst kv) (List.map fst acc).
Proof.
  rewrite List.map_app. cbn [List.map]. intros H Hin.
  apply NoDup_remove_2 in H. apply H. apply in_or_app. now left.
Qed.

Lemma parseMembers_fields (fields : list (string * jsval)) :
  Forall (fun kv => reads (snd kv)) fields ->
  forall kv fuel acc rest,
    reads (snd kv) ->
    NoDup (List.map fst (acc ++ kv :: fields)%list) ->
    (sizeFields (kv :: fields) < fuel)%nat ->
    parseMembers fuel (join "," (List.map member (kv :: fields)) +:+ "}" +:+ rest) acc
    = Some ((acc ++ kv :: fields)%list, rest).
Proof.
  induction 1 as [|kv' r Hy Hr IH]; intros [k v] fuel acc rest Hx Hnd Hf;
    (destruct fuel as [|f]; [cbn in Hf; lia|]); cbn [sizeFields snd] in Hf;
    cbn [snd] in Hx; rewrite parseMembers_S;
    pose proof (NoDup_fresh acc _ (k, v) Hnd) as Hfresh; cbn [fst] in Hfresh.
  - cbn [List.map join]. unfold member at 1. cbn [fst snd].
    rewrite !append_assoc, parseKey_member. cbn [mbind option_bind].
    rewrite (Hx f ("}" +:+ rest)) by (cbn; try reflexivity; lia).
    cbn [mbind option_bind]. unfold afterMember.
    rewrite append_cons, append_nil, skipWs_head by reflexivity.
    now rewrite (setField_fresh k v acc Hfresh).
  - change (join "," (List.map member ((k, v) :: kv' :: r)))
      with (member (k, v) +:+ "," +:+ join "," (List.map member (kv' :: r))).
    unfold member at 1. cbn [fst snd].
    rewrite !append_assoc, parseKey_member. cbn [mbind option_bind].
    rewrite (Hx f) by (cbn; try reflexivity; lia).
    cbn [mbind option_bind]. unfold afterMember.
    rewrite append_cons, append_nil, skipWs_head by reflexivity.
    rewrite (setField_fresh k v acc Hfresh).
    rewrite (IH kv' f (acc ++ [(k, v)])%list rest Hy).
    + now rewrite <- app_assoc.
    + now rewrite <- app_assoc.
    + cbn [sizeFields]. lia.
Qed.

Lemma reads_obj (fields : list (string * jsval)) :
  NoDup (List.map fst fields) ->
  Forall (fun kv => plain (snd kv)) fields ->
  Forall (fun kv => reads (snd kv)) fields -> reads (VObj fields).
Proof.
  intros Hnd Hp Hr [|f] rest Hf _; [cbn in Hf; lia|].
  rewrite size_obj in Hf. rewrite (stringify_obj fields Hp), !append_assoc.
  rewrite append_cons, append_nil, parseValue_S, skipWs_head by reflexivity.
  unfold parseToken. cbv zeta.
  change (Str.code "{" =? 110)%N with false.
  change (Str.code "{" =? 116)%N with false.
  change (Str.code "{" =? 102)%N with false.
  change (Str.code "{" =? 34)%N with false.
  change (Str.code "{" =? 91)%N with false.
  change (Str.code "{" =? 123)%N with true. cbv iota.
  destruct Hr as [|[k v] r Hx Hr].
  - reflexivity.
  - assert (E1 : exists s1,
               join "," (List.map member ((k, v) :: r)) +:+ "}" +:+ rest
               = String "034" s1).
    { destruct r as [|kv' r'].
      - cbn [List.map join]. unfold member. cbn [fst snd].
        rewrite !append_assoc, quoted_append. eauto.
      - change (join "," (List.map member ((k, v) :: kv' :: r')))
          with (member (k, v) +:+ "," +:+ join "," (List.map member (kv' :: r'))).
        unfold member at 1. cbn [fst snd].
        rewrite !append_assoc, quoted_append. eauto. }
    destruct E1 as (s1 & E1).
    rewrite E1 at 1. rewrite skipWs_head by reflexivity.
    rewrite startsWith_other by discriminate.
    rewrite (parseMembers_fields r Hr (k, v) f [] rest Hx Hnd) by lia.
    reflexivity.
Qed.

(** Every plain value is read back from its text. *)
Lemma plain_reads (v : jsval) : plain v -> reads v.
Proof.
  induction v as [| |b|n|s|items IH|fields IH] using jsval_induction;
    intros H; inversion H; subst.
  - apply reads_null.
  - apply reads_bool.
  - apply reads_num.
  - apply reads_str.
  - apply reads_arr; [assumption|].
    rewrite Forall_forall in *. auto.
  - apply reads_obj; try assumption.
    rewrite Forall_forall in *. auto.
Qed.

Lemma length_join_items (items : list jsval) :
  Forall (fun v => (size v <= String.length (JSON_stringify v))%nat) items ->
  (sizeList items <= String.length (join "," (List.map JSON_stringify items)) + 1)%nat.
Proof.
  induction 1 as [|x r Hx Hr IH]; [cbn; lia|].
  destruct r as [|y r'].
  - cbn [List.map join sizeList]. lia.
  - change (join "," (List.map JSON_stringify (x :: y :: r')))
      with (JSON_stringify x +:+ "," +:+ join "," (List.map JSON_stringify (y :: r'))).
    rewrite !length_append. cbn [sizeList] in *. cbn [String.length]. lia.
Qed.

Lemma length_join_fields (fields : list (string * jsval)) :
  Forall (fun kv => (size (snd kv) <= String.length (JSON_stringify (snd kv)))%nat)
         fields ->
  (sizeFields fields <= String.length (join "," (List.map member fields)) + 1)%nat.
Proof.
  induction 1 as [|x r Hx Hr IH]; [cbn; lia|].
  assert (Hm : (size (snd x) < String.length (member x))%nat).
  { unfold member. rewrite !length_append. cbn [String.length]. lia. }
  destruct r as [|y r'].
  - cbn [List.map join sizeFields]. lia.
  - change (join "," (List.map member (x :: y :: r')))
      with (member x +:+ "," +:+ join "," (List.map member (y :: r'))).
    rewrite !length_append. cbn [sizeFields] in *. cbn [String.length]. lia.
Qed.

Lemma size_le_length (v : jsval) :
  plain v -> (size v <= String.length (JSON_stringify v))%nat.
Proof.
  induction v as [| |b|n|s|items IH|fields IH] using jsval_induction;
    intros H; inversion H; subst.
  - cbn. lia.
  - destruct b; cbn; lia.
  - change (JSON_stringify (VNum (Num.ofZ z))) with (Str.ofZ (Z.quot z 1)).
    destruct (ofZ_head (Z.quot z 1) "") as (c & s & E & _).
    rewrite append_nil_r in E. rewrite E. cbn. lia.
  - change (JSON_stringify (VStr s)) with (quoted s).
    unfold quoted. rewrite !length_append. cbn. lia.
  - rewrite size_arr, stringify_arr, !length_append. cbn [String.length].
    assert (Hs : Forall (fun v => (size v <= String.length (JSON_stringify v))%nat) items)
      by (rewrite Forall_forall in *; auto).
    pose proof (length_join_items items Hs). lia.
  - rewrite size_obj, stringify_obj, !length_append by assumption.
    cbn [String.length].
    assert (Hs : Forall (fun kv => (size (snd kv)
                                    <= String.length (JSON_stringify (snd kv)))%nat) fields)
      by (rewrite Forall_forall in *; auto).
    pose proof (length_join_fields fields Hs). lia.
Qed.

(** The JSON text of a plain value reads back as the value. *)
Theorem JSON_roundtrip (v : jsval) :
  plain v -> JSON_parse (JSON_stringify v) = Some v.
Proof.
  intros H. unfold JSON_parse.
  pose proof (plain_reads v H (2 * String.length (JSON_stringify v) + 2)%nat "") as R.
  rewrite append_nil_r in R. rewrite R.
  - reflexivity.
  - pose proof (size_le_length v H). lia.
  - reflexivity.
Qed.

End JsonFacts.

(** ** The conversation store *)

Module StoreFacts.
Import Client Store.

Section Store.
Variable JSON_stringify : jsval -> string.
Variable JSON_parse : string -> option jsval.

Abbreviation save := (Store.save JSON_stringify).
Abbreviation load := (Store.load JSON_parse).

Lemma truthy_array (l : list jsval) : Js.truthy (VArr l) = true.
Proof. reflexivity. Qed.

(** What [save] does with a body that holds both arrays. *)
Lemma save_arrays (reqBody : jsval) (ps cs : list jsval) (db : Server.Table) :
  Js.get "projects" reqBody = Ret (VArr ps) ->
  Js.get "chats" reqBody = Ret (VArr cs) ->
  save reqBody db
  = (<["default" :=
        JSON_stringify (VObj [("projects", VArr ps); ("chats", VArr cs)])]> db,
     resJson BSuccess).
Proof.
  intros Hp Hc. unfold Store.save, Server.postChatState.
  rewrite Hp, Hc. reflexivity.
Qed.

Lemma save_then_load
    (reqBody : jsval) (ps cs : list jsval) (db : Server.Table) :
  Js.get "projects" reqBody = Ret (VArr ps) ->
  Js.get "chats" reqBody = Ret (VArr cs) ->
  JSON_parse (JSON_stringify (VObj [("projects", VArr ps); ("chats", VArr cs)]))
    = Some (VObj [("projects", VArr ps); ("chats", VArr cs)]) ->
  snd (save reqBody db) = resJson BSuccess
  /\ load (fst (save reqBody db))
     = resJson (BJson (VObj [("projects", VArr ps); ("chats", VArr cs)]))
  /\ fst (save reqBody (fst (save reqBody db))) = fst (save reqBody db)
  /\ load (∅ : gmap string string)
     = resJson (BJson (VObj [("projects", VArr []); ("chats", VArr [])])).
Proof.
  intros Hp Hc Hrt.
  rewrite !(save_arrays reqBody ps cs) by assumption.
  cbn [fst snd]. repeat split.
  - unfold Store.load, Server.getChatState.
    rewrite lookup_insert_eq. now rewrite Hrt.
  - apply insert_insert_eq.
Qed.

(** C9.  A snapshot is a body whose [projects] and [chats] are arrays,
    empty or not.  When the JSON text of the snapshot reads back as the
    snapshot, [save] answers success and a [load] that follows returns
    the projects and the chats that were saved, whatever the table held
    before; saving the same snapshot again changes nothing; and [load]
    on a table without a row returns the snapshot of two empty
    arrays. *)
Theorem save_load_roundtrip
    (reqBody : jsval) (ps cs : list jsval) (db : Server.Table) :
  Js.get "projects" reqBody = Ret (VArr ps) ->
  Js.get "chats" reqBody = Ret (VArr cs) ->
  JSON_parse (JSON_stringify (VObj [("projects", VArr ps); ("chats", VArr cs)]))
    = Some (VObj [("projects", VArr ps); ("chats", VArr cs)]) ->
  snd (save reqBody db) = resJson BSuccess
  /\ load (fst (save reqBody db))
     = resJson (BJson (VObj [("projects", VArr ps); ("chats", VArr cs)]))
  /\ fst (save reqBody (fst (save reqBody db))) = fst (save reqBody db)
  /\ load (∅ : gmap string string)
     = resJson (BJson (VObj [("projects", VArr []); ("chats", VArr [])])).
Proof. exact (save_then_load reqBody ps cs db). Qed.

(** The effect that follows a change of the projects or the chats
    writes to the local storage of the browser and leaves the table of
    the backend as it was. *)
Lemma commit_leaves_db (st' : State) (w : World) :
  db (commit JSON_stringify st' w) = db w
  /\ load (db (commit JSON_stringify st' w)) = load (db w)
  /\ localStorage (commit JSON_stringify st' w) !! "byteSizeProjects"
     = Some (JSON_stringify (projects st'))
  /\ localStorage (commit JSON_stringify st' w) !! "byteSizeChats"
     = Some (JSON_stringify (chats st')).
Proof.
  unfold commit, saveEffect. cbn [db localStorage]. repeat split.
  - rewrite lookup_insert_ne by discriminate. apply lookup_insert_eq.
  - apply lookup_insert_eq.
Qed.

End Store.

(** With the executable JSON text, every snapshot of plain values comes
    back from the store as it was saved. *)
Lemma plain_snapshot_roundtrip (ps cs : list jsval) (db : Server.Table) :
  Forall Builtins.plain ps -> Forall Builtins.plain cs ->
  Store.load Builtins.JSON_parse
    (fst (Store.save Builtins.JSON_stringify
            (VObj [("projects", VArr ps); ("chats", VArr cs)]) db))
  = resJson (BJson (VObj [("projects", VArr ps); ("chats", VArr cs)])).
Proof.
  intros Hps Hcs.
  apply (save_then_load Builtins.JSON_stringify Builtins.JSON_parse _ ps cs db);
    try reflexivity.
  apply JsonFacts.JSON_roundtrip. apply Builtins.plain_obj.
  - cbn [List.map fst]. repeat constructor; cbn; intuition discriminate.
  - constructor; [now apply Builtins.plain_arr|].
    constructor; [now apply Builtins.plain_arr | constructor].
Qed.

(** The sample snapshot and the empty one, saved and loaded. *)
Lemma save_load_roundtrip_witness :
  (snd (Store.save Builtins.JSON_stringify Samples.snapshot1 ∅) = resJson BSuccess
   /\ Store.load Builtins.JSON_parse
        (fst (Store.save Builtins.JSON_stringify Samples.snapshot1 ∅))
      = resJson (BJson Samples.snapshot1)
   /\ fst (Store.save Builtins.JSON_stringify Samples.snapshot1
             (fst (Store.save Builtins.JSON_stringify Samples.snapshot1 ∅)))
      = fst (Store.save Builtins.JSON_stringify Samples.snapshot1 ∅)
   /\ Store.load Builtins.JSON_parse (∅ : gmap string string)
      = resJson (BJson Server.emptySnapshot))
  /\ Store.load Builtins.JSON_parse
       (fst (Store.save Builtins.JSON_stringify Server.emptySnapshot
               (fst (Store.save Builtins.JSON_stringify Samples.snapshot1 ∅))))
     = resJson (BJson Server.emptySnapshot).
Proof.
  split.
  - apply (save_load_roundtrip Builtins.JSON_stringify Builtins.JSON_parse
             Samples.snapshot1 [Samples.project1] [Samples.chat1]
             (∅ : gmap string string)).
    + reflexivity.
    + reflexivity.
    + vm_compute. reflexivity.
  - refine (proj1 (proj2 (save_load_roundtrip Builtins.JSON_stringify
                            Builtins.JSON_parse Server.emptySnapshot [] []
                            _ _ _ _))).
    + reflexivity.
    + reflexivity.
    + vm_compute. reflexivity.
Defined.

(** C1 on a concrete run.  A logged-in client with an empty store
    creates the project "Alpha".  The component holds the project and
    the effect writes it to the local storage of the browser, but the
    table of the backend stays empty: a load still returns the empty
    snapshot, and a reload of the page starts from a fresh default
    without the project. *)
Theorem created_project_never_reaches_the_store :
  let w0 := {| app := Samples.chatState; localStorage := ∅; db := ∅ |} in
  exists st1,
    handleCreateProject (VStr "Alpha") "p1" Samples.newYear2025 Samples.chatState
      = Ret st1
    /\ projects st1 = VArr [Samples.project1]
    /\ let w1 := commit Builtins.JSON_stringify st1 w0 in
       db w1 = ∅
       /\ localStorage w1 !! "byteSizeProjects"
          = Some (Builtins.JSON_stringify (VArr [Samples.project1]))
       /\ Store.load Builtins.JSON_parse (db w1)
          = resJson (BJson Server.emptySnapshot)
       /\ reload Builtins.JSON_parse w1 = FreshDefault.
Proof.
  cbv zeta. eexists. split; [reflexivity|]. split; [reflexivity|].
  repeat split.
Qed.

End StoreFacts.

(** ** The theorems on the sample inputs *)

Module Runs.
Import Design.



(** An image turn answered with text only. *)
Lemma image_without_url_fails_witness :
  let res :=
    snd (Server.postImage VUndefined (fun _ => Fulfilled Samples.textOnlyMessage)
           Samples.kiteRequest) in
  status res = 500
  /\ (exists error details, body res = BError error details)
  /\ (Js.nullish Samples.textOnlyMessage = false ->
        body res = BError "OpenRouter returned no image for this prompt." None).
Proof.
  apply (UpstreamFacts.image_without_url_fails VUndefined
           (fun _ => Fulfilled Samples.textOnlyMessage) Samples.kiteRequest
           (Server.imageCall (VStr "acme/paint") (VStr "A red kite"))
           Samples.textOnlyMessage).
  - reflexivity.
  - reflexivity.
  - split; reflexivity.
Defined.

(** A text turn answered without choices. *)
Lemma missing_content_fallback_witness :
  snd (Server.postAi Builtins.ToString Builtins.Date_parse Samples.utc
         Builtins.toLocaleString (fun _ => Fulfilled Samples.noChoices)
         Samples.taglineRequest 0)
  = resJson (BReply (VStr "No response received from OpenRouter.")).
Proof.
  eapply (UpstreamFacts.missing_content_fallback Builtins.ToString
            Builtins.Date_parse Samples.utc Builtins.toLocaleString
            (fun _ => Fulfilled Samples.noChoices) Samples.taglineRequest 0 _
            Samples.noChoices).
  - vm_compute. reflexivity.
  - reflexivity.
  - reflexivity.
  - reflexivity.
Defined.

(** C10 as stated fails: a response whose body is [null] holds no
    [choices[0].message.content], and the turn ends in status 500 with
    the error "AI request failed.", not in a reply. *)
Lemma null_completion_is_an_error :
  absent (Js.readPath contentPath VNull)
  /\ List.length
       (fst (Server.postAi Builtins.ToString Builtins.Date_parse Samples.utc
               Builtins.toLocaleString (fun _ => Fulfilled VNull)
               Samples.taglineRequest 0)) = 1%nat
  /\ snd (Server.postAi Builtins.ToString Builtins.Date_parse Samples.utc
            Builtins.toLocaleString (fun _ => Fulfilled VNull)
            Samples.taglineRequest 0)
     = resStatus 500 (BError "AI request failed." (Some (DMessage TypeError))).
Proof. repeat split; vm_compute; reflexivity. Qed.

Example image_turn_succeeds :
  snd (Server.postImage VUndefined (fun _ => Fulfilled Samples.withImage)
         Samples.kiteRequest)
  = resJson (BImage (VStr "Done.") (VStr "data:image/png;base64,AAAA")).
Proof. vm_compute. reflexivity. Qed.

Example christmas_after_christmas :
  christmasText (Builtins.fixedZone 7200000) "how many days until christmas"
                1766707200000
  = "There are 364 days until Christmas 2026. (Based on current date 2025-12-26)".
Proof. vm_compute. reflexivity. Qed.

Example ties_keep_their_order :
  let a := {| Catalog.id := VStr "a"; Catalog.name := VUndefined;
              Catalog.description := VUndefined;
              Catalog.pricing_prompt := Fin (1 # 2);
              Catalog.pricing_completion := Fin 1; Catalog.isFree := false;
              Catalog.outputModalities := VArr []; Catalog.inputModalities := VArr [];
              Catalog.isImageCapable := false; Catalog.isVideoCapable := false |} in
  let b := {| Catalog.id := VStr "b"; Catalog.name := VUndefined;
              Catalog.description := VUndefined;
              Catalog.pricing_prompt := Fin (2 # 4);
              Catalog.pricing_completion := Fin 3; Catalog.isFree := false;
              Catalog.outputModalities := VArr []; Catalog.inputModalities := VArr [];
              Catalog.isImageCapable := false; Catalog.isVideoCapable := false |} in
  Catalog.rank [a; b] = [a; b] /\ Catalog.rank [b; a] = [b; a].
Proof. split; reflexivity. Qed.

End Runs.

(** ** The session gate and the login *)

Module BackendFacts.
Import Backend.

(** A string that begins with [p] is [p] followed by what [slice]
    leaves. *)
Lemma prefix_slice (p s : string) :
  String.prefix p s = true ->
  s = p +:+ String.substring (String.length p)
                             (String.length s - String.length p) s.
Proof.
  revert s. induction p as [|a p IH]; intros s H.
  - simpl. rewrite Nat.sub_0_r. now rewrite TurnFacts.substring_all.
  - destruct s as [|b s]; [discriminate|]. simpl in H.
    destruct (ascii_dec a b) as [->|N]; [|discriminate].
    rewrite JsonFacts.append_cons. simpl. f_equal. now apply IH.
Qed.

Section Backend.
Variable ToString : jsval -> Exc string.
Variable StringToNumber : string -> jsnum.
Variable Date_parse : string -> option Z.
Variable LocalTZA : Z -> bool -> Z.
Variable toLocaleString : Z -> string.
Variable JSON_stringify : jsval -> string.
Variable JSON_parse : string -> option jsval.
Variable DEFAULT_IMAGE_MODEL : jsval.
Variable upstream : UpstreamCall -> AxiosOutcome.
Variable ADMIN_PASSWORD : option string.
Variable jwt_sign : Z -> Exc string.
Variable jwt_verify : string -> bool.

Abbreviation handle :=
  (Backend.handle ToString StringToNumber Date_parse LocalTZA toLocaleString
     JSON_stringify JSON_parse DEFAULT_IMAGE_MODEL upstream ADMIN_PASSWORD
     jwt_sign jwt_verify).
Abbreviation postLogin := (Backend.postLogin ADMIN_PASSWORD jwt_sign).

(** A header that carries no token that the session gate accepts is
    turned away. *)
Lemma requireAuth_rejects (authorization : string) :
  (forall tok, authorization = "Bearer " +:+ tok -> jwt_verify tok = false) ->
  exists error,
    Turn.requireAuth jwt_verify authorization = Some (resStatus 401 (BError error None)).
Proof.
  intros H. unfold Turn.requireAuth.
  destruct (String.prefix "Bearer " authorization) eqn:E.
  - apply prefix_slice in E. change (String.length "Bearer ") with 7%nat in E.
    destruct (String.eqb _ "") eqn:Et; [eauto|].
    rewrite (H _ E). eauto.
  - simpl. eauto.
Qed.

(** X1.  Every route but the login is closed to a request without a
    session: when the [Authorization] header is not ["Bearer "] followed
    by a token that [jwt.verify] accepts, the answer is status 401 with
    an error body, no upstream call is made and the table is left as it
    was, whatever the route and the body of the request. *)
Theorem routes_closed_without_session
    (route : Route) (authorization : string) (reqBody : jsval)
    (wallClock : Z) (db : Server.Table) :
  route <> PostLogin ->
  (forall tok, authorization = "Bearer " +:+ tok -> jwt_verify tok = false) ->
  calls (handle route authorization reqBody wallClock db) = []
  /\ table (handle route authorization reqBody wallClock db) = db
  /\ status (response (handle route authorization reqBody wallClock db)) = 401
  /\ exists error,
       body (response (handle route authorization reqBody wallClock db))
       = BError error None.
Proof.
  intros Hr H. destruct (requireAuth_rejects authorization H) as [error E].
  unfold Backend.handle. rewrite E.
  destruct route; try contradiction; cbn; eauto.
Qed.

(** X2.  The login issues a token exactly when the admin password is
    configured and not empty, the [password] of the body is that very
    string, and the signing succeeds; the response then carries the
    signed token and nothing else.  No body logs in when
    [ADMIN_PASSWORD] is not set. *)
Theorem login_only_with_the_password (reqBody : jsval) (wallClock : Z) :
  (status (postLogin reqBody wallClock) = 200 <->
     exists pw tok,
       ADMIN_PASSWORD = Some pw /\ pw <> ""
       /\ Js.get "password" reqBody = Ret (VStr pw)
       /\ jwt_sign wallClock = Ret tok
       /\ postLogin reqBody wallClock
          = resJson (BJson (VObj [("token", VStr tok)])))
  /\ (ADMIN_PASSWORD = None ->
        status (postLogin reqBody wallClock) = 400
        \/ status (postLogin reqBody wallClock) = 401
        \/ status (postLogin reqBody wallClock) = 500).
Proof.
  unfold Backend.postLogin. split.
  - split.
    + destruct (Js.get "password" reqBody) as [password|e]; cbn; [|discriminate].
      destruct (Js.truthy password) eqn:T; cbn; [|discriminate].
      destruct (Js.strictEq password (env ADMIN_PASSWORD)) eqn:E; cbn; [|discriminate].
      destruct (jwt_sign wallClock) as [tok|e]; cbn; [|discriminate].
      intros _. destruct ADMIN_PASSWORD as [pw|]; cbn in E.
      * destruct password; try discriminate.
        apply String.eqb_eq in E. subst. exists pw, tok.
        repeat split; auto. intros ->. discriminate.
      * destruct password; discriminate.
    + intros (pw & tok & -> & Hne & -> & -> & _). cbn.
      rewrite String.eqb_refl. cbn.
      destruct pw; [contradiction|reflexivity].
  - intros ->.
    destruct (Js.get "password" reqBody) as [password|e]; cbn; [|auto].
    destruct (Js.truthy password) eqn:T; cbn; [|auto].
    destruct password; cbn; auto; discriminate.
Qed.

End Backend.

Lemma routes_closed_without_session_witness :
  calls (Backend.handle Builtins.ToString Builtins.StringToNumber
           Builtins.Date_parse Samples.utc Builtins.toLocaleString
           Builtins.JSON_stringify Builtins.JSON_parse VUndefined
           Samples.catalogueUpstream (Some "secret") (fun _ => Ret "session-token")
           Samples.gate Backend.PostChatState "Bearer stale"
           Samples.snapshot1 0 ∅) = []
  /\ table (Backend.handle Builtins.ToString Builtins.StringToNumber
           Builtins.Date_parse Samples.utc Builtins.toLocaleString
           Builtins.JSON_stringify Builtins.JSON_parse VUndefined
           Samples.catalogueUpstream (Some "secret") (fun _ => Ret "session-token")
           Samples.gate Backend.PostChatState "Bearer stale"
           Samples.snapshot1 0 ∅) = ∅
  /\ status (response (Backend.handle Builtins.ToString Builtins.StringToNumber
           Builtins.Date_parse Samples.utc Builtins.toLocaleString
           Builtins.JSON_stringify Builtins.JSON_parse VUndefined
           Samples.catalogueUpstream (Some "secret") (fun _ => Ret "session-token")
           Samples.gate Backend.PostChatState "Bearer stale"
           Samples.snapshot1 0 ∅)) = 401
  /\ exists error,
       body (response (Backend.handle Builtins.ToString Builtins.StringToNumber
           Builtins.Date_parse Samples.utc Builtins.toLocaleString
           Builtins.JSON_stringify Builtins.JSON_parse VUndefined
           Samples.catalogueUpstream (Some "secret") (fun _ => Ret "session-token")
           Samples.gate Backend.PostChatState "Bearer stale"
           Samples.snapshot1 0 ∅))
       = BError error None.
Proof.
  apply routes_closed_without_session.
  - discriminate.
  - intros tok E. vm_compute in E. injection E as <-. reflexivity.
Defined.

End BackendFacts.

(** ** The two listings of the catalogue *)

Module ListingFacts.
Import Catalog Design Terms.

Lemma StronglySorted_filter {A : Type} (R : A -> A -> Prop) (p : A -> bool)
    (l : list A) :
  StronglySorted R l -> StronglySorted R (List.filter p l).
Proof.
  induction 1 as [|x r HS IH Hx]; simpl; [constructor|].
  destruct (p x); [|exact IH].
  constructor; [exact IH|].
  rewrite Forall_forall in Hx |- *. intros y Hy.
  apply filter_In in Hy as [Hy _]. now apply Hx.
Qed.

Lemma filter_comm {A : Type} (p q : A -> bool) (l : list A) :
  List.filter p (List.filter q l) = List.filter q (List.filter p l).
Proof.
  induction l as [|x r IH]; simpl; [reflexivity|].
  destruct (p x) eqn:P, (q x) eqn:Q; simpl; rewrite ?P, ?Q, IH; reflexivity.
Qed.

Lemma Forall_filter {A : Type} (P : A -> Prop) (p : A -> bool) (l : list A) :
  Forall P l -> Forall P (List.filter p l).
Proof.
  rewrite !Forall_forall. intros H x Hx. apply filter_In in Hx as [Hx _]. auto.
Qed.

(** Ranking a part of a catalogue gives that part of the ranked
    catalogue. *)
Lemma rank_filter (p : ModelDescriptor -> bool) (l : list ModelDescriptor) :
  Forall priced l -> rank (List.filter p l) = List.filter p (rank l).
Proof.
  intros HP. symmetry.
  apply (StableSort.sorted_stable_unique compareModels priced
           Ranking.later_asym).
  - now apply Forall_filter, Ranking.rank_priced.
  - now apply Ranking.rank_priced, Forall_filter.
  - apply StronglySorted_filter.
    apply (StableSort.sort_sorted compareModels priced);
      [exact Ranking.later_asym | exact Ranking.notAfter_trans | exact HP].
  - apply (StableSort.sort_sorted compareModels priced);
      [exact Ranking.later_asym | exact Ranking.notAfter_trans
      | now apply Forall_filter].
  - intros a Pa. unfold rank.
    rewrite filter_comm.
    rewrite (StableSort.sort_stable compareModels priced
               Ranking.notAfter_trans a l Pa HP).
    rewrite (StableSort.sort_stable compareModels priced
               Ranking.notAfter_trans a (List.filter p l) Pa
               (Forall_filter _ _ _ HP)).
    apply filter_comm.
Qed.

Section Listing.
Variable ToString : jsval -> Exc string.
Variable StringToNumber : string -> jsnum.
Variable upstream : UpstreamCall -> AxiosOutcome.

Abbreviation normalize := (Catalog.normalize ToString StringToNumber).
Abbreviation mapModels := (Catalog.mapModels ToString StringToNumber).
Abbreviation getModels := (Server.getModels ToString StringToNumber upstream).
Abbreviation getVideoModels :=
  (Server.getVideoModels ToString StringToNumber upstream).

(** X3.  The two listings agree.  For a catalogue whose prompt prices
    are numbers, the listing of [GET /api/video-models] is the part of
    the listing of [GET /api/models] that the filter of the video mode
    of the client keeps, in the same order. *)
Theorem video_listing_within_full_listing
    (data : jsval) (all : list ModelDescriptor) :
  upstream Server.listCall = Fulfilled data ->
  mapModels data = Ret all ->
  Forall priced all ->
  exists full,
    snd getModels = resJson (BModels full)
    /\ snd getVideoModels
       = resJson (BModels (Client.filterByCapability "Video Prompts" full)).
Proof.
  intros Hup Hmap HP. exists (rank all). split.
  - unfold Server.getModels. cbn [snd]. rewrite Hup. cbn. now rewrite Hmap.
  - unfold Server.getVideoModels. cbn [snd]. rewrite Hup. cbn. rewrite Hmap.
    cbn. now rewrite (rank_filter isVideoCapable all HP).
Qed.

Lemma mapModels_returns (data : jsval) :
  (exists ds, mapModels data = Ret ds) <-> listable ToString data.
Proof.
  unfold Catalog.mapModels, Js.get, listable.
  destruct (Js.nullish data); cbn.
  - split; [intros [ds E]; discriminate | intros [E _]; discriminate].
  - unfold Js.or. destruct (Js.truthy (Js.own "data" data)) eqn:T.
    + destruct (Js.own "data" data) as [| | | | |raws|] eqn:Ed;
        try (split; [intros [ds E]; discriminate
                    | intros [_ [E|(raws & E & _)]]; discriminate]).
      rewrite (CatalogFacts.mapE_returns ToString StringToNumber). split.
      * intros H. split; [reflexivity|]. right. eauto.
      * intros [_ [E|(raws' & E & H)]]; [discriminate|]. now injection E as ->.
    + split; [intros _; auto | intros _; exists []; reflexivity].
Qed.

(** X4.  The listing endpoints make one upstream call and answer 200
    exactly when the call is fulfilled with a body that the normalizer
    can map; every other outcome (a rejected call, a body that is
    [null], a [data] that is not an array, a record that is [null]) is
    answered with status 500 and the fixed error of the route. *)
Theorem listing_succeeds_or_500 :
  fst getModels = [Server.listCall]
  /\ fst getVideoModels = [Server.listCall]
  /\ (status (snd getModels) = 200
      <-> exists data, upstream Server.listCall = Fulfilled data
                       /\ listable ToString data)
  /\ (status (snd getVideoModels) = 200 <-> status (snd getModels) = 200)
  /\ (status (snd getModels) = 200
      \/ snd getModels
         = resStatus 500 (BError "Failed to load models from OpenRouter." None))
  /\ (status (snd getVideoModels) = 200
      \/ snd getVideoModels
         = resStatus 500 (BError "Failed to load video models." None)).
Proof.
  split; [reflexivity|]. split; [reflexivity|].
  unfold Server.getModels, Server.getVideoModels. cbn [snd].
  destruct (upstream Server.listCall) as [data|r]; cbn.
  - pose proof (mapModels_returns data) as H.
    destruct (mapModels data) as [ds|e]; cbn.
    + repeat split; auto. intros _. exists data. split; [reflexivity|].
      apply H. eauto.
    + repeat split; auto; try discriminate.
      intros (data' & [= <-] & L). apply H in L as [ds E]. discriminate.
  - repeat split; auto; try discriminate.
    intros (data & E & _). discriminate.
Qed.

End Listing.

Lemma video_listing_within_full_listing_witness :
  exists full,
    snd (Server.getModels Builtins.ToString Builtins.StringToNumber
           Samples.catalogueUpstream) = resJson (BModels full)
    /\ snd (Server.getVideoModels Builtins.ToString Builtins.StringToNumber
              Samples.catalogueUpstream)
       = resJson (BModels (Client.filterByCapability "Video Prompts" full)).
Proof.
  apply (video_listing_within_full_listing Builtins.ToString
           Builtins.StringToNumber Samples.catalogueUpstream
           Samples.catalogue Samples.mapped).
  - reflexivity.
  - vm_compute. reflexivity.
  - repeat constructor; discriminate.
Defined.

End ListingFacts.

(** ** The table of the conversation store *)

Module TableFacts.

Section Table.
Variable JSON_stringify : jsval -> string.
Variable JSON_parse : string -> option jsval.

Abbreviation postChatState := (Server.postChatState JSON_stringify).
Abbreviation getChatState := (Server.getChatState JSON_parse).

(** What [POST /api/chat-state] does to the table, case by case. *)
Lemma postChatState_row (reqBody : jsval) (db : Server.Table) :
  (status (snd (postChatState reqBody db)) = 200
   <-> Js.nullish reqBody = false
       /\ Js.truthy (Js.own "projects" reqBody) = true
       /\ Js.truthy (Js.own "chats" reqBody) = true)
  /\ (status (snd (postChatState reqBody db)) = 200 ->
        fst (postChatState reqBody db)
        = <["default" :=
              JSON_stringify (VObj [("projects", Js.own "projects" reqBody);
                                    ("chats", Js.own "chats" reqBody)])]> db)
  /\ (status (snd (postChatState reqBody db)) = 200
      \/ fst (postChatState reqBody db) = db)
  /\ (forall row, row <> "default" ->
        fst (postChatState reqBody db) !! row = db !! row).
Proof.
  unfold Server.postChatState, Js.get.
  destruct (Js.nullish reqBody); cbn.
  - repeat split; auto; try discriminate. intros [E _]. discriminate.
  - destruct (Js.truthy (Js.own "projects" reqBody)),
             (Js.truthy (Js.own "chats" reqBody)); cbn;
      repeat split; auto; try discriminate; try (intros (_ & E & F); discriminate).
    intros row Hrow. now apply lookup_insert_ne.
Qed.

(** X5.  [POST /api/chat-state] answers 200 exactly when the body is
    not [null] and both its [projects] and its [chats] are values that
    count as true (an empty array does, an empty string, 0 or a missing
    field do not).  It then writes the text of the two fields to the row
    "default"; a request that is refused leaves the table as it was, and
    no request touches any other row. *)
Theorem save_writes_one_row_or_nothing (reqBody : jsval) (db : Server.Table) :
  (status (snd (postChatState reqBody db)) = 200
   <-> Js.nullish reqBody = false
       /\ Js.truthy (Js.own "projects" reqBody) = true
       /\ Js.truthy (Js.own "chats" reqBody) = true)
  /\ (status (snd (postChatState reqBody db)) = 200 ->
        fst (postChatState reqBody db)
        = <["default" :=
              JSON_stringify (VObj [("projects", Js.own "projects" reqBody);
                                    ("chats", Js.own "chats" reqBody)])]> db)
  /\ (status (snd (postChatState reqBody db)) = 200
      \/ fst (postChatState reqBody db) = db)
  /\ (forall row, row <> "default" ->
        fst (postChatState reqBody db) !! row = db !! row).
Proof. exact (postChatState_row reqBody db). Qed.

(** X6.  The store holds one snapshot: a save that succeeds replaces
    whatever an earlier request saved, so that the table after the two
    is the table after the second alone, and a load that follows
    returns what the second stored. *)
Theorem later_save_replaces_earlier (first second : jsval) (db : Server.Table) :
  status (snd (postChatState second db)) = 200 ->
  fst (postChatState second (fst (postChatState first db)))
  = fst (postChatState second db)
  /\ getChatState (fst (postChatState second (fst (postChatState first db))))
     = getChatState (fst (postChatState second db))
  /\ snd (postChatState second (fst (postChatState first db)))
     = snd (postChatState second db).
Proof.
  intros H2.
  assert (E : fst (postChatState second (fst (postChatState first db)))
              = fst (postChatState second db)).
  { destruct (postChatState_row second db) as (_ & W2 & _).
    destruct (postChatState_row second (fst (postChatState first db)))
      as (S2' & W2' & _).
    destruct (postChatState_row second db) as (S2 & _).
    rewrite (W2 H2), W2' by (apply S2', S2, H2).
    destruct (postChatState_row first db) as (_ & W1 & [S1|U1] & _).
    - rewrite (W1 S1). apply insert_insert_eq.
    - now rewrite U1. }
  split; [exact E|]. split; [now rewrite E|].
  unfold Server.postChatState.
  destruct (_ ← Js.get "projects" second; _) as [[p c]|e]; [|reflexivity].
  destruct (_ || _); reflexivity.
Qed.

End Table.

Lemma later_save_replaces_earlier_witness :
  fst (Server.postChatState Builtins.JSON_stringify Server.emptySnapshot
         (fst (Server.postChatState Builtins.JSON_stringify Samples.snapshot1 ∅)))
  = fst (Server.postChatState Builtins.JSON_stringify Server.emptySnapshot ∅)
  /\ Server.getChatState Builtins.JSON_parse
       (fst (Server.postChatState Builtins.JSON_stringify Server.emptySnapshot
               (fst (Server.postChatState Builtins.JSON_stringify
                       Samples.snapshot1 ∅))))
     = Server.getChatState Builtins.JSON_parse
         (fst (Server.postChatState Builtins.JSON_stringify
                 Server.emptySnapshot ∅))
  /\ snd (Server.postChatState Builtins.JSON_stringify Server.emptySnapshot
            (fst (Server.postChatState Builtins.JSON_stringify
                    Samples.snapshot1 ∅)))
     = snd (Server.postChatState Builtins.JSON_stringify Server.emptySnapshot ∅).
Proof.
  apply (later_save_replaces_earlier Builtins.JSON_stringify Builtins.JSON_parse
           Samples.snapshot1 Server.emptySnapshot (∅ : gmap string string)).
  reflexivity.
Defined.

End TableFacts.

(** ** What the turn handlers do with a request *)

Module PromptFacts.
Import Design.

Lemma trimStart_blank (s : string) : Str.inked s = false -> Str.trimStart s = "".
Proof.
  induction s as [|c r IH]; simpl; [reflexivity|].
  destruct (Str.isSpace c); simpl; [exact IH | discriminate].
Qed.

(** A string of white space trims to the empty string, and only such a
    string does. *)
Lemma trim_blank (s : string) :
  String.eqb (Str.trim s) "" = negb (Str.inked s).
Proof.
  destruct (Str.inked s) eqn:E; simpl.
  - rewrite <- ChristmasFacts.inked_trim in E.
    destruct (Str.trim s); [discriminate | reflexivity].
  - unfold Str.trim. now rewrite (trimStart_blank s E).
Qed.

Lemma readPath_nullish (path : list Js.Key) (v : jsval) :
  path <> [] -> Js.nullish v = true -> Js.readPath path v = VUndefined.
Proof.
  unfold Js.readPath. intros Hp Hv. destruct path as [|k path]; [contradiction|].
  simpl. replace (Js.step v k) with VUndefined by (destruct v, k; try discriminate; reflexivity).
  clear. induction path as [|k path IH]; simpl; [reflexivity|].
  now destruct k.
Qed.

Section Handlers.
Variable ToString : jsval -> Exc string.
Variable Date_parse : string -> option Z.
Variable LocalTZA : Z -> bool -> Z.
Variable toLocaleString : Z -> string.
Variable DEFAULT_IMAGE_MODEL : jsval.
Variable upstream : UpstreamCall -> AxiosOutcome.

Abbreviation postAi :=
  (Server.postAi ToString Date_parse LocalTZA toLocaleString upstream).
Abbreviation postImage := (Server.postImage DEFAULT_IMAGE_MODEL upstream).

(** X7.  A turn without text is refused before anything else happens.
    When the [prompt] of the body is missing, or is a value that [!]
    passes over, or is a string of white space only, [/api/ai] and
    [/api/image] answer status 400 with their "Missing prompt" error and
    make no upstream call. *)
Theorem blank_prompt_is_refused (reqBody : jsval) (wallClock : Z) :
  Js.nullish reqBody = false ->
  (Js.truthy (Js.own "prompt" reqBody) = false
   \/ exists s, Js.own "prompt" reqBody = VStr s /\ Str.inked s = false) ->
  postAi reqBody wallClock
    = ([], resStatus 400 (BError "Missing prompt." None))
  /\ postImage reqBody
     = ([], resStatus 400 (BError "Missing prompt for image generation." None)).
Proof.
  intros Hb H. unfold Server.postAi, Server.postImage, Js.get. rewrite Hb.
  destruct H as [H|(s & E & H)].
  - rewrite H. split; reflexivity.
  - rewrite E. cbn [Server.callTrim]. rewrite trim_blank, H.
    destruct (negb (Js.truthy (VStr s))); split; reflexivity.
Qed.

(** X8.  A [prompt] that counts as true but is not a string has no
    [trim]: the call throws, and both routes answer status 500 with
    their "request failed" error and the message of the TypeError,
    again without an upstream call. *)
Theorem prompt_without_trim_fails (reqBody : jsval) (wallClock : Z) :
  Js.truthy (Js.own "prompt" reqBody) = true ->
  (forall s, Js.own "prompt" reqBody <> VStr s) ->
  Js.nullish reqBody = false ->
  postAi reqBody wallClock
    = ([], resStatus 500
             (BError "AI request failed." (Some (DMessage TypeError))))
  /\ postImage reqBody
     = ([], resStatus 500
              (BError "Image request failed." (Some (DMessage TypeError)))).
Proof.
  intros Ht Hs Hb. unfold Server.postAi, Server.postImage, Js.get.
  rewrite Hb, Ht. cbn [negb].
  destruct (Js.own "prompt" reqBody) as [| | | |s| |]; try (split; reflexivity).
  now destruct (Hs s).
Qed.

(** What the text of a completion is, read from the body. *)
Lemma aiReply_content (data : jsval) :
  Js.truthy (Js.readPath contentPath data) = true ->
  Server.aiReply data = Ret (Js.readPath contentPath data).
Proof.
  intros H. destruct (Js.nullish data) eqn:Hd.
  - rewrite readPath_nullish in H by (auto; discriminate). discriminate.
  - unfold Server.aiReply, Js.get. rewrite Hd. cbn.
    unfold contentPath, Js.readPath in *. cbn in *.
    rewrite (UpstreamFacts.getq_own _ _ Hd) in H |- *.
    unfold Js.or. now rewrite H.
Qed.

(** X9.  An ordinary text turn: a prompt that is a string with some
    ink, that is not the question about Christmas, with an effective
    timestamp [t], and a brand and a mode from which the system prompt
    [system] is built for [t].  [/api/ai] makes exactly one upstream
    call: the model is [modelId], or "openai/gpt-4o-mini" when the body
    names none; the messages are the system prompt and the prompt of
    the user as it was sent, neither trimmed nor lower-cased.  When the
    completion holds text at [choices[0].message.content], the reply is
    that value, unchanged, with status 200. *)
Theorem text_turn_passes_through
    (reqBody : jsval) (prompt system : string) (wallClock t : Z)
    (data : jsval) :
  Js.get "prompt" reqBody = Ret (VStr prompt) ->
  Str.inked prompt = true ->
  asksDaysToChristmas prompt = false ->
  Server.effectiveTimestamp ToString Date_parse
    (Js.own "clientDate" reqBody) wallClock = Ret (Some t) ->
  Server.systemPrompt ToString (Js.own "brand" reqBody)
    (Js.own "mode" reqBody) (toLocaleString t) (DateTime.isoString t)
    = Ret system ->
  let call :=
    Server.completionCall
      (Js.or (Js.own "modelId" reqBody) (VStr "openai/gpt-4o-mini"))
      system prompt in
  upstream call = Fulfilled data ->
  Js.truthy (Js.readPath contentPath data) = true ->
  postAi reqBody wallClock
  = ([call], resJson (BReply (Js.readPath contentPath data))).
Proof.
  intros Hp Hink Hq Ht Hsys call Hup Hc. unfold Server.postAi.
  rewrite Hp.
  assert (Hne : Js.truthy (VStr prompt) = true)
    by (destruct prompt; [discriminate Hink | reflexivity]).
  rewrite Hne. cbn [negb Server.callTrim]. rewrite trim_blank, Hink.
  cbn [negb]. cbv zeta. rewrite Ht.
  unfold asksDaysToChristmas in Hq. rewrite Hq, Hsys.
  fold call. rewrite Hup. cbn. now rewrite (aiReply_content data Hc).
Qed.

(** X10.  A failure of the upstream call is always answered with
    status 500: the status of the upstream response is not passed on.
    The error is the fixed one of the route, and the details are the
    body of the upstream response when there was a response, and the
    message of the error otherwise. *)
Theorem upstream_failure_is_500
    (reqBody : jsval) (wallClock : Z) (call : UpstreamCall)
    (response : option (Z * jsval)) :
  upstream call = Rejected response ->
  let details :=
    match response with
    | Some (_, data) => DData data
    | None => DMessage (AxiosError None)
    end in
  (fst (postAi reqBody wallClock) = [call] ->
     snd (postAi reqBody wallClock)
     = resStatus 500 (BError "AI request failed." (Some details)))
  /\ (fst (postImage reqBody) = [call] ->
        snd (postImage reqBody)
        = resStatus 500 (BError "Image request failed." (Some details))).
Proof.
  intros Hup details. split; intros Hcall.
  - rewrite (UpstreamFacts.postAi_called ToString Date_parse LocalTZA
               toLocaleString upstream reqBody wallClock call Hcall), Hup.
    subst details. now destruct response as [[s d]|].
  - rewrite (UpstreamFacts.postImage_called DEFAULT_IMAGE_MODEL upstream
               reqBody call Hcall), Hup.
    subst details. now destruct response as [[s d]|].
Qed.

(** The URL of an image, read from the body. *)
Lemma imageMessage_urls (data : jsval) :
  Js.truthy (Js.readPath shapeSnake data) = true
  \/ Js.truthy (Js.readPath shapeCamel data) = true ->
  exists message,
    Server.imageMessage data = Ret message
    /\ Server.urlSnake message = Js.readPath shapeSnake data
    /\ Server.urlCamel message = Js.readPath shapeCamel data
    /\ Js.own "content" message = Js.readPath contentPath data.
Proof.
  intros H.
  destruct (Js.nullish data) eqn:Hd.
  - rewrite !readPath_nullish in H by (auto; discriminate).
    destruct H; discriminate.
  - unfold Server.imageMessage, Js.get. rewrite Hd. cbn.
    eexists. split; [reflexivity|].
    unfold shapeSnake, shapeCamel, contentPath, Js.readPath in *. cbn in *.
    rewrite (UpstreamFacts.getq_own "choices" _ Hd) in *.
    set (m0 := Js.getq "message" (Js.idx0q (Js.own "choices" data))) in *.
    unfold Server.urlSnake, Server.urlCamel, Js.or.
    destruct (Js.truthy m0) eqn:T.
    + rewrite !(UpstreamFacts.getq_own _ m0 (UpstreamFacts.truthy_not_nullish _ T)).
      repeat split.
    + exfalso. destruct m0; try discriminate T; cbn in H;
        destruct H; discriminate.
Qed.

(** X11.  An image turn that succeeds.  When [/api/image] has called
    upstream and the body of the response carries a URL that counts as
    true under one of the two shapes, the answer is status 200 with that
    URL: the one at [images[0].image_url.url] when there is one, the one
    at [images[0].imageUrl.url] otherwise.  The reply is the text of the
    message, or "Here is your generated image." when the message has
    none. *)
Theorem image_turn_returns_the_url
    (reqBody : jsval) (call : UpstreamCall) (data : jsval) :
  fst (postImage reqBody) = [call] ->
  upstream call = Fulfilled data ->
  Js.truthy (Js.readPath shapeSnake data) = true
  \/ Js.truthy (Js.readPath shapeCamel data) = true ->
  snd (postImage reqBody)
  = resJson
      (BImage (Js.or (Js.readPath contentPath data)
                     (VStr "Here is your generated image."))
              (if Js.truthy (Js.readPath shapeSnake data)
               then Js.readPath shapeSnake data
               else Js.readPath shapeCamel data)).
Proof.
  intros Hcall Hup H.
  rewrite (UpstreamFacts.postImage_called DEFAULT_IMAGE_MODEL upstream
             reqBody call Hcall), Hup.
  destruct (imageMessage_urls data H) as (message & Em & Es & Ec & Et).
  set (snake := Js.readPath shapeSnake data) in *.
  set (camel := Js.readPath shapeCamel data) in *.
  set (content := Js.readPath contentPath data) in *.
  clearbody snake camel content.
  cbn. rewrite Em. unfold Server.imageUrlOf, Js.or. rewrite Es, Ec, Et.
  destruct (Js.truthy snake) eqn:Ts.
  - rewrite !Ts. reflexivity.
  - destruct H as [H|H]; [discriminate|]. rewrite !H. reflexivity.
Qed.

(** X15.  The date of the client decides.  When the body carries a
    [clientDate] that counts as true, the clock of the server plays no
    part in the answer; and when that date is a string that
    [Date.parse] cannot read, the turn is not answered for the time of
    the server instead: it fails with status 500 and the message of a
    RangeError, without an upstream call, even for the question about
    Christmas. *)
Theorem client_date_decides
    (reqBody : jsval) (prompt date : string) :
  Js.get "prompt" reqBody = Ret (VStr prompt) ->
  Str.inked prompt = true ->
  Js.own "clientDate" reqBody = VStr date ->
  date <> "" ->
  (forall w1 w2, postAi reqBody w1 = postAi reqBody w2)
  /\ (Date_parse date = None ->
      forall wallClock,
        postAi reqBody wallClock
        = ([], resStatus 500
                 (BError "AI request failed." (Some (DMessage RangeError))))).
Proof.
  intros Hp Hink Hd Hne.
  assert (Ht : forall w,
            Server.effectiveTimestamp ToString Date_parse
              (Js.own "clientDate" reqBody) w = Ret (Date_parse date)).
  { intros w. unfold Server.effectiveTimestamp. rewrite Hd. cbn.
    apply String.eqb_neq in Hne. now rewrite Hne. }
  assert (Hne' : Js.truthy (VStr prompt) = true)
    by (destruct prompt; [discriminate Hink | reflexivity]).
  split.
  - intros w1 w2. unfold Server.postAi. now rewrite !Ht.
  - intros Hno wallClock. unfold Server.postAi.
    rewrite Hp, Hne'. cbn [negb Server.callTrim]. rewrite trim_blank, Hink.
    cbn [negb]. cbv zeta. now rewrite Ht, Hno.
Qed.

(** A response of the [catch] is no status 200. *)
Ltac failed Hfail :=
  let H := fresh in intros H; cbn [fst snd] in H; now apply Hfail in H.

(** X16.  No answer is made up.  A status 200 of [/api/ai] that cost no
    upstream call is the reply to the question about Christmas; every
    other status 200 of [/api/ai], and every status 200 of [/api/image],
    follows one upstream call that was fulfilled with a body other than
    [null], and for an image it carries a URL that counts as true. *)
Theorem success_needs_upstream (reqBody : jsval) (wallClock : Z) :
  (status (snd (postAi reqBody wallClock)) = 200 ->
   exists prompt,
     Js.own "prompt" reqBody = VStr prompt
     /\ Str.inked prompt = true
     /\ ((fst (postAi reqBody wallClock) = []
          /\ asksDaysToChristmas prompt = true)
         \/ exists call data,
              fst (postAi reqBody wallClock) = [call]
              /\ asksDaysToChristmas prompt = false
              /\ upstream call = Fulfilled data
              /\ Js.nullish data = false))
  /\ (status (snd (postImage reqBody)) = 200 ->
      exists call data reply imageUrl,
        fst (postImage reqBody) = [call]
        /\ upstream call = Fulfilled data
        /\ Js.nullish data = false
        /\ body (snd (postImage reqBody)) = BImage reply imageUrl
        /\ Js.truthy imageUrl = true).
Proof.
  assert (Hfail : forall error e,
            status (Server.requestFailed error e) = 200 -> False).
  { intros error [| | |[[s d]|]]; discriminate. }
  split.
  - unfold Server.postAi, Js.get.
    destruct (Js.nullish reqBody); [failed Hfail|].
    destruct (Js.truthy (Js.own "prompt" reqBody)) eqn:T; cbn [negb];
      [|discriminate].
    destruct (Js.own "prompt" reqBody) as [| | | |prompt| |];
      try discriminate T; try (cbn [Server.callTrim]; failed Hfail).
    cbn [Server.callTrim]. rewrite trim_blank.
    destruct (Str.inked prompt) eqn:Hink; cbn [negb]; [|discriminate].
    cbv zeta.
    destruct (Server.effectiveTimestamp _ _ _ _) as [[t|]|e];
      try (failed Hfail).
    unfold asksDaysToChristmas.
    destruct (_ && _) eqn:Hq.
    + intros _. exists prompt. split; [reflexivity|]. split; [exact Hink|].
      left. split; [reflexivity | exact Hq].
    + destruct (Server.systemPrompt _ _ _ _ _) as [system|e];
        [|failed Hfail].
      cbn [fst snd].
      destruct (upstream _) as [data|r] eqn:Hup;
        cbn [awaitAxios mbind Exc_bind];
        [|failed Hfail].
      destruct (Js.nullish data) eqn:Hd.
      * replace (Server.aiReply data) with (@Throw jsval TypeError)
          by (unfold Server.aiReply, Js.get; now rewrite Hd).
        failed Hfail.
      * intros _. exists prompt. split; [reflexivity|]. split; [exact Hink|].
        right. eexists _, data.
        split; [reflexivity|]. split; [exact Hq|]. split; [exact Hup | exact Hd].
  - unfold Server.postImage, Js.get.
    destruct (Js.nullish reqBody); [failed Hfail|].
    destruct (Js.truthy (Js.own "prompt" reqBody)) eqn:T; cbn [negb];
      [|discriminate].
    destruct (Server.callTrim _) as [trimmed|e];
      [|failed Hfail].
    destruct (String.eqb trimmed ""); [discriminate|].
    cbn [fst snd].
    destruct (upstream _) as [data|r] eqn:Hup;
      cbn [awaitAxios mbind Exc_bind];
      [|failed Hfail].
    destruct (Js.nullish data) eqn:Hd.
    + replace (Server.imageMessage data) with (@Throw jsval TypeError)
        by (unfold Server.imageMessage, Js.get; now rewrite Hd).
      failed Hfail.
    + destruct (Server.imageMessage data) as [message|e];
        [|failed Hfail].
      destruct (Js.truthy (Server.imageUrlOf message)) eqn:Hu; cbn [negb];
        [|discriminate].
      intros _. eexists _, data, _, _.
      split; [reflexivity|]. split; [exact Hup|]. split; [exact Hd|].
      split; [reflexivity | exact Hu].
Qed.

End Handlers.

Lemma blank_prompt_is_refused_witness :
  Server.postAi Builtins.ToString Builtins.Date_parse Samples.utc
    Builtins.toLocaleString (fun _ => Fulfilled Samples.noChoices)
    (VObj [("prompt", VStr "   "); ("modelId", VStr "acme/talk")]) 0
    = ([], resStatus 400 (BError "Missing prompt." None))
  /\ Server.postImage VUndefined (fun _ => Fulfilled Samples.noChoices)
       (VObj [("prompt", VStr "   "); ("modelId", VStr "acme/talk")])
     = ([], resStatus 400 (BError "Missing prompt for image generation." None)).
Proof.
  apply (blank_prompt_is_refused Builtins.ToString Builtins.Date_parse
           Samples.utc Builtins.toLocaleString VUndefined).
  - reflexivity.
  - right. exists "   ". split; reflexivity.
Defined.

Lemma prompt_without_trim_fails_witness :
  Server.postAi Builtins.ToString Builtins.Date_parse Samples.utc
    Builtins.toLocaleString (fun _ => Fulfilled Samples.noChoices)
    (VObj [("prompt", VArr [VStr "Write a tagline"])]) 0
    = ([], resStatus 500
             (BError "AI request failed." (Some (DMessage TypeError))))
  /\ Server.postImage VUndefined (fun _ => Fulfilled Samples.noChoices)
       (VObj [("prompt", VArr [VStr "Write a tagline"])])
     = ([], resStatus 500
              (BError "Image request failed." (Some (DMessage TypeError)))).
Proof.
  apply (prompt_without_trim_fails Builtins.ToString Builtins.Date_parse
           Samples.utc Builtins.toLocaleString VUndefined).
  - reflexivity.
  - intros s. discriminate.
  - reflexivity.
Defined.

Lemma text_turn_passes_through_witness :
  Server.postAi Builtins.ToString Builtins.Date_parse Samples.utc
    Builtins.toLocaleString (fun _ => Fulfilled Samples.textOnlyMessage)
    Samples.taglineRequest 0
  = ([Server.completionCall (VStr "acme/talk") Cases.taglineSystem
        "Write a tagline"],
     resJson (BReply (VStr "I cannot draw."))).
Proof.
  apply (text_turn_passes_through Builtins.ToString Builtins.Date_parse
           Samples.utc Builtins.toLocaleString
           (fun _ => Fulfilled Samples.textOnlyMessage)
           Samples.taglineRequest "Write a tagline" Cases.taglineSystem
           0 Samples.newYear2025 Samples.textOnlyMessage).
  - reflexivity.
  - reflexivity.
  - vm_compute. reflexivity.
  - vm_compute. reflexivity.
  - vm_compute. reflexivity.
  - reflexivity.
  - reflexivity.
Defined.

Lemma upstream_failure_is_500_witness :
  snd (Server.postAi Builtins.ToString Builtins.Date_parse Samples.utc
         Builtins.toLocaleString
         (fun _ => Rejected (Some (429, VObj [("error", VStr "rate limited")])))
         Samples.taglineRequest 0)
  = resStatus 500
      (BError "AI request failed."
         (Some (DData (VObj [("error", VStr "rate limited")]))))
  /\ snd (Server.postImage VUndefined (fun _ => Rejected None)
            Samples.kiteRequest)
     = resStatus 500
         (BError "Image request failed." (Some (DMessage (AxiosError None)))).
Proof.
  split.
  - apply (upstream_failure_is_500 Builtins.ToString Builtins.Date_parse
             Samples.utc Builtins.toLocaleString VUndefined
             (fun _ => Rejected (Some (429, VObj [("error", VStr "rate limited")])))
             Samples.taglineRequest 0
             (Server.completionCall (VStr "acme/talk") Cases.taglineSystem
                "Write a tagline")
             (Some (429, VObj [("error", VStr "rate limited")])));
      [reflexivity | vm_compute; reflexivity].
  - apply (upstream_failure_is_500 Builtins.ToString Builtins.Date_parse
             Samples.utc Builtins.toLocaleString VUndefined
             (fun _ => Rejected None) Samples.kiteRequest 0
             (Server.imageCall (VStr "acme/paint") (VStr "A red kite")) None);
      reflexivity.
Defined.

Lemma image_turn_returns_the_url_witness :
  snd (Server.postImage VUndefined (fun _ => Fulfilled Samples.withImage)
         Samples.kiteRequest)
  = resJson (BImage (VStr "Done.") (VStr "data:image/png;base64,AAAA")).
Proof.
  apply (image_turn_returns_the_url VUndefined
           (fun _ => Fulfilled Samples.withImage) Samples.kiteRequest
           (Server.imageCall (VStr "acme/paint") (VStr "A red kite"))
           Samples.withImage).
  - reflexivity.
  - reflexivity.
  - left. reflexivity.
Defined.

Lemma client_date_decides_witness :
  (forall w1 w2,
     Server.postAi Builtins.ToString Builtins.Date_parse Samples.utc
       Builtins.toLocaleString (fun _ => Fulfilled Samples.textOnlyMessage)
       Cases.yesterdayRequest w1
     = Server.postAi Builtins.ToString Builtins.Date_parse Samples.utc
         Builtins.toLocaleString (fun _ => Fulfilled Samples.textOnlyMessage)
         Cases.yesterdayRequest w2)
  /\ (Builtins.Date_parse "yesterday" = None ->
      forall wallClock,
        Server.postAi Builtins.ToString Builtins.Date_parse Samples.utc
          Builtins.toLocaleString (fun _ => Fulfilled Samples.textOnlyMessage)
          Cases.yesterdayRequest wallClock
        = ([], resStatus 500
                 (BError "AI request failed." (Some (DMessage RangeError))))).
Proof.
  apply (client_date_decides Builtins.ToString Builtins.Date_parse Samples.utc
           Builtins.toLocaleString (fun _ => Fulfilled Samples.textOnlyMessage)
           Cases.yesterdayRequest Samples.question "yesterday").
  - reflexivity.
  - reflexivity.
  - reflexivity.
  - discriminate.
Defined.

(** X12.  The day count of the date reply is the least number of whole
    days that covers the time from [now] to [target]: it is never
    negative, it is 0 exactly when the target is not ahead, and
    otherwise the target lies more than [d - 1] days and at most [d]
    days ahead. *)
Theorem daysUntil_covers_the_gap (target now : Z) :
  0 <= Server.daysUntil target now
  /\ (Server.daysUntil target now = 0 <-> target <= now)
  /\ (now < target ->
        (Server.daysUntil target now - 1) * DateTime.msPerDay < target - now
        /\ target - now <= Server.daysUntil target now * DateTime.msPerDay).
Proof.
  unfold Server.daysUntil, DateTime.msPerDay.
  change (1000 * 60 * 60 * 24) with 86400000.
  repeat split; try (intros; Z.div_mod_to_equations; lia).
Qed.

End PromptFacts.

(** ** The year and the day count of the date reply *)

Module SeasonFacts.
Import Design.

(** 25 December is seven days before the first day of the next year. *)
Lemma december_25_before_new_year (y : Z) :
  DateTime.daysFromCivil y 12 25 = DayFromYear (y + 1) - 7.
Proof.
  unfold DateTime.daysFromCivil, DayFromYear.
  change (12 <=? 2) with false. change (2 <? 12) with true. cbv iota zeta.
  change ((153 * (12 - 3) + 2) / 5 + 25 - 1) with 299.
  Z.div_mod_to_equations. lia.
Qed.

(** A year has 365 or 366 days. *)
Lemma year_length (y : Z) :
  365 <= DayFromYear (y + 1) - DayFromYear y <= 366.
Proof. unfold DayFromYear. Z.div_mod_to_equations. lia. Qed.

Lemma append_length_split (a b a' b' : string) :
  a +:+ b = a' +:+ b' -> String.length a = String.length a' ->
  a = a' /\ b = b'.
Proof.
  revert a'. induction a as [|c a IH]; intros [|c' a'] E L; try discriminate.
  - rewrite !JsonFacts.append_nil in E. auto.
  - rewrite !JsonFacts.append_cons in E. injection E as -> E. injection L as L.
    destruct (IH a' E L) as [-> ->]. auto.
Qed.

(** X13.  The year that the router reads in a prompt is the number
    written by the leftmost occurrence of "20" followed by two digits,
    and the router reads no year exactly when the prompt holds no such
    occurrence. *)
Theorem year_is_leftmost_match (s : string) :
  (forall y,
     Server.matchYear s = Some y
     <-> exists pre d1 d2 post,
           yearAt pre d1 d2 post s
           /\ y = 2000 + 10 * Str.digitVal d1 + Str.digitVal d2
           /\ forall pre' d1' d2' post',
                yearAt pre' d1' d2' post' s ->
                (String.length pre <= String.length pre')%nat)
  /\ (Server.matchYear s = None
      <-> forall pre d1 d2 post, ~ yearAt pre d1 d2 post s).
Proof.
  split.
  - intros y. split; [apply ChristmasFacts.matchYear_Some|].
    intros (pre & d1 & d2 & post & Hat & -> & Hmin).
    destruct (Server.matchYear s) as [y'|] eqn:E.
    + apply ChristmasFacts.matchYear_Some in E
        as (pre' & d1' & d2' & post' & Hat' & -> & Hmin').
      pose proof (Hmin _ _ _ _ Hat') as L1.
      pose proof (Hmin' _ _ _ _ Hat) as L2.
      destruct Hat as (Es & _), Hat' as (Es' & _).
      rewrite Es in Es'.
      apply append_length_split in Es' as [_ Er]; [|lia].
      now injection Er as -> -> _.
    + now destruct (ChristmasFacts.matchYear_None s E _ _ _ _ Hat).
  - split; [apply ChristmasFacts.matchYear_None|].
    intros Hno. destruct (Server.matchYear s) as [y|] eqn:E; [|reflexivity].
    apply ChristmasFacts.matchYear_Some in E as (pre & d1 & d2 & post & Hat & _).
    now destruct (Hno _ _ _ _ Hat).
Qed.

Section Zone.
Variable LocalTZA : Z -> bool -> Z.
Hypothesis zone_bound : forall u b, Z.abs (LocalTZA u b) <= DateTime.msPerDay.

(** X14.  A question that names no year is answered for the Christmas
    that comes next.  The target year is the year of [now] in the zone
    of the server or the one after it; 25 December of the target year is
    not behind [now] and at most 368 days ahead (a year, and twice the
    largest offset of a zone), so that the day count is that distance in
    whole days and the floor at 0 plays no part. *)
Theorem undated_question_looks_ahead (lower : string) (now : Z) :
  Server.matchYear lower = None ->
  100 <= DateTime.getFullYear LocalTZA now <= 9999 ->
  exists target,
    DateTime.newDateLocal LocalTZA (Server.christmasYear LocalTZA lower now)
                          11 25 = Some target
    /\ (Server.christmasYear LocalTZA lower now
          = DateTime.getFullYear LocalTZA now
        \/ Server.christmasYear LocalTZA lower now
           = DateTime.getFullYear LocalTZA now + 1)
    /\ now <= target <= now + 368 * DateTime.msPerDay
    /\ 0 <= Server.daysUntil target now <= 368
    /\ Server.daysUntil target now
       = ceilDiv (target - now) DateTime.msPerDay.
Proof.
  intros Hno Hy.
  set (y0 := DateTime.getFullYear LocalTZA now) in *.
  assert (Hyear : Server.christmasYear LocalTZA lower now
                  = if DateTime.christmas LocalTZA y0 <? now then y0 + 1 else y0).
  { unfold Server.christmasYear. rewrite Hno. fold y0.
    now rewrite (ChristmasFacts.newDateLocal_christmas LocalTZA zone_bound y0)
      by lia. }
  rewrite Hyear.
  pose proof (DateFacts.YearFromTime_spec (DateTime.LocalTime LocalTZA now))
    as [Hlo Hhi].
  fold (DateTime.getFullYear LocalTZA now) in Hlo, Hhi. fold y0 in Hlo, Hhi.
  unfold DateTime.Day, DateTime.LocalTime in Hlo, Hhi.
  pose proof (zone_bound now true) as Hz.
  pose proof (year_length y0) as Hlen0.
  pose proof (year_length (y0 + 1)) as Hlen1.
  replace (y0 + 1 + 1) with (y0 + 2) in Hlen1 by lia.
  assert (Htarget : forall y, 100 <= y <= 10000 ->
            DateTime.newDateLocal LocalTZA y 11 25
            = Some (DateTime.christmas LocalTZA y))
    by (intros; now apply ChristmasFacts.newDateLocal_christmas).
  assert (Hc : forall y,
            DateTime.christmas LocalTZA y
            = (DayFromYear (y + 1) - 7) * DateTime.msPerDay
              - LocalTZA ((DayFromYear (y + 1) - 7) * DateTime.msPerDay) false).
  { intros y. unfold DateTime.christmas, DateTime.UTC.
    now rewrite december_25_before_new_year. }
  assert (Hdays : forall target,
            now <= target <= now + 368 * DateTime.msPerDay ->
            0 <= Server.daysUntil target now <= 368
            /\ Server.daysUntil target now
               = ceilDiv (target - now) DateTime.msPerDay).
  { intros target Ht. unfold Server.daysUntil, ceilDiv, DateTime.msPerDay in *.
    change (1000 * 60 * 60 * 24) with 86400000.
    Z.div_mod_to_equations. lia. }
  destruct (DateTime.christmas LocalTZA y0 <? now) eqn:E.
  - apply Z.ltb_lt in E.
    exists (DateTime.christmas LocalTZA (y0 + 1)).
    split; [apply Htarget; lia|]. split; [now right|].
    assert (Hr : now <= DateTime.christmas LocalTZA (y0 + 1)
                      <= now + 368 * DateTime.msPerDay).
    { rewrite Hc in E |- *.
      replace (y0 + 1 + 1) with (y0 + 2) by lia.
      pose proof (zone_bound ((DayFromYear (y0 + 1) - 7) * DateTime.msPerDay) false).
      pose proof (zone_bound ((DayFromYear (y0 + 2) - 7) * DateTime.msPerDay) false).
      unfold DateTime.msPerDay in *.
      Z.div_mod_to_equations. lia. }
    split; [exact Hr | now apply Hdays].
  - apply Z.ltb_ge in E.
    exists (DateTime.christmas LocalTZA y0).
    split; [apply Htarget; lia|]. split; [now left|].
    assert (Hr : now <= DateTime.christmas LocalTZA y0
                      <= now + 368 * DateTime.msPerDay).
    { split; [exact E|]. rewrite Hc.
      pose proof (zone_bound ((DayFromYear (y0 + 1) - 7) * DateTime.msPerDay) false).
      unfold DateTime.msPerDay in *.
      Z.div_mod_to_equations. lia. }
    split; [exact Hr | now apply Hdays].
Qed.

End Zone.

Lemma undated_question_looks_ahead_witness :
  exists target,
    DateTime.newDateLocal Samples.utc
      (Server.christmasYear Samples.utc "how many days until christmas?"
         Samples.newYear2025) 11 25 = Some target
    /\ (Server.christmasYear Samples.utc "how many days until christmas?"
          Samples.newYear2025
          = DateTime.getFullYear Samples.utc Samples.newYear2025
        \/ Server.christmasYear Samples.utc "how many days until christmas?"
             Samples.newYear2025
           = DateTime.getFullYear Samples.utc Samples.newYear2025 + 1)
    /\ Samples.newYear2025 <= target
         <= Samples.newYear2025 + 368 * DateTime.msPerDay
    /\ 0 <= Server.daysUntil target Samples.newYear2025 <= 368
    /\ Server.daysUntil target Samples.newYear2025
       = ceilDiv (target - Samples.newYear2025) DateTime.msPerDay.
Proof.
  apply (undated_question_looks_ahead Samples.utc).
  - intros u b. vm_compute. discriminate.
  - reflexivity.
  - vm_compute. split; discriminate.
Defined.

End SeasonFacts.

(** ** The controls of a turn in the client *)

Module ControlFacts.
Import Catalog Client Chats Design.

(** X17.  An enabled send button sends.  When [disableSend] is false
    for a client that is logged in, [handleSend] posts a request with the
    trimmed input as its prompt: to [/api/video] in the video mode, to
    [/api/image] in the image mode, to [/api/ai] in every other mode.
    It neither returns early nor shows the notice about a missing
    model. *)
Theorem enabled_send_posts
    (isSending : bool) (input : string) (clientNow : Z) (st : State) :
  disableSend isSending input st = false ->
  Js.truthy (token st) = true ->
  exists reqBody,
    handleSend input clientNow st
    = Post (if isVideoMode st then ApiVideo
            else if isImageMode st then ApiImage else ApiAi)
           (bearer (token st)) reqBody
    /\ Js.own "prompt" reqBody = VStr (Str.trim input)
    /\ Str.inked input = true.
Proof.
  unfold disableSend, handleSend. intros Hd Ht.
  apply orb_false_elim in Hd as [Hd Hm].
  apply orb_false_elim in Hd as [_ Hb].
  rewrite Hb, Ht. cbn [negb].
  assert (Hink : Str.inked input = true).
  { rewrite PromptFacts.trim_blank in Hb. now apply negb_false_iff in Hb. }
  destruct (isVideoMode st).
  - eexists. repeat split. exact Hink.
  - cbn [negb andb] in Hm.
    apply orb_false_elim in Hm as [Hm Hn].
    apply orb_false_elim in Hm as [_ Hs].
    apply negb_false_iff in Hs. rewrite Hs. cbn [negb].
    replace (0 <? List.length (filteredModels st))%nat with true
      by (destruct (filteredModels st); [discriminate Hn | reflexivity]).
    rewrite andb_true_r. eexists. split; [reflexivity|]. split; [reflexivity|].
    exact Hink.
Qed.

(** In a ranked listing no free model stands behind the first entry
    unless the first entry is free. *)
Lemma rank_head_free (all : list ModelDescriptor) (first : ModelDescriptor)
    (rest : list ModelDescriptor) :
  Forall priced all ->
  rank all = first :: rest ->
  forall m, In m all -> isFree m = true -> isFree first = true.
Proof.
  intros HP E m Hm Hf.
  pose proof (StableSort.sort_sorted compareModels priced Ranking.later_asym
                Ranking.notAfter_trans all HP) as HS.
  pose proof (Ranking.rank_priced all HP) as HPr.
  fold (rank all) in HS. rewrite E in HS, HPr.
  assert (Hin : In m (first :: rest)).
  { rewrite <- E. eapply Permutation_in; [|exact Hm].
    symmetry. apply StableSort.sort_perm. }
  destruct Hin as [<-|Hin]; [exact Hf|].
  inversion HS as [|? ? _ Hall]; subst.
  inversion HPr as [|? ? Pf Pr]; subst.
  rewrite Forall_forall in Hall, Pr.
  apply (Ranking.notAfter_precedes first m Pf (Pr m Hin)) in Hall; [|exact Hin].
  now apply Hall.
Qed.

Lemma find_none_free (l : list ModelDescriptor) :
  (forall m, In m l -> isFree m = true -> False) -> List.find isFree l = None.
Proof.
  induction l as [|x r IH]; intros H; [reflexivity|]. cbn.
  destruct (isFree x) eqn:E; [destruct (H x (or_introl eq_refl) E)|].
  apply IH. intros m Hm. apply (H m). now right.
Qed.

(** X18.  The model that is selected when the catalogue arrives is the
    first entry of the listing.  The client looks for the first free
    model and takes the first entry when there is none; on the ranked
    listing of the backend, with prompt prices that are numbers, the
    first free model is the first entry.  The first entry is free as
    soon as the catalogue holds a free model. *)
Theorem default_selection_is_first (all : list ModelDescriptor) (st : State) :
  Forall priced all ->
  all <> [] ->
  exists first rest,
    rank all = first :: rest
    /\ models (modelsLoaded (rank all) st) = first :: rest
    /\ selectedModel (modelsLoaded (rank all) st) = id first
    /\ (forall m, In m all -> isFree m = true -> isFree first = true).
Proof.
  intros HP Hne.
  destruct (rank all) as [|first rest] eqn:E.
  - exfalso. apply Hne.
    apply Permutation_nil. rewrite <- E. apply StableSort.sort_perm.
  - exists first, rest. split; [reflexivity|].
    pose proof (rank_head_free all first rest HP E) as Hfree.
    split; [reflexivity|]. split; [|exact Hfree].
    cbn. destruct (isFree first) eqn:Ef; [reflexivity|].
    rewrite find_none_free; [reflexivity|].
    intros m Hm Hf.
    assert (Hin : In m all).
    { eapply Permutation_in; [apply (StableSort.sort_perm compareModels)|].
      change (In m (rank all)). rewrite E. now right. }
    pose proof (Hfree m Hin Hf) as Hc. congruence.
Qed.

Lemma strictEq_string (s : string) (v : jsval) :
  Js.strictEq (VStr s) v = true <-> v = VStr s.
Proof.
  split.
  - destruct v; try discriminate. cbn. intros H.
    apply String.eqb_eq in H. now subst.
  - intros ->. cbn. apply String.eqb_refl.
Qed.

Lemma find_existsb {A : Type} (p : A -> bool) (l : list A) :
  existsb p l = true -> exists x, List.find p l = Some x /\ In x l /\ p x = true.
Proof.
  induction l as [|y r IH]; [discriminate|]. cbn.
  destruct (p y) eqn:E.
  - intros _. exists y. auto.
  - cbn. intros H. destruct (IH H) as (x & F & I & P). exists x. auto.
Qed.

(** The three outcomes of the effect. *)
Lemma selectionEffect_empty (st : State) :
  filteredModels st = [] -> selectionEffect st = st.
Proof.
  unfold filteredModels, selectionEffect. intros ->.
  now destruct (models st).
Qed.

Lemma selectionEffect_keep (st : State) :
  existsb (fun m => Js.strictEq (id m) (selectedModel st)) (filteredModels st)
    = true ->
  selectionEffect st = st.
Proof.
  unfold filteredModels, selectionEffect. intros H.
  destruct (models st); [reflexivity|].
  destruct (filterByCapability _ _); [reflexivity|]. now rewrite H.
Qed.

Lemma selectionEffect_pick (st : State) (first : ModelDescriptor)
    (rest : list ModelDescriptor) :
  filteredModels st = first :: rest ->
  existsb (fun m => Js.strictEq (id m) (selectedModel st)) (first :: rest)
    = false ->
  selectionEffect st = withSelectedModel st (id first).
Proof.
  unfold filteredModels, selectionEffect. intros E H.
  destruct (models st) as [|m0 ms]; [discriminate E|].
  rewrite E. now rewrite H.
Qed.

(** X19.  The selection settles after one run of the effect.  With
    string ids, a second run changes nothing; and whenever the mode has
    models to offer, the selection after the effect resolves to a model
    of the filtered list, the one whose id is selected. *)
Theorem selection_settles (st : State) :
  Forall (fun m => exists s, id m = VStr s) (models st) ->
  selectionEffect (selectionEffect st) = selectionEffect st
  /\ (filteredModels st <> [] ->
      exists m,
        selectedModelObj (selectionEffect st) = Some m
        /\ In m (filteredModels st)
        /\ id m = selectedModel (selectionEffect st)).
Proof.
  intros Hids.
  assert (Hcompat : Forall (fun m => exists s, id m = VStr s) (filteredModels st)).
  { unfold filteredModels, filterByCapability.
    rewrite Forall_forall in Hids |- *. intros m Hm.
    apply filter_In in Hm as [Hm _]. auto. }
  assert (Hres : forall s,
            filteredModels s = filteredModels st ->
            existsb (fun m => Js.strictEq (id m) (selectedModel s))
                    (filteredModels st) = true ->
            exists m, selectedModelObj s = Some m
                      /\ In m (filteredModels st) /\ id m = selectedModel s).
  { intros s Ef He. unfold selectedModelObj. rewrite Ef.
    destruct (find_existsb _ _ He) as (m & F & I & P).
    exists m. split; [exact F|]. split; [exact I|].
    rewrite Forall_forall in Hcompat. destruct (Hcompat m I) as [t Et].
    rewrite Et in P |- *. symmetry. now apply strictEq_string. }
  destruct (filteredModels st) as [|first rest] eqn:Hc.
  { rewrite (selectionEffect_empty st Hc).
    split; [now apply selectionEffect_empty|]. intros H. now destruct H. }
  destruct (existsb (fun m => Js.strictEq (id m) (selectedModel st))
              (first :: rest)) eqn:He.
  - assert (Hk : selectionEffect st = st)
      by (apply selectionEffect_keep; now rewrite Hc).
    rewrite Hk. split; [exact Hk|]. intros _. now apply Hres.
  - rewrite (selectionEffect_pick st first rest Hc He).
    inversion Hcompat as [|? ? [t Et] _]; subst.
    assert (Hsel : existsb (fun m => Js.strictEq (id m) (id first))
                     (first :: rest) = true).
    { cbn. rewrite Et. cbn. now rewrite String.eqb_refl. }
    split.
    + apply selectionEffect_keep.
      change (filteredModels (withSelectedModel st (id first)))
        with (filteredModels st). now rewrite Hc.
    + intros _. apply Hres; [exact Hc | exact Hsel].
Qed.

End ControlFacts.

(** ** Chats and projects in the client *)

Module ChatFacts.
Import Catalog Client Chats Design.

(** *** The array methods on elements that can be read *)

Lemma get_own (k : string) (v : jsval) :
  Js.nullish v = false -> Js.get k v = Ret (Js.own k v).
Proof. unfold Js.get. now intros ->. Qed.

Lemma get_nullish (k : string) (v : jsval) :
  Js.nullish v = true -> Js.get k v = Throw TypeError.
Proof. unfold Js.get. now intros ->. Qed.

Lemma filterE_Ret (k : string) (f : jsval -> bool) (l ys : list jsval) :
  filterE (fun c => v ← Js.get k c; Ret (f v)) l = Ret ys ->
  Forall (fun c => Js.nullish c = false) l
  /\ ys = List.filter (fun c => f (Js.own k c)) l.
Proof.
  revert ys. induction l as [|x r IH]; intros ys; cbn.
  - intros [= <-]. split; [constructor | reflexivity].
  - destruct (Js.nullish x) eqn:Hx;
      [rewrite (get_nullish k x Hx); discriminate|].
    rewrite (get_own k x Hx). cbn.
    destruct (filterE _ r) as [zs|e]; cbn; [|discriminate].
    intros [= <-]. destruct (IH zs eq_refl) as [HF ->].
    split; [now constructor | reflexivity].
Qed.

Lemma filterE_filter (k : string) (f : jsval -> bool) (l : list jsval) :
  Forall (fun c => Js.nullish c = false) l ->
  filterE (fun c => v ← Js.get k c; Ret (f v)) l
  = Ret (List.filter (fun c => f (Js.own k c)) l).
Proof.
  induction 1 as [|x r Hx _ IH]; [reflexivity|]. cbn.
  rewrite (get_own k x Hx). cbn. rewrite IH. reflexivity.
Qed.


Lemma findE_find (k : string) (f : jsval -> bool) (l : list jsval) :
  Forall (fun c => Js.nullish c = false) l ->
  findE (fun c => v ← Js.get k c; Ret (f v)) l
  = Ret match List.find (fun c => f (Js.own k c)) l with
        | Some c => c
        | None => VUndefined
        end.
Proof.
  induction 1 as [|y r Hy _ IH]; [reflexivity|]. cbn.
  rewrite (get_own k y Hy). cbn.
  destruct (f (Js.own k y)); [reflexivity | exact IH].
Qed.

Lemma mapE_each {A B : Type} (f : A -> Exc B) (l : list A) (l' : list B) :
  mapE f l = Ret l' -> Forall2 (fun x y => f x = Ret y) l l'.
Proof.
  revert l'. induction l as [|x r IH]; intros l'; cbn.
  - intros [= <-]. constructor.
  - destruct (f x) as [y|e] eqn:E; cbn; [|discriminate].
    destruct (mapE f r) as [ys|e]; cbn; [|discriminate].
    intros [= <-]. constructor; [exact E | now apply IH].
Qed.

Lemma assoc_put (k k' : string) (v : jsval) (fields : list (string * jsval)) :
  Js.assoc k (put k' v fields)
  = if String.eqb k k' then v else Js.assoc k fields.
Proof.
  induction fields as [|[k0 v0] r IH]; cbn; [reflexivity|].
  destruct (String.eqb k' k0) eqn:E0; cbn.
  - apply String.eqb_eq in E0. subst k0.
    now destruct (String.eqb k k').
  - rewrite IH. destruct (String.eqb k k0) eqn:E1; [|reflexivity].
    apply String.eqb_eq in E1. subst k0.
    now rewrite String.eqb_sym, E0.
Qed.

(** A value with a string under [id] is an object. *)
Lemma string_id_object (c : jsval) (k s : string) :
  Js.own k c = VStr s -> exists fields, c = VObj fields.
Proof.
  destruct c; cbn; try discriminate; eauto.
  - destruct (String.eqb k "length"); discriminate.
  - destruct (String.eqb k "length"); discriminate.
Qed.

(** *** The title of a chat *)



(** *** Storing the messages of a chat *)

Lemma strictEq_string_r (s : string) (v : jsval) :
  Js.strictEq v (VStr s) = true <-> v = VStr s.
Proof.
  split.
  - destruct v; try discriminate. cbn. intros H.
    apply String.eqb_eq in H. now subst.
  - intros ->. cbn. apply String.eqb_refl.
Qed.

Lemma strictEq_undefined (v a : jsval) :
  Js.strictEq v a = true -> a <> VUndefined -> v <> VUndefined.
Proof. intros H Ha ->. destruct a; try discriminate H. now apply Ha. Qed.

Lemma defined_id_object (c : jsval) :
  Js.own "id" c <> VUndefined -> exists fields, c = VObj fields.
Proof. destruct c; cbn; try (intros H; now destruct H). eauto. Qed.

(** What the callback of the map does with one chat. *)
Lemma persistChat_Ret (a : jsval) (ms : list jsval) (c c' : jsval) :
  persistChat a ms c = Ret c' ->
  Js.nullish c = false
  /\ (if Js.strictEq (Js.own "id" c) a
      then exists title,
             getChatTitleFromMessages ms (Js.own "title" c) = Ret title
             /\ c' = VObj (put "title" title
                             (put "messages" (VArr ms) (ownProps c)))
      else c' = c).
Proof.
  unfold persistChat.
  destruct (Js.nullish c) eqn:Hc;
    [rewrite (get_nullish "id" c Hc); discriminate|].
  rewrite (get_own "id" c Hc). cbn [mbind Exc_bind].
  split; [reflexivity|].
  destruct (Js.strictEq (Js.own "id" c) a).
  - destruct (getChatTitleFromMessages ms _) as [title|e];
      cbn [mbind Exc_bind] in *; [|discriminate].
    exists title. split; [reflexivity | congruence].
  - congruence.
Qed.

(** X22.  Storing messages rewrites the active chat and nothing else.
    [setMessagesAndPersist] shows the new messages and maps over the
    chats: a chat whose id is the active one of the render gets the new
    messages and the title computed from them, all its other fields
    stay; every other chat is the same value as before, in the same
    place; projects and the active ids are untouched. *)
Theorem only_active_chat_is_rewritten
    (closure st st' : State) (newMessages cs : list jsval) :
  chats st = VArr cs ->
  activeChatId closure <> VUndefined ->
  setMessagesAndPersist closure newMessages st = Ret st' ->
  exists cs',
    chats st' = VArr cs'
    /\ messages st' = VArr newMessages
    /\ projects st' = projects st
    /\ activeChatId st' = activeChatId st
    /\ activeProjectId st' = activeProjectId st
    /\ Forall2
         (fun c c' =>
            if Js.strictEq (Js.own "id" c) (activeChatId closure)
            then Js.own "messages" c' = VArr newMessages
                 /\ getChatTitleFromMessages newMessages (Js.own "title" c)
                    = Ret (Js.own "title" c')
                 /\ (forall k, k <> "messages" -> k <> "title" ->
                       Js.own k c' = Js.own k c)
            else c' = c) cs cs'.
Proof.
  intros Hcs Ha. unfold setMessagesAndPersist. rewrite Hcs.
  cbn [asArray mbind Exc_bind].
  destruct (mapE _ cs) as [cs'|e] eqn:E; cbn [mbind Exc_bind]; [|discriminate].
  intros [= <-]. exists cs'. repeat (split; [reflexivity|]).
  apply mapE_each in E. clear Hcs.
  induction E as [|c c' r r' Hc _ IH]; [constructor|].
  constructor; [|exact IH].
  apply persistChat_Ret in Hc as [Hn Hc].
  destruct (Js.strictEq (Js.own "id" c) (activeChatId closure)) eqn:Eq;
    [|exact Hc].
  destruct Hc as (title & Ht & ->).
  destruct (defined_id_object c (strictEq_undefined _ _ Eq Ha)) as [fields ->].
  cbn [ownProps Js.own]. rewrite !assoc_put. cbn.
  split; [reflexivity|]. split; [exact Ht|].
  intros k Hm Ht'. rewrite !assoc_put.
  apply String.eqb_neq in Hm, Ht'. now rewrite Hm, Ht'.
Qed.

(** A chat that was stored keeps its id, and it is not [null]. *)
Lemma persistChat_id (a : jsval) (ms : list jsval) (c c' : jsval) (s : string) :
  persistChat a ms c = Ret c' ->
  Js.own "id" c = VStr s ->
  Js.own "id" c' = VStr s
  /\ Js.truthy c' = true
  /\ (Js.strictEq (VStr s) a = true -> Js.own "messages" c' = VArr ms)
  /\ (Js.strictEq (VStr s) a = false -> c' = c).
Proof.
  intros H Hs. apply persistChat_Ret in H as [_ H]. rewrite Hs in H.
  destruct (string_id_object c "id" s Hs) as [fields ->].
  destruct (Js.strictEq (VStr s) a).
  - destruct H as (title & _ & ->). cbn [ownProps Js.own] in *.
    rewrite !assoc_put. cbn. repeat split; auto. discriminate.
  - subst c'. repeat split; auto. discriminate.
Qed.

(** The first chat of an id after the chats were stored. *)
Lemma find_persisted (a : string) (ms cs cs' : list jsval) :
  Forall (fun c => exists s, Js.own "id" c = VStr s) cs ->
  Forall2 (fun c c' => persistChat (VStr a) ms c = Ret c') cs cs' ->
  existsb (fun c => Js.strictEq (Js.own "id" c) (VStr a)) cs = true ->
  exists c',
    List.find (fun c => Js.strictEq (Js.own "id" c) (VStr a)) cs' = Some c'
    /\ Js.truthy c' = true
    /\ Js.own "messages" c' = VArr ms.
Proof.
  intros Hids H. induction H as [|c c' r r' Hc _ IH]; [discriminate|].
  inversion Hids as [|? ? [s Hs] Hr]; subst.
  destruct (persistChat_id _ _ _ _ s Hc Hs) as (Hid & Ht & Hyes & Hno).
  cbn. rewrite Hs, Hid.
  destruct (Js.strictEq (VStr s) (VStr a)) eqn:E; cbn.
  - intros _. exists c'. auto.
  - intros He. exact (IH Hr He).
Qed.

Lemma persisted_readable (a : jsval) (ms cs cs' : list jsval) :
  Forall2 (fun c c' => persistChat a ms c = Ret c') cs cs' ->
  Forall (fun c => Js.nullish c = false) cs'.
Proof.
  induction 1 as [|c c' r r' Hc _ IH]; constructor; [|exact IH].
  apply persistChat_Ret in Hc as [Hn Hc].
  destruct (Js.strictEq _ _); [|now subst].
  now destruct Hc as (title & _ & ->).
Qed.

(** X21.  Messages that were stored come back.  After
    [setMessagesAndPersist] has stored messages while a chat with the
    string id [a] was active, choosing that chat in the side bar shows
    exactly these messages. *)
Theorem stored_messages_come_back
    (a : string) (newMessages cs : list jsval) (st st' : State) :
  activeChatId st = VStr a ->
  chats st = VArr cs ->
  Forall (fun c => exists s, Js.own "id" c = VStr s) cs ->
  existsb (fun c => Js.strictEq (Js.own "id" c) (VStr a)) cs = true ->
  setMessagesAndPersist st newMessages st = Ret st' ->
  exists st'',
    handleSelectChat (VStr a) st' = Ret st''
    /\ messages st'' = VArr newMessages
    /\ activeChatId st'' = VStr a
    /\ chats st'' = chats st'.
Proof.
  intros Ha Hcs Hids He. unfold setMessagesAndPersist. rewrite Hcs, Ha.
  cbn [asArray mbind Exc_bind].
  destruct (mapE _ cs) as [cs'|e] eqn:E; cbn [mbind Exc_bind]; [|discriminate].
  intros [= <-]. apply mapE_each in E.
  destruct (find_persisted a newMessages cs cs' Hids E He)
    as (c' & Hf & Ht & Hm).
  unfold handleSelectChat, idIs. cbn [chats withStore asArray mbind Exc_bind].
  rewrite (findE_find "id" (fun i => Js.strictEq i (VStr a)))
    by (eapply persisted_readable; eauto).
  rewrite Hf. cbn [mbind Exc_bind]. rewrite Ht. cbn [negb].
  eexists. split; [reflexivity|]. cbn. rewrite Hm. auto.
Qed.

(** With no chat of the id, storing leaves every chat as it is. *)
Lemma persist_none (ms l : list jsval) :
  Forall (fun c => exists s, Js.own "id" c = VStr s) l ->
  mapE (persistChat VNull ms) l = Ret l.
Proof.
  induction 1 as [|c r [s Hs] _ IH]; [reflexivity|]. cbn.
  destruct (string_id_object c "id" s Hs) as [fields ->].
  assert (E : persistChat VNull ms (VObj fields) = Ret (VObj fields)).
  { unfold persistChat. rewrite get_own by reflexivity.
    cbn [mbind Exc_bind]. now rewrite Hs. }
  rewrite E, IH. reflexivity.
Qed.

(** X25.  The first turn of a conversation is shown but not stored.
    When a prompt is sent while no chat is active, [handleSend] opens a
    new chat and makes it the active one, and the messages on the screen
    get the message of the turn; but [setMessagesAndPersist] still
    compares with the active id of the render, which is [null], so that
    no chat is rewritten: the new chat holds the welcome message only,
    and choosing it in the side bar brings back the welcome message
    without the turn. *)
Theorem first_turn_is_not_stored
    (input newId : string) (now : Z) (st : State) (cs shown : list jsval) :
  Str.inked input = true ->
  Js.truthy (token st) = true ->
  activeChatId st = VNull ->
  chats st = VArr cs ->
  Forall (fun c => exists s, Js.own "id" c = VStr s) cs ->
  messages st = VArr shown ->
  exists st' newChat,
    sendRecorded input newId now st = Ret st'
    /\ chats st' = VArr (newChat :: cs)
    /\ Js.own "id" newChat = VStr newId
    /\ Js.own "messages" newChat = INITIAL_MESSAGES
    /\ activeChatId st' = VStr newId
    /\ messages st'
       = VArr (shown ++
               [if negb (isVideoMode st) && negb (Js.truthy (selectedModel st))
                then assistantNotice else userMessage (Str.trim input) st])
    /\ exists st'',
         handleSelectChat (VStr newId) st' = Ret st''
         /\ messages st'' = INITIAL_MESSAGES.
Proof.
  intros Hink Htok Ha Hcs Hids Hshown.
  unfold sendRecorded. rewrite PromptFacts.trim_blank, Hink, Htok, Ha.
  cbn [negb Js.truthy]. unfold handleNewChat. rewrite Hcs, Hshown.
  cbn [spread mbind Exc_bind Js.nullish].
  set (newChat := VObj [("id", VStr newId); ("projectId", VNull);
                        ("title", VStr "New chat");
                        ("messages", INITIAL_MESSAGES);
                        ("createdAt", VNum (Num.ofZ now))]).
  set (message := if _ && _ then _ else _).
  unfold setMessagesAndPersist. rewrite Ha.
  cbn [chats withStore asArray mbind Exc_bind].
  assert (Hall : Forall (fun c => exists s, Js.own "id" c = VStr s)
                   (newChat :: cs))
    by (constructor; [now exists newId | exact Hids]).
  rewrite (persist_none _ _ Hall). cbn [mbind Exc_bind].
  eexists _, newChat. split; [reflexivity|].
  repeat (split; [reflexivity|]).
  unfold handleSelectChat, idIs. cbn [chats withStore asArray mbind Exc_bind].
  cbn [findE]. rewrite get_own by reflexivity. cbn [mbind Exc_bind].
  replace (Js.strictEq (Js.own "id" newChat) (VStr newId)) with true
    by (cbn; now rewrite String.eqb_refl).
  cbn [mbind Exc_bind]. eexists. split; reflexivity.
Qed.

(** *** Deleting *)

Lemma or_not_string (v : jsval) (s : string) :
  v <> VStr s -> Js.or v VNull <> VStr s.
Proof. unfold Js.or. destruct (Js.truthy v); [auto | discriminate]. Qed.

(** X23.  Deleting a project takes its chats with it and nothing else.
    After a confirmed [handleDeleteProject] of the project with the
    string id [projectId], the projects are those of another id and the
    chats are those of another project, both in their old order; no
    chat of the deleted project is left, and the deleted project is not
    the active one. *)
Theorem delete_project_takes_its_chats
    (projectId : string) (st st' : State) (ps cs : list jsval) :
  projects st = VArr ps ->
  chats st = VArr cs ->
  handleDeleteProject true (VStr projectId) st = Ret st' ->
  projects st'
  = VArr (List.filter
            (fun p => negb (Js.strictEq (Js.own "id" p) (VStr projectId))) ps)
  /\ chats st'
     = VArr (List.filter
               (fun c => negb (Js.strictEq (Js.own "projectId" c)
                                           (VStr projectId))) cs)
  /\ (forall c cs', chats st' = VArr cs' -> In c cs' ->
        In c cs /\ Js.own "projectId" c <> VStr projectId)
  /\ activeProjectId st' <> VStr projectId.
Proof.
  intros Hps Hcs. unfold handleDeleteProject, idIsNot, projectIsNot, idIs.
  rewrite Hps, Hcs. cbn [negb asArray mbind Exc_bind].
  destruct (filterE _ ps) as [ps'|e] eqn:Ep; cbn [mbind Exc_bind];
    [|discriminate].
  apply (filterE_Ret "id" (fun i => negb (Js.strictEq i (VStr projectId))))
    in Ep as [_ ->].
  destruct (filterE _ cs) as [remaining|e] eqn:Ec; cbn [mbind Exc_bind];
    [|discriminate].
  apply (filterE_Ret "projectId"
           (fun p => negb (Js.strictEq p (VStr projectId))))
    in Ec as [_ Er].
  destruct (findE _ cs) as [activeChat|e]; cbn [mbind Exc_bind];
    [|discriminate].
  intros [= <-]. cbn [projects chats activeProjectId withStore].
  split; [reflexivity|]. split; [now rewrite Er|].
  assert (Hrem : forall c, In c remaining ->
            In c cs /\ Js.own "projectId" c <> VStr projectId).
  { intros c Hc. rewrite Er in Hc. apply filter_In in Hc as [Hin Hc].
    split; [exact Hin|]. intros E. rewrite E in Hc. cbn in Hc.
    now rewrite String.eqb_refl in Hc. }
  split; [intros c cs' [= <-]; apply Hrem|].
  destruct (Js.strictEq (activeProjectId st) (VStr projectId)) eqn:Ecl;
    [discriminate|].
  destruct (_ && _).
  - destruct remaining as [|first rest]; [discriminate|].
    destruct (Js.truthy (Js.or first VNull)) eqn:Tf; [|discriminate].
    assert (Ef : Js.or first VNull = first)
      by (unfold Js.or in Tf |- *; now destruct (Js.truthy first)).
    rewrite Ef. apply or_not_string, (Hrem first). now left.
  - intros E. apply strictEq_string_r in E. congruence.
Qed.

(** *** The active chat *)

Lemma strictEq_sym (a b : jsval) : Js.strictEq a b = Js.strictEq b a.
Proof.
  destruct a, b; cbn; try reflexivity.
  - now destruct b, b0.
  - destruct n, n0; cbn; try reflexivity.
    unfold Qeq_bool. apply Z.eqb_sym.
  - apply String.eqb_sym.
Qed.

Lemma existsb_In {A : Type} (p : A -> bool) (l : list A) (x : A) :
  In x l -> p x = true -> existsb p l = true.
Proof. intros Hx Hp. apply existsb_exists. eauto. Qed.

Lemma string_id_refl (c : jsval) :
  (exists s, Js.own "id" c = VStr s) ->
  Js.strictEq (Js.own "id" c) (Js.own "id" c) = true.
Proof. intros [s ->]. cbn. apply String.eqb_refl. Qed.

Lemma string_id_truthy (c : jsval) :
  (exists s, Js.own "id" c = VStr s) -> Js.truthy c = true.
Proof. intros [s Hs]. now destruct (string_id_object c "id" s Hs) as [? ->]. Qed.

Lemma string_id_readable (l : list jsval) :
  Forall (fun c => exists s, Js.own "id" c = VStr s) l ->
  Forall (fun c => Js.nullish c = false) l.
Proof.
  apply Forall_impl. intros c [s Hs].
  now destruct (string_id_object c "id" s Hs) as [? ->].
Qed.

(** The two parts of the invariant on a state with the chats [l]. *)
Lemma listed_intro (st : State) (l : list jsval) :
  chats st = VArr l ->
  Forall (fun c => exists s, Js.own "id" c = VStr s) l ->
  (activeChatId st = VNull
   \/ existsb (fun c => Js.strictEq (Js.own "id" c) (activeChatId st)) l = true) ->
  stringIds st /\ activeListed st.
Proof.
  intros Hl Hids H. split; [exists l; auto|].
  destruct H as [H|H]; [now left | right; exists l; auto].
Qed.

Lemma listed_elim (st : State) :
  stringIds st -> activeListed st ->
  exists l,
    chats st = VArr l
    /\ Forall (fun c => exists s, Js.own "id" c = VStr s) l
    /\ (activeChatId st = VNull
        \/ existsb (fun c => Js.strictEq (Js.own "id" c) (activeChatId st)) l
           = true).
Proof.
  intros (l & Hl & Hids) H. exists l. split; [exact Hl|]. split; [exact Hids|].
  destruct H as [H|(l' & Hl' & H)]; [now left|]. right.
  rewrite Hl in Hl'. now injection Hl' as <-.
Qed.

Lemma kept_first (l : list jsval) (first : jsval) (rest : list jsval)
    (p : jsval -> bool) :
  Forall (fun c => exists s, Js.own "id" c = VStr s) l ->
  List.filter p l = first :: rest ->
  existsb (fun c => Js.strictEq (Js.own "id" c) (Js.own "id" first))
          (first :: rest) = true.
Proof.
  intros Hids E. cbn. rewrite string_id_refl; [reflexivity|].
  rewrite Forall_forall in Hids. apply Hids.
  assert (H : In first (List.filter p l)) by (rewrite E; now left).
  now apply filter_In in H.
Qed.

Lemma inv_create (answer : jsval) (newId : string) (now : Z) (st st' : State) :
  handleCreateProject answer newId now st = Ret st' ->
  chats st' = chats st /\ activeChatId st' = activeChatId st.
Proof.
  unfold handleCreateProject.
  destruct answer; try (intros [= <-]; now split).
  destruct (String.eqb _ ""); [intros [= <-]; now split|].
  destruct (spread (projects st)); cbn [mbind Exc_bind]; [|discriminate].
  intros [= <-]. now split.
Qed.

Lemma inv_newChat (p : jsval) (newId : string) (now : Z) (st st' : State) :
  stringIds st ->
  handleNewChat p newId now st = Ret st' ->
  stringIds st' /\ activeListed st'.
Proof.
  intros (l & Hl & Hids). unfold handleNewChat. rewrite Hl.
  cbn [spread mbind Exc_bind]. intros [= <-].
  eapply listed_intro; [reflexivity | |].
  - constructor; [now exists newId | exact Hids].
  - right. cbn. now rewrite String.eqb_refl.
Qed.

Lemma inv_select (chatId : jsval) (st st' : State) :
  stringIds st -> activeListed st ->
  handleSelectChat chatId st = Ret st' ->
  stringIds st' /\ activeListed st'.
Proof.
  intros Hs Ha. destruct (listed_elim st Hs Ha) as (l & Hl & Hids & Hact).
  unfold handleSelectChat, idIs. rewrite Hl. cbn [asArray mbind Exc_bind].
  rewrite (findE_find "id" (fun i => Js.strictEq i chatId))
    by now apply string_id_readable.
  cbn [mbind Exc_bind].
  destruct (List.find _ l) as [c|] eqn:F; cbn [Js.truthy negb];
    [|intros [= <-]; now split].
  destruct (Js.truthy c); cbn [negb]; [|intros [= <-]; now split].
  intros [= <-]. apply (listed_intro _ l); [reflexivity | exact Hids |].
  right. cbn. apply find_some in F as [Hin Hc].
  now apply (existsb_In _ _ c).
Qed.

Lemma inv_deleteChat (confirmed : bool) (chatId : jsval) (st st' : State) :
  stringIds st -> activeListed st ->
  handleDeleteChat confirmed chatId st = Ret st' ->
  stringIds st' /\ activeListed st'.
Proof.
  intros Hs Ha. destruct (listed_elim st Hs Ha) as (l & Hl & Hids & Hact).
  unfold handleDeleteChat, idIsNot, projectIs.
  destruct confirmed; cbn [negb]; [|intros [= <-]; now split].
  rewrite Hl. cbn [asArray mbind Exc_bind].
  rewrite (filterE_filter "id" (fun i => negb (Js.strictEq i chatId)))
    by now apply string_id_readable.
  cbn [mbind Exc_bind].
  set (remaining := List.filter _ l).
  assert (Hrem : Forall (fun c => exists s, Js.own "id" c = VStr s) remaining)
    by now apply ListingFacts.Forall_filter.
  destruct (Js.strictEq chatId (activeChatId st)) eqn:E.
  - rewrite (filterE_filter "projectId"
               (fun p => Js.strictEq p (activeProjectId st)))
      by now apply string_id_readable.
    cbn [mbind Exc_bind].
    destruct (List.filter _ remaining) as [|switchTo same] eqn:Es.
    + destruct remaining as [|switchTo rest] eqn:Er.
      * intros [= <-]. apply (listed_intro _ []); [reflexivity | constructor|].
        now left.
      * intros [= <-].
        apply (listed_intro _ (switchTo :: rest)); [reflexivity | exact Hrem|].
        right. cbn. rewrite string_id_refl; [reflexivity|].
        now inversion Hrem.
    + intros [= <-]. apply (listed_intro _ remaining); [reflexivity | exact Hrem|].
      right. cbn [activeChatId withStore].
      assert (Hin : In switchTo remaining).
      { assert (H : In switchTo (List.filter
                     (fun c => Js.strictEq (Js.own "projectId" c)
                                           (activeProjectId st)) remaining))
          by (rewrite Es; now left).
        now apply filter_In in H. }
      apply (existsb_In _ _ switchTo Hin). apply string_id_refl.
      rewrite Forall_forall in Hrem. now apply Hrem.
  - intros [= <-]. apply (listed_intro _ remaining); [reflexivity | exact Hrem|].
    cbn [activeChatId withStore].
    destruct Hact as [Hact|Hact]; [now left | right].
    apply existsb_exists in Hact as (c0 & Hin & Hc0).
    apply (existsb_In _ _ c0); [|exact Hc0].
    apply filter_In. split; [exact Hin|].
    rewrite Forall_forall in Hids. destruct (Hids c0 Hin) as [s Es].
    rewrite Es in Hc0 |- *. apply ControlFacts.strictEq_string in Hc0.
    rewrite Hc0 in E. now rewrite strictEq_sym, E.
Qed.

Lemma inv_deleteProject (confirmed : bool) (projectId : jsval)
    (st st' : State) :
  stringIds st -> activeListed st ->
  handleDeleteProject confirmed projectId st = Ret st' ->
  stringIds st' /\ activeListed st'.
Proof.
  intros Hs Ha. destruct (listed_elim st Hs Ha) as (l & Hl & Hids & Hact).
  unfold handleDeleteProject, idIsNot, projectIsNot, idIs.
  destruct confirmed; cbn [negb]; [|intros [= <-]; now split].
  destruct (asArray (projects st)) as [ps|e]; cbn [mbind Exc_bind];
    [|discriminate].
  destruct (filterE _ ps) as [ps'|e]; cbn [mbind Exc_bind]; [|discriminate].
  rewrite Hl. cbn [asArray mbind Exc_bind].
  rewrite (filterE_filter "projectId"
             (fun p => negb (Js.strictEq p projectId)))
    by now apply string_id_readable.
  cbn [mbind Exc_bind].
  rewrite (findE_find "id" (fun i => Js.strictEq i (activeChatId st)))
    by now apply string_id_readable.
  cbn [mbind Exc_bind].
  set (remaining := List.filter _ l).
  assert (Hrem : Forall (fun c => exists s, Js.own "id" c = VStr s) remaining)
    by now apply ListingFacts.Forall_filter.
  intros [= <-]. apply (listed_intro _ remaining); [reflexivity | exact Hrem|].
  cbn [activeChatId withStore].
  destruct (List.find _ l) as [c0|] eqn:F.
  - apply find_some in F as [Hin Hc0].
    rewrite Forall_forall in Hids.
    rewrite (string_id_truthy c0 (Hids c0 Hin)). cbn [andb].
    destruct (Js.strictEq (Js.own "projectId" c0) projectId) eqn:Ep.
    + destruct remaining as [|first rest] eqn:Er; [now left | right].
      assert (Hf : exists s, Js.own "id" first = VStr s) by now inversion Hrem.
      assert (Ef : Js.or first VNull = first)
        by (unfold Js.or; now rewrite (string_id_truthy first Hf)).
      rewrite Ef, (string_id_truthy first Hf).
      cbn. now rewrite (string_id_refl first Hf).
    + right. apply (existsb_In _ _ c0); [|exact Hc0].
      apply filter_In. split; [exact Hin | now rewrite Ep].
  - cbn [Js.truthy andb]. destruct Hact as [Hact|Hact]; [now left|].
    apply existsb_exists in Hact as (c0 & Hin & Hc0).
    now rewrite (find_none _ _ F c0 Hin) in Hc0.
Qed.

Lemma inv_persist (closure st st' : State) (ms : list jsval) :
  stringIds st -> activeListed st ->
  setMessagesAndPersist closure ms st = Ret st' ->
  stringIds st' /\ activeListed st'.
Proof.
  intros Hs Ha. destruct (listed_elim st Hs Ha) as (l & Hl & Hids & Hact).
  unfold setMessagesAndPersist. rewrite Hl. cbn [asArray mbind Exc_bind].
  destruct (mapE _ l) as [l'|e] eqn:E; cbn [mbind Exc_bind]; [|discriminate].
  intros [= <-]. apply mapE_each in E.
  assert (H : Forall2 (fun c c' => exists s, Js.own "id" c = VStr s
                                             /\ Js.own "id" c' = VStr s) l l').
  { clear Hl Hact. induction E as [|c c' r r' Hc _ IH]; [constructor|].
    inversion Hids as [|? ? [s Es] Hr]; subst.
    constructor; [|now apply IH].
    exists s. split; [exact Es|].
    now destruct (persistChat_id _ _ _ _ s Hc Es). }
  apply (listed_intro _ l'); [reflexivity | |].
  - clear -H. induction H as [|c c' r r' (s & _ & Hs) _ IH]; constructor; eauto.
  - cbn [activeChatId withStore].
    destruct Hact as [Hact|Hact]; [now left | right].
    clear -H Hact. induction H as [|c c' r r' (s & Hc & Hc') _ IH];
      [discriminate|].
    cbn in *. rewrite Hc in Hact. rewrite Hc'.
    destruct (Js.strictEq (VStr s) (activeChatId st)); [reflexivity|].
    exact (IH Hact).
Qed.

Lemma inv_send (input newId : string) (now : Z) (st st' : State) :
  stringIds st -> activeListed st ->
  sendRecorded input newId now st = Ret st' ->
  stringIds st' /\ activeListed st'.
Proof.
  intros Hs Ha. unfold sendRecorded.
  destruct (String.eqb _ ""); [intros [= <-]; now split|].
  destruct (negb (Js.truthy (token st))); [intros [= <-]; now split|].
  destruct (negb (Js.truthy (activeChatId st))).
  - destruct (handleNewChat VUndefined newId now st) as [opened|e] eqn:En;
      cbn [mbind Exc_bind]; [|discriminate].
    destruct (inv_newChat _ _ _ _ _ Hs En) as [Hs' Ha'].
    destruct (spread (messages st)) as [shown|e]; cbn [mbind Exc_bind];
      [|discriminate].
    now apply inv_persist.
  - cbn [mbind Exc_bind].
    destruct (spread (messages st)) as [shown|e]; cbn [mbind Exc_bind];
      [|discriminate].
    now apply inv_persist.
Qed.

(** X24.  The active chat is always a chat of the list.  On a state
    whose chats have strings for ids and whose active chat is none or
    one of them, every handler that runs to its end (creating a project,
    opening, choosing or deleting a chat, deleting a project, storing
    messages, sending) leaves a state of the same kind, and so does
    every sequence of them: deleting never leaves the client on a chat
    that is gone. *)
Theorem active_chat_stays_listed (st st' : State) :
  stringIds st -> activeListed st ->
  rtc Step st st' ->
  stringIds st' /\ activeListed st'.
Proof.
  intros Hs Ha H. induction H as [st|st mid st' Hstep _ IH]; [now split|].
  assert (Hmid : stringIds mid /\ activeListed mid).
  { destruct Hstep as [answer newId now H|p newId now H|chatId H
                      |confirmed chatId H|confirmed projectId H
                      |ms H|input newId now H].
    - destruct (inv_create _ _ _ _ _ H) as [Hc Hi].
      destruct (listed_elim st Hs Ha) as (l & Hl & Hids & Hact).
      apply (listed_intro _ l); [congruence | exact Hids |].
      now rewrite Hi.
    - now apply (inv_newChat p newId now st).
    - now apply (inv_select chatId st).
    - now apply (inv_deleteChat confirmed chatId st).
    - now apply (inv_deleteProject confirmed projectId st).
    - now apply (inv_persist st st mid ms).
    - now apply (inv_send input newId now st). }
  now apply IH.
Qed.

(** *** The side bar *)

(** X26.  The side bar lists a chat in one place only.  The chats
    outside the projects are those whose [projectId] counts as false,
    the chats of a project those whose [projectId] is its id, both in
    the order of the list; with ids that are strings and not empty, no
    chat stands both outside the projects and in a project, and none in
    two projects. *)
Theorem side_bar_lists_a_chat_once
    (st : State) (cs : list jsval) (p q : string) :
  chats st = VArr cs ->
  Forall (fun c => Js.nullish c = false) cs ->
  p <> "" ->
  p <> q ->
  globalChats st
  = Ret (List.filter (fun c => negb (Js.truthy (Js.own "projectId" c))) cs)
  /\ getChatsForProject (VStr p) st
     = Ret (List.filter
              (fun c => Js.strictEq (Js.own "projectId" c) (VStr p)) cs)
  /\ (forall global inP inQ,
        globalChats st = Ret global ->
        getChatsForProject (VStr p) st = Ret inP ->
        getChatsForProject (VStr q) st = Ret inQ ->
        forall c, In c inP -> ~ In c global /\ ~ In c inQ).
Proof.
  intros Hcs Hr Hp Hpq.
  assert (Hg : globalChats st
               = Ret (List.filter
                        (fun c => negb (Js.truthy (Js.own "projectId" c))) cs)).
  { unfold globalChats. rewrite Hcs. cbn [asArray mbind Exc_bind].
    now rewrite (filterE_filter "projectId" (fun v => negb (Js.truthy v))). }
  assert (Hl : forall r, getChatsForProject (VStr r) st
               = Ret (List.filter
                        (fun c => Js.strictEq (Js.own "projectId" c) (VStr r))
                        cs)).
  { intros r. unfold getChatsForProject, projectIs. rewrite Hcs.
    cbn [asArray mbind Exc_bind].
    now rewrite (filterE_filter "projectId" (fun v => Js.strictEq v (VStr r))). }
  split; [exact Hg|]. split; [apply Hl|].
  intros global inP inQ. rewrite Hg, !Hl. intros [= <-] [= <-] [= <-] c Hc.
  apply filter_In in Hc as [_ Hc]. apply strictEq_string_r in Hc.
  split; intros H; apply filter_In in H as [_ H]; rewrite Hc in H.
  - cbn in H. apply String.eqb_neq in Hp. now rewrite Hp in H.
  - cbn in H. apply String.eqb_eq in H. contradiction.
Qed.

End ChatFacts.

(** ** The client on the sample states *)

Module ClientRuns.
Import Catalog Client Chats Design.

Lemma enabled_send_posts_witness :
  exists reqBody,
    handleSend "Write a tagline" Samples.newYear2025 Samples.imageState
    = Post (if isVideoMode Samples.imageState then ApiVideo
            else if isImageMode Samples.imageState then ApiImage else ApiAi)
           (bearer (token Samples.imageState)) reqBody
    /\ Js.own "prompt" reqBody = VStr (Str.trim "Write a tagline")
    /\ Str.inked "Write a tagline" = true.
Proof.
  apply (ControlFacts.enabled_send_posts false); reflexivity.
Defined.

Lemma default_selection_is_first_witness :
  exists first rest,
    rank Samples.mapped = first :: rest
    /\ models (modelsLoaded (rank Samples.mapped) Samples.chatState)
       = first :: rest
    /\ selectedModel (modelsLoaded (rank Samples.mapped) Samples.chatState)
       = id first
    /\ (forall m, In m Samples.mapped -> isFree m = true -> isFree first = true).
Proof.
  apply ControlFacts.default_selection_is_first.
  - repeat constructor; discriminate.
  - discriminate.
Defined.

Lemma selection_settles_witness :
  selectionEffect (selectionEffect Samples.imageState)
  = selectionEffect Samples.imageState
  /\ (filteredModels Samples.imageState <> [] ->
      exists m,
        selectedModelObj (selectionEffect Samples.imageState) = Some m
        /\ In m (filteredModels Samples.imageState)
        /\ id m = selectedModel (selectionEffect Samples.imageState)).
Proof.
  apply ControlFacts.selection_settles.
  vm_compute. repeat (constructor; [eexists; reflexivity|]). constructor.
Defined.


Lemma only_active_chat_is_rewritten_witness :
  exists cs',
    chats Cases.storedState = VArr cs'
    /\ messages Cases.storedState = VArr Cases.turnMessages
    /\ projects Cases.storedState = projects Cases.workState
    /\ activeChatId Cases.storedState = activeChatId Cases.workState
    /\ activeProjectId Cases.storedState = activeProjectId Cases.workState
    /\ Forall2
         (fun c c' =>
            if Js.strictEq (Js.own "id" c) (activeChatId Cases.workState)
            then Js.own "messages" c' = VArr Cases.turnMessages
                 /\ getChatTitleFromMessages Cases.turnMessages
                      (Js.own "title" c)
                    = Ret (Js.own "title" c')
                 /\ (forall k, k <> "messages" -> k <> "title" ->
                       Js.own k c' = Js.own k c)
            else c' = c) [Samples.chat1; Cases.chat2] cs'.
Proof.
  apply (ChatFacts.only_active_chat_is_rewritten Cases.workState Cases.workState).
  - reflexivity.
  - discriminate.
  - reflexivity.
Defined.

Lemma stored_messages_come_back_witness :
  exists st'',
    handleSelectChat (VStr "c1") Cases.storedState = Ret st''
    /\ messages st'' = VArr Cases.turnMessages
    /\ activeChatId st'' = VStr "c1"
    /\ chats st'' = chats Cases.storedState.
Proof.
  apply (ChatFacts.stored_messages_come_back "c1" Cases.turnMessages
           [Samples.chat1; Cases.chat2] Cases.workState).
  - reflexivity.
  - reflexivity.
  - repeat (constructor; [eexists; reflexivity|]). constructor.
  - reflexivity.
  - reflexivity.
Defined.

Lemma first_turn_is_not_stored_witness :
  exists st' newChat,
    sendRecorded "Write a tagline" "c9" Samples.newYear2025 Samples.chatState
    = Ret st'
    /\ chats st' = VArr (newChat :: [])
    /\ Js.own "id" newChat = VStr "c9"
    /\ Js.own "messages" newChat = INITIAL_MESSAGES
    /\ activeChatId st' = VStr "c9"
    /\ messages st'
       = VArr ([VObj [("role", VStr "system");
                      ("text", VStr "WELCOME TO Leonard van Rooyen's personal AI. CHOOSE A BRAND, PICK A MODE, AND TELL ME WHAT YOU WANT TO CREATE.")]]
               ++ [if negb (isVideoMode Samples.chatState)
                      && negb (Js.truthy (selectedModel Samples.chatState))
                   then assistantNotice
                   else userMessage (Str.trim "Write a tagline")
                                    Samples.chatState])
    /\ exists st'',
         handleSelectChat (VStr "c9") st' = Ret st''
         /\ messages st'' = INITIAL_MESSAGES.
Proof.
  apply ChatFacts.first_turn_is_not_stored.
  - reflexivity.
  - reflexivity.
  - reflexivity.
  - reflexivity.
  - constructor.
  - reflexivity.
Defined.

Lemma delete_project_takes_its_chats_witness :
  projects Cases.clearedState
  = VArr (List.filter
            (fun p => negb (Js.strictEq (Js.own "id" p) (VStr "p1")))
            [Samples.project1])
  /\ chats Cases.clearedState
     = VArr (List.filter
               (fun c => negb (Js.strictEq (Js.own "projectId" c) (VStr "p1")))
               [Samples.chat1; Cases.chat2])
  /\ (forall c cs', chats Cases.clearedState = VArr cs' -> In c cs' ->
        In c [Samples.chat1; Cases.chat2]
        /\ Js.own "projectId" c <> VStr "p1")
  /\ activeProjectId Cases.clearedState <> VStr "p1".
Proof.
  apply (ChatFacts.delete_project_takes_its_chats "p1" Cases.workState).
  - reflexivity.
  - reflexivity.
  - reflexivity.
Defined.

Lemma active_chat_stays_listed_witness :
  stringIds Cases.clearedState /\ activeListed Cases.clearedState.
Proof.
  apply (ChatFacts.active_chat_stays_listed Cases.workState).
  - exists [Samples.chat1; Cases.chat2]. split; [reflexivity|].
    repeat (constructor; [eexists; reflexivity|]). constructor.
  - right. exists [Samples.chat1; Cases.chat2]. split; reflexivity.
  - apply rtc_once.
    apply (StepDeleteProject _ _ true (VStr "p1")). reflexivity.
Defined.

Example work_state_after_delete :
  activeChatId Cases.clearedState = VStr "c2"
  /\ activeProjectId Cases.clearedState = VNull
  /\ messages Cases.clearedState = INITIAL_MESSAGES.
Proof. repeat split. Qed.

Lemma side_bar_lists_a_chat_once_witness :
  globalChats Cases.workState
  = Ret (List.filter (fun c => negb (Js.truthy (Js.own "projectId" c)))
                     [Samples.chat1; Cases.chat2])
  /\ getChatsForProject (VStr "p1") Cases.workState
     = Ret (List.filter
              (fun c => Js.strictEq (Js.own "projectId" c) (VStr "p1"))
              [Samples.chat1; Cases.chat2])
  /\ (forall global inP inQ,
        globalChats Cases.workState = Ret global ->
        getChatsForProject (VStr "p1") Cases.workState = Ret inP ->
        getChatsForProject (VStr "p2") Cases.workState = Ret inQ ->
        forall c, In c inP -> ~ In c global /\ ~ In c inQ).
Proof.
  apply ChatFacts.side_bar_lists_a_chat_once.
  - reflexivity.
  - repeat constructor.
  - discriminate.
  - discriminate.
Defined.

End ClientRuns.
